(** * cluster_plug: a shallow embedding of drivers/cpufreq/hisi/cluster_plug.c

    The driver is a load-driven CPU hotplug controller for a 4+4
    LITTLE.big system (the build defines [LITTLE_BIG], so cpu0..cpu3 are
    the little cores and cpu4..cpu7 the big ones).  Module-level
    variables become one [state] record that every function threads
    explicitly; the kernel facilities the driver calls (CPU hotplug, the
    work queue, the idle-time source, the sysfs number parser) are
    modelled by the small definitions of the first sections. *)

From Stdlib Require Import ZArith NArith List Bool Lia.
From stdpp Require Import base list.

Local Open Scope Z_scope.

(** ** Machine integers *)

(** [unsigned int] and [u64] values are integers in [Z]; every C operation
    that can wrap has its reduction written out with [u32] or [u64]. *)
Definition u32 (x : Z) : Z := x mod 2 ^ 32.
Definition u64 (x : Z) : Z := x mod 2 ^ 64.

(** ** Topology *)

Definition N_BIG_CPUS : nat := 4.
Definition N_LITTLE_CPUS : nat := 4.

(** [#ifdef LITTLE_BIG] branch of both predicates. *)
Definition is_big_cpu (cpu : nat) : bool := (N_LITTLE_CPUS <=? cpu)%nat.
Definition is_little_cpu (cpu : nat) : bool := (cpu <? N_LITTLE_CPUS)%nat.

(** The cpus walked by [for_each_present_cpu] and [for_each_possible_cpu]:
    the eight cores of the platform, in increasing order. *)
Definition present_cpus : list nat := seq 0 (N_LITTLE_CPUS + N_BIG_CPUS).
Definition possible_cpus : list nat := present_cpus.

(** ** Driver state *)

(** The six plain [module_param(..., uint, 0664)] variables. *)
Record params := {
  load_threshold_down : Z;
  load_threshold_up : Z;
  sampling_time : Z;
  vote_threshold_down : Z;
  vote_threshold_up : Z;
  max_cores_screenoff : Z
}.

Record cp_cpu_info := {
  prev_cpu_wall : Z;
  prev_cpu_idle : Z
}.

(** The one work item [cluster_plug_work] on [clusterplug_wq]: not pending,
    pending on its timer (a delayed queueing of [ms] milliseconds), or
    already on the queue waiting for the worker. *)
Inductive work_state :=
| WorkIdle
| WorkTimer (ms : Z)
| WorkQueued.

Record state := {
  par : params;
  active : bool;
  workqueue_suspended : bool;
  screen_on : bool;
  big_cluster_enabled : bool;
  little_cluster_enabled : bool;
  low_power_mode : bool;
  screen_off_power_mode : bool;
  online_all : bool;
  vote_up : Z;
  vote_down : Z;
  (** [DEFINE_PER_CPU(struct cp_cpu_info, cp_info)], indexed by cpu *)
  cp_info : list cp_cpu_info;
  (** the kernel's [cpu_online_mask], bit [n] for cpu [n] *)
  cpu_online_mask : N;
  (** the [offline] field of each cpu's [struct device], bit [n] for cpu [n] *)
  dev_offline : N;
  work : work_state
}.

Definition set_par (v : params) (s : state) : state :=
  {| par := v; active := active s; workqueue_suspended := workqueue_suspended s;
     screen_on := screen_on s; big_cluster_enabled := big_cluster_enabled s;
     little_cluster_enabled := little_cluster_enabled s;
     low_power_mode := low_power_mode s;
     screen_off_power_mode := screen_off_power_mode s;
     online_all := online_all s; vote_up := vote_up s; vote_down := vote_down s;
     cp_info := cp_info s; cpu_online_mask := cpu_online_mask s;
     dev_offline := dev_offline s; work := work s |}.

Definition set_active (v : bool) (s : state) : state :=
  {| par := par s; active := v; workqueue_suspended := workqueue_suspended s;
     screen_on := screen_on s; big_cluster_enabled := big_cluster_enabled s;
     little_cluster_enabled := little_cluster_enabled s;
     low_power_mode := low_power_mode s;
     screen_off_power_mode := screen_off_power_mode s;
     online_all := online_all s; vote_up := vote_up s; vote_down := vote_down s;
     cp_info := cp_info s; cpu_online_mask := cpu_online_mask s;
     dev_offline := dev_offline s; work := work s |}.

Definition set_workqueue_suspended (v : bool) (s : state) : state :=
  {| par := par s; active := active s; workqueue_suspended := v;
     screen_on := screen_on s; big_cluster_enabled := big_cluster_enabled s;
     little_cluster_enabled := little_cluster_enabled s;
     low_power_mode := low_power_mode s;
     screen_off_power_mode := screen_off_power_mode s;
     online_all := online_all s; vote_up := vote_up s; vote_down := vote_down s;
     cp_info := cp_info s; cpu_online_mask := cpu_online_mask s;
     dev_offline := dev_offline s; work := work s |}.

Definition set_screen_on (v : bool) (s : state) : state :=
  {| par := par s; active := active s; workqueue_suspended := workqueue_suspended s;
     screen_on := v; big_cluster_enabled := big_cluster_enabled s;
     little_cluster_enabled := little_cluster_enabled s;
     low_power_mode := low_power_mode s;
     screen_off_power_mode := screen_off_power_mode s;
     online_all := online_all s; vote_up := vote_up s; vote_down := vote_down s;
     cp_info := cp_info s; cpu_online_mask := cpu_online_mask s;
     dev_offline := dev_offline s; work := work s |}.

Definition set_big_cluster_enabled (v : bool) (s : state) : state :=
  {| par := par s; active := active s; workqueue_suspended := workqueue_suspended s;
     screen_on := screen_on s; big_cluster_enabled := v;
     little_cluster_enabled := little_cluster_enabled s;
     low_power_mode := low_power_mode s;
     screen_off_power_mode := screen_off_power_mode s;
     online_all := online_all s; vote_up := vote_up s; vote_down := vote_down s;
     cp_info := cp_info s; cpu_online_mask := cpu_online_mask s;
     dev_offline := dev_offline s; work := work s |}.

Definition set_little_cluster_enabled (v : bool) (s : state) : state :=
  {| par := par s; active := active s; workqueue_suspended := workqueue_suspended s;
     screen_on := screen_on s; big_cluster_enabled := big_cluster_enabled s;
     little_cluster_enabled := v;
     low_power_mode := low_power_mode s;
     screen_off_power_mode := screen_off_power_mode s;
     online_all := online_all s; vote_up := vote_up s; vote_down := vote_down s;
     cp_info := cp_info s; cpu_online_mask := cpu_online_mask s;
     dev_offline := dev_offline s; work := work s |}.

Definition set_low_power_mode (v : bool) (s : state) : state :=
  {| par := par s; active := active s; workqueue_suspended := workqueue_suspended s;
     screen_on := screen_on s; big_cluster_enabled := big_cluster_enabled s;
     little_cluster_enabled := little_cluster_enabled s;
     low_power_mode := v;
     screen_off_power_mode := screen_off_power_mode s;
     online_all := online_all s; vote_up := vote_up s; vote_down := vote_down s;
     cp_info := cp_info s; cpu_online_mask := cpu_online_mask s;
     dev_offline := dev_offline s; work := work s |}.

Definition set_screen_off_power_mode (v : bool) (s : state) : state :=
  {| par := par s; active := active s; workqueue_suspended := workqueue_suspended s;
     screen_on := screen_on s; big_cluster_enabled := big_cluster_enabled s;
     little_cluster_enabled := little_cluster_enabled s;
     low_power_mode := low_power_mode s;
     screen_off_power_mode := v;
     online_all := online_all s; vote_up := vote_up s; vote_down := vote_down s;
     cp_info := cp_info s; cpu_online_mask := cpu_online_mask s;
     dev_offline := dev_offline s; work := work s |}.

Definition set_online_all (v : bool) (s : state) : state :=
  {| par := par s; active := active s; workqueue_suspended := workqueue_suspended s;
     screen_on := screen_on s; big_cluster_enabled := big_cluster_enabled s;
     little_cluster_enabled := little_cluster_enabled s;
     low_power_mode := low_power_mode s;
     screen_off_power_mode := screen_off_power_mode s;
     online_all := v; vote_up := vote_up s; vote_down := vote_down s;
     cp_info := cp_info s; cpu_online_mask := cpu_online_mask s;
     dev_offline := dev_offline s; work := work s |}.

Definition set_vote_up (v : Z) (s : state) : state :=
  {| par := par s; active := active s; workqueue_suspended := workqueue_suspended s;
     screen_on := screen_on s; big_cluster_enabled := big_cluster_enabled s;
     little_cluster_enabled := little_cluster_enabled s;
     low_power_mode := low_power_mode s;
     screen_off_power_mode := screen_off_power_mode s;
     online_all := online_all s; vote_up := v; vote_down := vote_down s;
     cp_info := cp_info s; cpu_online_mask := cpu_online_mask s;
     dev_offline := dev_offline s; work := work s |}.

Definition set_vote_down (v : Z) (s : state) : state :=
  {| par := par s; active := active s; workqueue_suspended := workqueue_suspended s;
     screen_on := screen_on s; big_cluster_enabled := big_cluster_enabled s;
     little_cluster_enabled := little_cluster_enabled s;
     low_power_mode := low_power_mode s;
     screen_off_power_mode := screen_off_power_mode s;
     online_all := online_all s; vote_up := vote_up s; vote_down := v;
     cp_info := cp_info s; cpu_online_mask := cpu_online_mask s;
     dev_offline := dev_offline s; work := work s |}.

Definition set_cp_info (v : list cp_cpu_info) (s : state) : state :=
  {| par := par s; active := active s; workqueue_suspended := workqueue_suspended s;
     screen_on := screen_on s; big_cluster_enabled := big_cluster_enabled s;
     little_cluster_enabled := little_cluster_enabled s;
     low_power_mode := low_power_mode s;
     screen_off_power_mode := screen_off_power_mode s;
     online_all := online_all s; vote_up := vote_up s; vote_down := vote_down s;
     cp_info := v; cpu_online_mask := cpu_online_mask s;
     dev_offline := dev_offline s; work := work s |}.

Definition set_cpu_online_mask (v : N) (s : state) : state :=
  {| par := par s; active := active s; workqueue_suspended := workqueue_suspended s;
     screen_on := screen_on s; big_cluster_enabled := big_cluster_enabled s;
     little_cluster_enabled := little_cluster_enabled s;
     low_power_mode := low_power_mode s;
     screen_off_power_mode := screen_off_power_mode s;
     online_all := online_all s; vote_up := vote_up s; vote_down := vote_down s;
     cp_info := cp_info s; cpu_online_mask := v;
     dev_offline := dev_offline s; work := work s |}.

Definition set_dev_offline (v : N) (s : state) : state :=
  {| par := par s; active := active s; workqueue_suspended := workqueue_suspended s;
     screen_on := screen_on s; big_cluster_enabled := big_cluster_enabled s;
     little_cluster_enabled := little_cluster_enabled s;
     low_power_mode := low_power_mode s;
     screen_off_power_mode := screen_off_power_mode s;
     online_all := online_all s; vote_up := vote_up s; vote_down := vote_down s;
     cp_info := cp_info s; cpu_online_mask := cpu_online_mask s;
     dev_offline := v; work := work s |}.

Definition set_work (v : work_state) (s : state) : state :=
  {| par := par s; active := active s; workqueue_suspended := workqueue_suspended s;
     screen_on := screen_on s; big_cluster_enabled := big_cluster_enabled s;
     little_cluster_enabled := little_cluster_enabled s;
     low_power_mode := low_power_mode s;
     screen_off_power_mode := screen_off_power_mode s;
     online_all := online_all s; vote_up := vote_up s; vote_down := vote_down s;
     cp_info := cp_info s; cpu_online_mask := cpu_online_mask s;
     dev_offline := dev_offline s; work := v |}.

(** ** Kernel facilities

    The driver's file calls into the kernel for CPU hotplug, for its work
    item and for parsing the text written to a parameter.  Those functions
    live outside the driver; each is given here the behaviour the kernel
    documents for it, as far as the driver depends on it. *)

Module Kernel.

(** *** CPU hotplug

    [cpu_up] and [cpu_down] are the hotplug entry points of the kernel.
    The driver ignores their return values; the model takes the request
    to succeed, so that a cpu's bit in [cpu_online_mask] follows the last
    request made for it. *)

Definition cpu_online (s : state) (cpu : nat) : bool :=
  N.testbit (cpu_online_mask s) (N.of_nat cpu).

Definition cpu_is_offline (s : state) (cpu : nat) : bool :=
  negb (cpu_online s cpu).

Definition cpu_up (cpu : nat) (s : state) : state :=
  set_cpu_online_mask (N.setbit (cpu_online_mask s) (N.of_nat cpu)) s.

Definition cpu_down (cpu : nat) (s : state) : state :=
  set_cpu_online_mask (N.clearbit (cpu_online_mask s) (N.of_nat cpu)) s.

(** [get_cpu_device(cpu)->offline = v] *)
Definition dev_set_offline (cpu : nat) (v : bool) (s : state) : state :=
  set_dev_offline
    (if v then N.setbit (dev_offline s) (N.of_nat cpu)
     else N.clearbit (dev_offline s) (N.of_nat cpu)) s.

Definition dev_is_offline (s : state) (cpu : nat) : bool :=
  N.testbit (dev_offline s) (N.of_nat cpu).

(** *** Work queue

    A work item that is already pending is not queued a second time
    ([queue_delayed_work] and [queue_work] return false and change
    nothing); a zero delay puts the item on the queue at once. *)

Definition queue_delayed_work (ms : Z) (s : state) : state :=
  match work s with
  | WorkIdle => set_work (if ms =? 0 then WorkQueued else WorkTimer ms) s
  | _ => s
  end.

Definition queue_work (s : state) : state :=
  match work s with
  | WorkIdle => set_work WorkQueued s
  | _ => s
  end.

(** [cancel_delayed_work]: a pending item stops being pending. *)
Definition cancel_delayed_work (s : state) : state := set_work WorkIdle s.

(** The timer of a delayed item expires: the item moves to the queue. *)
Definition timer_fire (s : state) : state :=
  match work s with
  | WorkTimer _ => set_work WorkQueued s
  | _ => s
  end.

(** *** The sysfs number parser

    What a write to a parameter file carries: text that denotes the
    integer [v], or text that denotes no integer. *)
Inductive written :=
| Num (v : Z)
| Malformed.

Definition EINVAL : Z := 22.
Definition ERANGE : Z := 34.

(** [kstrtoint(buf, 0, &value)]: 0 and the value, or a negative errno. *)
Definition kstrtoint (w : written) : Z * Z :=
  match w with
  | Num v => if (- 2 ^ 31 <=? v) && (v <? 2 ^ 31) then (0, v) else (- ERANGE, 0)
  | Malformed => (- EINVAL, 0)
  end.

(** [kstrtouint(buf, 0, &value)], the parser behind a [uint] parameter. *)
Definition kstrtouint (w : written) : Z * Z :=
  match w with
  | Num v => if (0 <=? v) && (v <? 2 ^ 32) then (0, v) else (- ERANGE, 0)
  | Malformed => (- EINVAL, 0)
  end.

End Kernel.
Import Kernel.

(** ** Outcomes

    A driver function returns, or hits the unguarded division of
    [calculateLoad] with a zero divisor, or waits forever for
    [cluster_plug_mutex]. *)
Inductive outcome (A : Type) :=
| Ret (a : A)
| DivByZero
| Blocked.
Arguments Ret {A} a.
Arguments DivByZero {A}.
Arguments Blocked {A}.

Definition bind {A B : Type} (m : outcome A) (k : A -> outcome B) : outcome B :=
  match m with
  | Ret a => k a
  | DivByZero => DivByZero
  | Blocked => Blocked
  end.

Notation "'do' x <- m ; k" := (bind m (fun x => k))
  (at level 10, x name, m at level 100, k at level 200,
   format "'[v' 'do'  x  <-  m ;  '/' k ']'").

(** ** Utilization sampling *)

(** What [get_cpu_idle_time(cpu, &wall, 0)] reads for each cpu at one tick:
    the cumulative idle time and the cumulative wall time, both [u64]. *)
Definition time_source := nat -> Z * Z.

Definition per_cpu (info : list cp_cpu_info) (cpu : nat) : cp_cpu_info :=
  default {| prev_cpu_wall := 0; prev_cpu_idle := 0 |} (info !! cpu).

Definition get_delta_cpu_load_and_update
    (tm : time_source) (cpu : nat) (s : state) : Z * state :=
  let l_cp_info := per_cpu (cp_info s) cpu in
  let cur_idle_time := fst (tm cpu) in
  let cur_wall_time := snd (tm cpu) in
  let wall_time := u32 (u64 (cur_wall_time - prev_cpu_wall l_cp_info)) in
  let idle_time := u32 (u64 (cur_idle_time - prev_cpu_idle l_cp_info)) in
  let s' :=
    set_cp_info
      (<[cpu := {| prev_cpu_wall := cur_wall_time;
                   prev_cpu_idle := cur_idle_time |}]> (cp_info s)) s in
  if (wall_time =? 0) || (wall_time <? idle_time) then (100, s')
  else (u32 (100 * u32 (wall_time - idle_time)) / wall_time, s').

(** The [unsigned int] to [int] conversion at [return load_avg]. *)
Definition int_of_u32 (x : Z) : Z := (x + 2 ^ 31) mod 2 ^ 32 - 2 ^ 31.

(** Loop state of [calculateLoad]: [cpus], [cpu_load_little],
    [cpu_load_big]. *)
Record load_acc := {
  cpus : Z;
  cpu_load_little : Z;
  cpu_load_big : Z
}.

Definition calculateLoad_body (tm : time_source)
    (acc : load_acc * state) (cpu : nat) : load_acc * state :=
  let a := fst acc in
  let r := get_delta_cpu_load_and_update tm cpu (snd acc) in
  let cpu_load := fst r in
  let s1 := snd r in
  if cpu_online s1 cpu then
    if is_big_cpu cpu then
      ({| cpus := u32 (cpus a + 1); cpu_load_little := cpu_load_little a;
          cpu_load_big := u32 (cpu_load_big a + cpu_load) |}, s1)
    else
      ({| cpus := u32 (cpus a + 1);
          cpu_load_little := u32 (cpu_load_little a + cpu_load);
          cpu_load_big := cpu_load_big a |}, s1)
  else (a, s1).

Definition calculateLoad_loop (tm : time_source) (s : state) : load_acc * state :=
  fold_left (calculateLoad_body tm) possible_cpus
    ({| cpus := 0; cpu_load_little := 0; cpu_load_big := 0 |}, s).

Definition calculateLoad (tm : time_source) (s : state) : outcome (Z * state) :=
  let r := calculateLoad_loop tm s in
  let load := u32 (cpu_load_big (fst r) + cpu_load_little (fst r)) in
  if cpus (fst r) =? 0 then DivByZero
  else Ret (int_of_u32 (load / cpus (fst r)), snd r).

(** ** Switching cores *)

(** [for (cpu_num = 7; cpu_num >= 0; cpu_num--)]: the argument is the loop
    variable. *)
Fixpoint optimized_online_all_from (cpu_num : nat) (s : state) : state :=
  let s' :=
    if cpu_is_offline s cpu_num
    then dev_set_offline cpu_num false (cpu_up cpu_num s)
    else s in
  match cpu_num with
  | O => s'
  | S prev => optimized_online_all_from prev s'
  end.

Definition optimized_online_all (s : state) : state :=
  optimized_online_all_from 7 s.

Definition switch_cpu (cpu : nat) (offline : bool) (s : state) : state :=
  let s1 :=
    if offline then (if cpu_online s cpu then cpu_down cpu s else s)
    else (if cpu_is_offline s cpu then cpu_up cpu s else s) in
  dev_set_offline cpu offline s1.

Definition disable_big_cluster_body (s : state) (cpu : nat) : state :=
  if is_big_cpu cpu && cpu_online s cpu then switch_cpu cpu true s else s.

Definition disable_big_cluster (s : state) : state :=
  if negb (big_cluster_enabled s) then s
  else set_big_cluster_enabled false
         (fold_left disable_big_cluster_body present_cpus s).

(** Loop state of [enable_little_cluster]: [required_cpus] and the driver
    state ([num_up] and [total_cpus] only feed the log line). *)
Definition enable_little_cluster_body
    (acc : Z * state) (cpu : nat) : Z * state :=
  let required_cpus := fst acc in
  let s := snd acc in
  if is_little_cpu cpu then
    if 0 <? required_cpus then
      (u32 (required_cpus - 1),
       if negb (cpu_online s cpu) then switch_cpu cpu false s else s)
    else
      (required_cpus, if cpu_online s cpu then switch_cpu cpu true s else s)
  else acc.

Definition enable_little_cluster (s : state) : state :=
  let max := max_cores_screenoff (par s) in
  let required_cpus :=
    if negb (screen_on s) && negb (screen_off_power_mode s) then
      (if (0 <? max) && (max <=? 4) then max else 4)
    else 4 in
  set_little_cluster_enabled true
    (snd (fold_left enable_little_cluster_body present_cpus (required_cpus, s))).

Definition queue_clusterplug_work (ms : Z) (s : state) : state :=
  queue_delayed_work ms s.

(** [for (cpu_num = 7-1; cpu_num >= 0+1; cpu_num--)] with its early
    [return]: the argument is the loop variable, and [O] is the first value
    that fails the loop test. *)
Fixpoint online_one_cpu_from (cpu_num : nat) (s : state) : state :=
  match cpu_num with
  | O => s
  | S prev =>
      if cpu_is_offline s cpu_num
      then dev_set_offline cpu_num false (cpu_up cpu_num s)
      else online_one_cpu_from prev s
  end.

Definition online_one_cpu (s : state) : state :=
  online_one_cpu_from (7 - 1) s.

Fixpoint offline_one_cpu_from (cpu_num : nat) (s : state) : state :=
  match cpu_num with
  | O => s
  | S prev =>
      if cpu_online s cpu_num
      then dev_set_offline cpu_num true (cpu_down cpu_num s)
      else offline_one_cpu_from prev s
  end.

Definition offline_one_cpu (s : state) : state :=
  offline_one_cpu_from (7 - 1) s.

(** ** Voting *)

(** Which switcher a decision step called. *)
Inductive Action :=
| NoAction
| AddCore
| RemoveCore.

(** First conditional of [cluster_plug_perform]: the vote update. *)
Definition vote_update (load : Z) (s : state) : state :=
  if load >? load_threshold_up (par s) then
    let s1 := set_vote_up (u32 (vote_up s + 1)) s in
    if vote_down s1 >? 0 then set_vote_down (u32 (vote_down s1 - 1)) s1 else s1
  else if load <? load_threshold_down (par s) then
    let s1 := set_vote_down (u32 (vote_down s + 1)) s in
    if vote_up s1 >? 0 then set_vote_up (u32 (vote_up s1 - 1)) s1 else s1
  else s.

(** Second conditional of [cluster_plug_perform]: the threshold test, the
    switch and the reset. *)
Definition vote_decide (s : state) : Action * state :=
  if vote_up s >? vote_threshold_up (par s) then
    (AddCore, set_vote_up 0 (set_vote_down 0 (online_one_cpu s)))
  else if vote_down s >? vote_threshold_down (par s) then
    (RemoveCore, set_vote_up 0 (set_vote_down 0 (offline_one_cpu s)))
  else (NoAction, s).

(** The body of [cluster_plug_perform] after [int load = calculateLoad()];
    [load] is the value the two comparisons see, that is [load] converted
    to [unsigned int]. *)
Definition cluster_plug_vote (load : Z) (s : state) : Action * state :=
  vote_decide (vote_update load s).

Definition cluster_plug_perform (tm : time_source) (s : state) : outcome state :=
  do r <- calculateLoad tm s;
  Ret (snd (cluster_plug_vote (u32 (fst r)) (snd r))).

(** ** The periodic work *)

(** [mutex_held] tells whether the caller that waits for this run already
    holds [cluster_plug_mutex]; the suspend branch takes the mutex and so
    never finishes in that case. *)
Definition cluster_plug_work_fn
    (tm : time_source) (mutex_held : bool) (s : state) : outcome state :=
  let s1 :=
    if online_all s
    then set_little_cluster_enabled true
           (set_big_cluster_enabled true (optimized_online_all s))
    else s in
  if active s1 then
    if negb (online_all s1) then
      if (screen_on s1 || screen_off_power_mode s1) && negb (low_power_mode s1)
      then
        do s2 <- cluster_plug_perform tm s1;
        Ret (set_online_all false
               (queue_clusterplug_work (sampling_time (par s2)) s2))
      else
        let s2 := disable_big_cluster (enable_little_cluster s1) in
        if mutex_held then Blocked
        else Ret (set_workqueue_suspended true s2)
    else
      Ret (set_online_all false
             (queue_clusterplug_work (sampling_time (par s1)) s1))
  else Ret (set_online_all false s1).

(** The worker takes the queued item (which stops being pending) and runs
    its function. *)
Definition run_work
    (tm : time_source) (mutex_held : bool) (s : state) : outcome state :=
  match work s with
  | WorkQueued => cluster_plug_work_fn tm mutex_held (set_work WorkIdle s)
  | _ => Ret s
  end.

(** One tick of the periodic task, run by the worker on its own. *)
Definition tick (tm : time_source) (s : state) : outcome state :=
  run_work tm false s.

(** [flush_workqueue(clusterplug_wq)] as the three store functions call it,
    with [cluster_plug_mutex] held: wait for the queued item to finish. *)
Definition flush_workqueue (tm : time_source) (s : state) : outcome state :=
  run_work tm true s.

(** ** Display notifications *)

Inductive lcd_event :=
| LCD_EVENT_OFF_START
| LCD_EVENT_OFF_END
| LCD_EVENT_ON_START
| LCD_EVENT_ON_END
| LCD_EVENT_OTHER.

Definition cluster_plug_hotplug_suspend (s : state) : state :=
  if active s then
    let s1 := set_screen_on false s in
    if workqueue_suspended s1
    then queue_clusterplug_work 1 (set_workqueue_suspended false s1)
    else s1
  else s.

Definition cluster_plug_hotplug_resume (s : state) : state :=
  if active s then
    let s1 := set_screen_on true s in
    if workqueue_suspended s1 then
      let s2 := set_online_all true s1 in
      let s3 := set_vote_up 0 (set_vote_down 0 s2) in
      let s4 := set_workqueue_suspended false s3 in
      queue_work s4
    else s1
  else s.

Definition lcd_notifier_callback (event : lcd_event) (s : state) : state :=
  if negb (active s) then s
  else
    match event with
    | LCD_EVENT_OFF_END => cluster_plug_hotplug_suspend s
    | LCD_EVENT_ON_START => cluster_plug_hotplug_resume s
    | _ => s
    end.

(** ** Parameter writes *)

(** The three [module_param_cb] setters.  Each returns [ret] and the new
    state. *)
Definition active_store
    (tm : time_source) (buf : written) (s : state) : outcome (Z * state) :=
  let ret := fst (kstrtoint buf) in
  let value := snd (kstrtoint buf) in
  if ret =? 0 then
    if Bool.eqb (negb (value =? 0)) (active s) then Ret (ret, s)
    else
      do s1 <- flush_workqueue tm s;
      let s2 := cancel_delayed_work s1 in
      let s3 := set_active (negb (value =? 0)) s2 in
      let s4 := set_online_all true s3 in
      let s5 := set_workqueue_suspended false s4 in
      Ret (ret, queue_clusterplug_work 1 s5)
  else Ret (ret, s).

Definition low_power_mode_store
    (tm : time_source) (buf : written) (s : state) : outcome (Z * state) :=
  let ret := fst (kstrtoint buf) in
  let value := snd (kstrtoint buf) in
  if ret =? 0 then
    if Bool.eqb (negb (value =? 0)) (low_power_mode s) then Ret (ret, s)
    else
      do s1 <- flush_workqueue tm s;
      let s2 := cancel_delayed_work s1 in
      let s3 := set_low_power_mode (negb (value =? 0)) s2 in
      let s4 :=
        if low_power_mode s3 then set_screen_off_power_mode false s3 else s3 in
      let s5 := set_workqueue_suspended false s4 in
      Ret (ret, queue_clusterplug_work 1 s5)
  else Ret (ret, s).

Definition screen_off_power_mode_store
    (tm : time_source) (buf : written) (s : state) : outcome (Z * state) :=
  let ret := fst (kstrtoint buf) in
  let value := snd (kstrtoint buf) in
  if ret =? 0 then
    if Bool.eqb (negb (value =? 0)) (screen_off_power_mode s) then Ret (ret, s)
    else
      do s1 <- flush_workqueue tm s;
      let s2 := cancel_delayed_work s1 in
      let s3 := set_screen_off_power_mode (negb (value =? 0)) s2 in
      let s4 :=
        if screen_off_power_mode s3 then set_low_power_mode false s3 else s3 in
      let s5 := set_workqueue_suspended false s4 in
      Ret (ret, queue_clusterplug_work 1 s5)
  else Ret (ret, s).

(** The six variables declared with plain [module_param(name, uint, 0664)].
    The declaration names a variable, a type and a file mode and nothing
    else: a write goes through the kernel's setter for [uint], which parses
    the text with [kstrtouint] and, on success, stores the number. *)
Inductive uint_param :=
| P_load_threshold_down
| P_load_threshold_up
| P_sampling_time
| P_vote_threshold_down
| P_vote_threshold_up
| P_max_cores_screenoff.

Definition param_get (p : uint_param) (c : params) : Z :=
  match p with
  | P_load_threshold_down => load_threshold_down c
  | P_load_threshold_up => load_threshold_up c
  | P_sampling_time => sampling_time c
  | P_vote_threshold_down => vote_threshold_down c
  | P_vote_threshold_up => vote_threshold_up c
  | P_max_cores_screenoff => max_cores_screenoff c
  end.

Definition param_put (p : uint_param) (v : Z) (c : params) : params :=
  {| load_threshold_down :=
       match p with P_load_threshold_down => v | _ => load_threshold_down c end;
     load_threshold_up :=
       match p with P_load_threshold_up => v | _ => load_threshold_up c end;
     sampling_time :=
       match p with P_sampling_time => v | _ => sampling_time c end;
     vote_threshold_down :=
       match p with P_vote_threshold_down => v | _ => vote_threshold_down c end;
     vote_threshold_up :=
       match p with P_vote_threshold_up => v | _ => vote_threshold_up c end;
     max_cores_screenoff :=
       match p with P_max_cores_screenoff => v | _ => max_cores_screenoff c end |}.

Definition param_set_uint (p : uint_param) (buf : written) (s : state) : Z * state :=
  let ret := fst (kstrtouint buf) in
  let value := snd (kstrtouint buf) in
  if ret =? 0 then (ret, set_par (param_put p value (par s)) s)
  else (ret, s).

(** ** Initial state and runs *)

Definition DEF_LOAD_THRESH_DOWN : Z := 20.
Definition DEF_LOAD_THRESH_UP : Z := 80.
Definition DEF_SAMPLING_MS : Z := 50.
Definition DEF_VOTE_THRESHOLD_UP : Z := 2.
Definition DEF_VOTE_THRESHOLD_DOWN : Z := 5.
Definition DEF_MAX_CORES_SCREENOFF : Z := 1.
Definition DEF_ENABLED_BY_DEFAULT : bool := false.

Definition default_params : params :=
  {| load_threshold_down := DEF_LOAD_THRESH_DOWN;
     load_threshold_up := DEF_LOAD_THRESH_UP;
     sampling_time := DEF_SAMPLING_MS;
     vote_threshold_down := DEF_VOTE_THRESHOLD_DOWN;
     vote_threshold_up := DEF_VOTE_THRESHOLD_UP;
     max_cores_screenoff := DEF_MAX_CORES_SCREENOFF |}.

(** The static initialisers of the module, on a system that has booted
    with its eight cores online. *)
Definition init_state : state :=
  {| par := default_params;
     active := DEF_ENABLED_BY_DEFAULT;
     workqueue_suspended := true;
     screen_on := true;
     big_cluster_enabled := true;
     little_cluster_enabled := true;
     low_power_mode := false;
     screen_off_power_mode := false;
     online_all := false;
     vote_up := 0;
     vote_down := 0;
     cp_info := replicate 8 {| prev_cpu_wall := 0; prev_cpu_idle := 0 |};
     cpu_online_mask := 255;
     dev_offline := 0;
     work := WorkIdle |}.

(** Everything that can happen to the driver. *)
Inductive event :=
| EvTimer
| EvTick (tm : time_source)
| EvLcd (e : lcd_event)
| EvActive (tm : time_source) (buf : written)
| EvLowPowerMode (tm : time_source) (buf : written)
| EvScreenOffPowerMode (tm : time_source) (buf : written)
| EvParam (p : uint_param) (buf : written).

Definition step (e : event) (s : state) : outcome state :=
  match e with
  | EvTimer => Ret (timer_fire s)
  | EvTick tm => tick tm s
  | EvLcd ev => Ret (lcd_notifier_callback ev s)
  | EvActive tm buf => do r <- active_store tm buf s; Ret (snd r)
  | EvLowPowerMode tm buf => do r <- low_power_mode_store tm buf s; Ret (snd r)
  | EvScreenOffPowerMode tm buf =>
      do r <- screen_off_power_mode_store tm buf s; Ret (snd r)
  | EvParam p buf => Ret (snd (param_set_uint p buf s))
  end.

Fixpoint run (evs : list event) (s : state) : outcome state :=
  match evs with
  | [] => Ret s
  | e :: rest => do s' <- step e s; run rest s'
  end.

(** The states the driver can be in: those a run from [init_state]
    returns. *)
Inductive reachable : state -> Prop :=
| reachable_init : reachable init_state
| reachable_step e s s' :
    reachable s -> step e s = Ret s' -> reachable s'.

(** ** The specification's reading of two operations

    Definitions of this module follow the wording of the specification,
    not the source; they are what the source definitions are compared
    with. *)
Module Spec.

(** "a fixed scan order that favors big cores ahead of little cores when
    adding": the candidates, the two end cores left out. *)
Definition add_scan_order : list nat := [6; 5; 4; 3; 2; 1]%nat.

(** "and the reverse when removing" *)
Definition remove_scan_order : list nat := rev add_scan_order.

Definition remove_one_core (s : state) : state :=
  match find (cpu_online s) remove_scan_order with
  | Some cpu => dev_set_offline cpu true (cpu_down cpu s)
  | None => s
  end.

(** "validation ([load_down < load_up], thresholds > 0)" and
    "max_cores_when_screen_off: uint (1–N_little)": whether writing [v] to
    [p] keeps the configuration valid. *)
Definition valid_write (p : uint_param) (v : Z) (c : params) : bool :=
  match p with
  | P_load_threshold_down => v <? load_threshold_up c
  | P_load_threshold_up => load_threshold_down c <? v
  | P_vote_threshold_down => 0 <? v
  | P_vote_threshold_up => 0 <? v
  | P_max_cores_screenoff => (1 <=? v) && (v <=? Z.of_nat N_LITTLE_CPUS)
  | P_sampling_time => true
  end.

End Spec.

(** ** Auxiliary notions for the statements *)

(** [hw_only s s']: [s'] is [s] with other cpu masks, every driver variable
    and the work item being the same. *)
Definition with_hw (m d : N) (s : state) : state :=
  set_cpu_online_mask m (set_dev_offline d s).

Definition hw_only (s s' : state) : Prop :=
  s' = with_hw (cpu_online_mask s') (dev_offline s') s.

(** The candidates of the loops of [online_one_cpu] and [offline_one_cpu],
    in the order the loops visit them. *)
Definition scan_order : list nat := [6; 5; 4; 3; 2; 1]%nat.

(** A sequence of decision steps, one per observed load. *)
Fixpoint observe_all (loads : list Z) (s : state) : state :=
  match loads with
  | [] => s
  | load :: rest => observe_all rest (snd (cluster_plug_vote load s))
  end.

(** What every step of the driver keeps, the two mode stores apart: cpu0
    stays online if it was, and the two mode flags are not touched. *)
Definition inv_kept (s s' : state) : Prop :=
  (cpu_online s 0 = true -> cpu_online s' 0 = true) /\
  low_power_mode s' = low_power_mode s /\
  screen_off_power_mode s' = screen_off_power_mode s.

(** The invariant of the reachable states: the boot cpu is online, and the
    two power modes are not both set. *)
Definition driver_inv (s : state) : Prop :=
  cpu_online s 0 = true /\
  low_power_mode s && screen_off_power_mode s = false.

(** [sample_frame s s']: [s'] is [s] with other sampling records, other
    vote counters and other cpu masks; this is all a decision cycle can
    change. *)
Definition sample_frame (s s' : state) : Prop :=
  s' = with_hw (cpu_online_mask s') (dev_offline s')
         (set_vote_up (vote_up s')
            (set_vote_down (vote_down s') (set_cp_info (cp_info s') s))).

(** The number of little cores [enable_little_cluster] asks for. *)
Definition required_little_cpus (s : state) : Z :=
  if negb (screen_on s) && negb (screen_off_power_mode s) then
    (if (0 <? max_cores_screenoff (par s)) && (max_cores_screenoff (par s) <=? 4)
     then max_cores_screenoff (par s) else 4)
  else 4.

(** Whether a tick would take the sampling branch of
    [cluster_plug_work_fn]. *)
Definition sampling_wanted (s : state) : bool :=
  (screen_on s || screen_off_power_mode s) && negb (low_power_mode s).

(** How the suspension flag, the controller switch and the work item go
    together. *)
Definition sched_inv (s : state) : Prop :=
  (workqueue_suspended s = true -> work s = WorkIdle) /\
  (active s = true -> workqueue_suspended s = false -> work s <> WorkIdle) /\
  (online_all s = true -> work s <> WorkIdle).

(** * Properties *)

(** ** Bits of the cpu masks *)

Lemma N_of_nat_eqb (a b : nat) :
  (N.of_nat a =? N.of_nat b)%N = (a =? b)%nat.
Proof.
  destruct (Nat.eqb_spec a b) as [->|Hne].
  - apply N.eqb_refl.
  - apply N.eqb_neq. intros H. apply Hne. now apply Nat2N.inj.
Qed.

Lemma cpu_online_cpu_up s c c' :
  cpu_online (cpu_up c s) c' = (c =? c')%nat || cpu_online s c'.
Proof.
  unfold cpu_online, cpu_up; cbn.
  now rewrite N.setbit_eqb, N_of_nat_eqb.
Qed.

Lemma cpu_online_cpu_down s c c' :
  cpu_online (cpu_down c s) c' = cpu_online s c' && negb (c =? c')%nat.
Proof.
  unfold cpu_online, cpu_down; cbn.
  now rewrite N.clearbit_eqb, N_of_nat_eqb.
Qed.

Lemma cpu_online_dev_set_offline s c v c' :
  cpu_online (dev_set_offline c v s) c' = cpu_online s c'.
Proof. reflexivity. Qed.

Lemma dev_is_offline_dev_set_offline s c v c' :
  dev_is_offline (dev_set_offline c v s) c' =
  if (c =? c')%nat then v else dev_is_offline s c'.
Proof.
  unfold dev_is_offline, dev_set_offline; cbn.
  destruct v.
  - rewrite N.setbit_eqb, N_of_nat_eqb. now destruct (c =? c')%nat.
  - rewrite N.clearbit_eqb, N_of_nat_eqb.
    destruct (c =? c')%nat; cbn; [apply andb_false_r | apply andb_true_r].
Qed.

Lemma dev_is_offline_cpu_up s c c' :
  dev_is_offline (cpu_up c s) c' = dev_is_offline s c'.
Proof. reflexivity. Qed.

Lemma dev_is_offline_cpu_down s c c' :
  dev_is_offline (cpu_down c s) c' = dev_is_offline s c'.
Proof. reflexivity. Qed.

(** [switch_cpu cpu offline] leaves [cpu] online exactly when [offline] is
    false, whatever it was before, and touches no other cpu. *)
Lemma cpu_online_switch_cpu s c off c' :
  cpu_online (switch_cpu c off s) c' =
  if (c =? c')%nat then negb off else cpu_online s c'.
Proof.
  unfold switch_cpu. rewrite cpu_online_dev_set_offline.
  unfold cpu_is_offline.
  destruct off; destruct (cpu_online s c) eqn:Hc; cbn;
    rewrite ?cpu_online_cpu_up, ?cpu_online_cpu_down;
    destruct (Nat.eqb_spec c c') as [<-|Hne]; cbn;
    rewrite ?Hc, ?andb_true_r; reflexivity.
Qed.

(** ** Frames *)

Lemma hw_only_refl s : hw_only s s.
Proof. now destruct s. Qed.

Lemma hw_only_trans s1 s2 s3 : hw_only s1 s2 -> hw_only s2 s3 -> hw_only s1 s3.
Proof.
  unfold hw_only. intros H12 H23. rewrite H23 at 1. rewrite H12 at 1.
  reflexivity.
Qed.

Lemma hw_only_cpu_up c s : hw_only s (cpu_up c s).
Proof. now destruct s. Qed.

Lemma hw_only_cpu_down c s : hw_only s (cpu_down c s).
Proof. now destruct s. Qed.

Lemma hw_only_dev_set_offline c v s : hw_only s (dev_set_offline c v s).
Proof. now destruct s. Qed.

Lemma hw_only_switch_cpu c off s : hw_only s (switch_cpu c off s).
Proof.
  unfold switch_cpu.
  eapply hw_only_trans; [| apply hw_only_dev_set_offline].
  destruct off; [destruct (cpu_online s c) | destruct (cpu_is_offline s c)];
    auto using hw_only_refl, hw_only_cpu_up, hw_only_cpu_down.
Qed.

Create HintDb hw.
#[local] Hint Resolve hw_only_refl hw_only_cpu_up hw_only_cpu_down
  hw_only_dev_set_offline hw_only_switch_cpu : hw.

(** ** The core switcher *)

Lemma hw_only_online_one_cpu_from n s : hw_only s (online_one_cpu_from n s).
Proof.
  induction n as [|n IH]; cbn [online_one_cpu_from]; auto with hw.
  destruct (cpu_is_offline s (S n)); [| exact IH].
  apply (hw_only_trans _ (cpu_up (S n) s)); auto with hw.
Qed.

Lemma hw_only_offline_one_cpu_from n s : hw_only s (offline_one_cpu_from n s).
Proof.
  induction n as [|n IH]; cbn [offline_one_cpu_from]; auto with hw.
  destruct (cpu_online s (S n)); [| exact IH].
  apply (hw_only_trans _ (cpu_down (S n) s)); auto with hw.
Qed.

(** A scan that starts at [n] touches no cpu above [n] and never cpu 0. *)
Lemma online_one_cpu_from_outside n s c :
  (c = 0 \/ n < c)%nat ->
  cpu_online (online_one_cpu_from n s) c = cpu_online s c /\
  dev_is_offline (online_one_cpu_from n s) c = dev_is_offline s c.
Proof.
  intros Hc. induction n as [|n IH]; cbn [online_one_cpu_from]; [easy |].
  destruct (cpu_is_offline s (S n)); [| apply IH; lia].
  rewrite cpu_online_dev_set_offline, cpu_online_cpu_up,
    dev_is_offline_dev_set_offline, dev_is_offline_cpu_up.
  destruct (Nat.eqb_spec (S n) c); [lia | easy].
Qed.

Lemma offline_one_cpu_from_outside n s c :
  (c = 0 \/ n < c)%nat ->
  cpu_online (offline_one_cpu_from n s) c = cpu_online s c /\
  dev_is_offline (offline_one_cpu_from n s) c = dev_is_offline s c.
Proof.
  intros Hc. induction n as [|n IH]; cbn [offline_one_cpu_from]; [easy |].
  destruct (cpu_online s (S n)); [| apply IH; lia].
  rewrite cpu_online_dev_set_offline, cpu_online_cpu_down,
    dev_is_offline_dev_set_offline, dev_is_offline_cpu_down.
  destruct (Nat.eqb_spec (S n) c); [lia |]. now rewrite andb_true_r.
Qed.

(** C2, as the specification words it, fails: with every core online,
    [offline_one_cpu] takes big cpu6 down although the little cpus 1, 2 and
    3 are online, where a little-before-big scan takes cpu1 down. *)
Lemma offline_one_cpu_not_reverse_order :
  is_big_cpu 6 = true /\ is_little_cpu 1 = true /\
  cpu_online init_state 1 = true /\
  cpu_online (offline_one_cpu init_state) 6 = false /\
  cpu_online (offline_one_cpu init_state) 1 = true /\
  cpu_online (Spec.remove_one_core init_state) 6 = true /\
  cpu_online (Spec.remove_one_core init_state) 1 = false /\
  offline_one_cpu init_state <> Spec.remove_one_core init_state.
Proof.
  repeat split; try reflexivity.
  intros H. apply (f_equal cpu_online_mask) in H. vm_compute in H.
  discriminate H.
Qed.

(** C2, amended: [online_one_cpu] and [offline_one_cpu] walk the same
    order, cpu6 down to cpu1, which has the big candidates before the
    little ones; the first switches on the first offline candidate, the
    second switches off the first online candidate, and each returns the
    state it was given when there is no such candidate. *)
Theorem one_cpu_scan_order (s : state) :
  scan_order = [6; 5; 4]%nat ++ [3; 2; 1]%nat /\
  forallb is_big_cpu [6; 5; 4]%nat = true /\
  forallb is_little_cpu [3; 2; 1]%nat = true /\
  online_one_cpu s =
    match find (cpu_is_offline s) scan_order with
    | Some cpu => dev_set_offline cpu false (cpu_up cpu s)
    | None => s
    end /\
  offline_one_cpu s =
    match find (cpu_online s) scan_order with
    | Some cpu => dev_set_offline cpu true (cpu_down cpu s)
    | None => s
    end.
Proof.
  repeat split.
  - unfold online_one_cpu, scan_order.
    cbn [Nat.sub online_one_cpu_from find].
    repeat (match goal with
            | |- context [cpu_is_offline s ?c] => destruct (cpu_is_offline s c)
            end; try reflexivity).
  - unfold offline_one_cpu, scan_order.
    cbn [Nat.sub offline_one_cpu_from find].
    repeat (match goal with
            | |- context [cpu_online s ?c] => destruct (cpu_online s c)
            end; try reflexivity).
Qed.

(** C5: neither [online_one_cpu] nor [offline_one_cpu], nor a decision
    step that calls one of them, changes whether cpu0 or cpu7 is online, or
    the offline mark of their devices. *)
Theorem anchor_cores_untouched (s : state) (load : Z) :
  let unchanged (s' : state) :=
    cpu_online s' 0 = cpu_online s 0 /\
    cpu_online s' 7 = cpu_online s 7 /\
    dev_is_offline s' 0 = dev_is_offline s 0 /\
    dev_is_offline s' 7 = dev_is_offline s 7 in
  unchanged (online_one_cpu s) /\
  unchanged (offline_one_cpu s) /\
  unchanged (snd (cluster_plug_vote load s)).
Proof.
  assert (Hon : forall t,
    cpu_online (online_one_cpu t) 0 = cpu_online t 0 /\
    cpu_online (online_one_cpu t) 7 = cpu_online t 7 /\
    dev_is_offline (online_one_cpu t) 0 = dev_is_offline t 0 /\
    dev_is_offline (online_one_cpu t) 7 = dev_is_offline t 7).
  { intros t. unfold online_one_cpu.
    destruct (online_one_cpu_from_outside (7 - 1) t 0) as [? ?]; [now left |].
    destruct (online_one_cpu_from_outside (7 - 1) t 7) as [? ?];
      [right; cbn; lia |].
    auto. }
  assert (Hoff : forall t,
    cpu_online (offline_one_cpu t) 0 = cpu_online t 0 /\
    cpu_online (offline_one_cpu t) 7 = cpu_online t 7 /\
    dev_is_offline (offline_one_cpu t) 0 = dev_is_offline t 0 /\
    dev_is_offline (offline_one_cpu t) 7 = dev_is_offline t 7).
  { intros t. unfold offline_one_cpu.
    destruct (offline_one_cpu_from_outside (7 - 1) t 0) as [? ?]; [now left |].
    destruct (offline_one_cpu_from_outside (7 - 1) t 7) as [? ?];
      [right; cbn; lia |].
    auto. }
  cbv zeta. split; [apply Hon |]. split; [apply Hoff |].
  unfold cluster_plug_vote, vote_decide.
  set (t := vote_update load s).
  assert (Ht : cpu_online_mask t = cpu_online_mask s /\
               dev_offline t = dev_offline s).
  { subst t. unfold vote_update.
    repeat match goal with
           | |- context [if ?b then _ else _] => destruct b
           end; cbn; auto. }
  destruct Ht as [Hm Hd].
  assert (Hc : forall c, cpu_online t c = cpu_online s c)
    by (intros c; unfold cpu_online; now rewrite Hm).
  assert (Hv : forall c, dev_is_offline t c = dev_is_offline s c)
    by (intros c; unfold dev_is_offline; now rewrite Hd).
  destruct (vote_up t >? vote_threshold_up (par t)); cbn [snd].
  - change (cpu_online (set_vote_up 0 (set_vote_down 0 ?x)) ?c)
      with (cpu_online x c).
    change (dev_is_offline (set_vote_up 0 (set_vote_down 0 ?x)) ?c)
      with (dev_is_offline x c).
    rewrite <- !Hc, <- !Hv. apply Hon.
  - destruct (vote_down t >? vote_threshold_down (par t)); cbn [snd].
    + change (cpu_online (set_vote_up 0 (set_vote_down 0 ?x)) ?c)
        with (cpu_online x c).
      change (dev_is_offline (set_vote_up 0 (set_vote_down 0 ?x)) ?c)
        with (dev_is_offline x c).
      rewrite <- !Hc, <- !Hv. apply Hoff.
    + rewrite !Hc, !Hv. auto.
Qed.

(** ** Voting *)

(** What [hw_only] keeps. *)
Lemma hw_only_fields s s' :
  hw_only s s' ->
  par s' = par s /\ active s' = active s /\
  workqueue_suspended s' = workqueue_suspended s /\
  screen_on s' = screen_on s /\
  big_cluster_enabled s' = big_cluster_enabled s /\
  little_cluster_enabled s' = little_cluster_enabled s /\
  low_power_mode s' = low_power_mode s /\
  screen_off_power_mode s' = screen_off_power_mode s /\
  online_all s' = online_all s /\
  vote_up s' = vote_up s /\ vote_down s' = vote_down s /\
  cp_info s' = cp_info s /\ work s' = work s.
Proof. intros ->. cbn. repeat split. Qed.

Lemma hw_only_online_one_cpu s : hw_only s (online_one_cpu s).
Proof. apply hw_only_online_one_cpu_from. Qed.

Lemma hw_only_offline_one_cpu s : hw_only s (offline_one_cpu s).
Proof. apply hw_only_offline_one_cpu_from. Qed.

Lemma u32_nonneg x : 0 <= u32 x.
Proof. unfold u32. apply Z.mod_pos_bound. lia. Qed.

Lemma vote_update_par load s : par (vote_update load s) = par s.
Proof.
  unfold vote_update.
  repeat match goal with
         | |- context [if ?b then _ else _] => destruct b
         end; reflexivity.
Qed.

Lemma vote_update_nonneg load s :
  0 <= vote_up s -> 0 <= vote_down s ->
  0 <= vote_up (vote_update load s) /\ 0 <= vote_down (vote_update load s).
Proof.
  intros Hu Hd. unfold vote_update.
  repeat match goal with
         | |- context [if ?b then _ else _] => destruct b
         end; cbn; auto using u32_nonneg.
Qed.

Lemma vote_decide_votes s :
  vote_up (snd (vote_decide s)) =
    match fst (vote_decide s) with NoAction => vote_up s | _ => 0 end /\
  vote_down (snd (vote_decide s)) =
    match fst (vote_decide s) with NoAction => vote_down s | _ => 0 end.
Proof.
  unfold vote_decide.
  destruct (vote_up s >? vote_threshold_up (par s)); [now cbn |].
  destruct (vote_down s >? vote_threshold_down (par s)); now cbn.
Qed.

Lemma cluster_plug_vote_nonneg load s :
  0 <= vote_up s -> 0 <= vote_down s ->
  0 <= vote_up (snd (cluster_plug_vote load s)) /\
  0 <= vote_down (snd (cluster_plug_vote load s)).
Proof.
  intros Hu Hd. unfold cluster_plug_vote.
  destruct (vote_update_nonneg load s Hu Hd) as [Hu' Hd'].
  destruct (vote_decide_votes (vote_update load s)) as [-> ->].
  destruct (fst (vote_decide (vote_update load s))); auto with zarith.
Qed.

Lemma observe_all_nonneg loads s :
  0 <= vote_up s -> 0 <= vote_down s ->
  0 <= vote_up (observe_all loads s) /\ 0 <= vote_down (observe_all loads s).
Proof.
  revert s. induction loads as [|load rest IH]; intros s Hu Hd; cbn; [auto |].
  destruct (cluster_plug_vote_nonneg load s Hu Hd). now apply IH.
Qed.

Lemma u32_range x : 0 <= u32 x < 2 ^ 32.
Proof. unfold u32. apply Z.mod_pos_bound. lia. Qed.

Lemma u32_small x : 0 <= x < 2 ^ 32 -> u32 x = x.
Proof. unfold u32. apply Z.mod_small. Qed.

(** The vote update on counters that fit an [unsigned int]: the counter
    voted for goes up by one, wrapping as an [unsigned int] does; the other
    one goes down by one and stops at 0. *)
Lemma vote_update_counters load s :
  0 <= vote_up s < 2 ^ 32 -> 0 <= vote_down s < 2 ^ 32 ->
  (load > load_threshold_up (par s) ->
   vote_up (vote_update load s) = u32 (vote_up s + 1) /\
   vote_down (vote_update load s) = Z.max 0 (vote_down s - 1)) /\
  (load <= load_threshold_up (par s) -> load < load_threshold_down (par s) ->
   vote_down (vote_update load s) = u32 (vote_down s + 1) /\
   vote_up (vote_update load s) = Z.max 0 (vote_up s - 1)) /\
  (load <= load_threshold_up (par s) ->
   vote_up (vote_update load s) <= vote_up s) /\
  (~ (load <= load_threshold_up (par s) /\ load < load_threshold_down (par s)) ->
   vote_down (vote_update load s) <= vote_down s) /\
  0 <= vote_up (vote_update load s) < 2 ^ 32 /\
  0 <= vote_down (vote_update load s) < 2 ^ 32.
Proof.
  intros Hu Hd. unfold vote_update.
  destruct (Z.gtb_spec load (load_threshold_up (par s))) as [Hhi|Hhi].
  - cbn [vote_down set_vote_up].
    pose proof (u32_range (vote_up s + 1)) as Hr.
    destruct (Z.gtb_spec (vote_down s) 0) as [Hpos|Hpos];
      cbn [vote_up vote_down set_vote_up set_vote_down];
      rewrite ?(u32_small (vote_down s - 1)) by lia; repeat split; lia.
  - destruct (Z.ltb_spec load (load_threshold_down (par s))) as [Hlo|Hlo].
    + cbn [vote_up set_vote_down].
      pose proof (u32_range (vote_down s + 1)) as Hr.
      destruct (Z.gtb_spec (vote_up s) 0) as [Hpos|Hpos];
        cbn [vote_up vote_down set_vote_up set_vote_down];
        rewrite ?(u32_small (vote_up s - 1)) by lia; repeat split; lia.
    + repeat split; lia.
Qed.

Lemma cluster_plug_vote_par load s :
  par (snd (cluster_plug_vote load s)) = par s.
Proof.
  unfold cluster_plug_vote, vote_decide.
  rewrite <- (vote_update_par load s).
  generalize (vote_update load s). intros u.
  destruct (vote_up u >? vote_threshold_up (par u)); cbn [snd].
  - apply (hw_only_fields _ _ (hw_only_online_one_cpu u)).
  - destruct (vote_down u >? vote_threshold_down (par u)); cbn [snd];
      [apply (hw_only_fields _ _ (hw_only_offline_one_cpu u)) | reflexivity].
Qed.

Lemma cluster_plug_vote_range load s :
  0 <= vote_up s < 2 ^ 32 -> 0 <= vote_down s < 2 ^ 32 ->
  0 <= vote_up (snd (cluster_plug_vote load s)) < 2 ^ 32 /\
  0 <= vote_down (snd (cluster_plug_vote load s)) < 2 ^ 32.
Proof.
  intros Hu Hd. unfold cluster_plug_vote.
  destruct (vote_update_counters load s Hu Hd) as (_ & _ & _ & _ & Hu' & Hd').
  destruct (vote_decide_votes (vote_update load s)) as [-> ->].
  destruct (fst (vote_decide (vote_update load s))); split; lia.
Qed.

(** Whatever the counters were, a decision step ends with neither above
    its threshold. *)
Lemma cluster_plug_vote_bounded load s :
  0 <= vote_threshold_up (par s) -> 0 <= vote_threshold_down (par s) ->
  vote_up (snd (cluster_plug_vote load s)) <= vote_threshold_up (par s) /\
  vote_down (snd (cluster_plug_vote load s)) <= vote_threshold_down (par s).
Proof.
  intros Htu Htd. unfold cluster_plug_vote, vote_decide.
  rewrite <- (vote_update_par load s) in *.
  generalize dependent (vote_update load s). intros u Htu Htd.
  destruct (Z.gtb_spec (vote_up u) (vote_threshold_up (par u)));
    [| destruct (Z.gtb_spec (vote_down u) (vote_threshold_down (par u)))];
    cbn [snd vote_up vote_down set_vote_up set_vote_down]; lia.
Qed.

Lemma observe_all_par loads s : par (observe_all loads s) = par s.
Proof.
  revert s. induction loads as [|load rest IH]; intros s; cbn [observe_all];
    [reflexivity |].
  now rewrite IH, cluster_plug_vote_par.
Qed.

Lemma observe_all_range loads s :
  0 <= vote_up s < 2 ^ 32 -> 0 <= vote_down s < 2 ^ 32 ->
  0 <= vote_up (observe_all loads s) < 2 ^ 32 /\
  0 <= vote_down (observe_all loads s) < 2 ^ 32.
Proof.
  revert s. induction loads as [|load rest IH]; intros s Hu Hd;
    cbn [observe_all]; [auto |].
  destruct (cluster_plug_vote_range load s Hu Hd). now apply IH.
Qed.

Lemma observe_all_bounded loads s :
  0 <= vote_threshold_up (par s) -> 0 <= vote_threshold_down (par s) ->
  vote_up s <= vote_threshold_up (par s) ->
  vote_down s <= vote_threshold_down (par s) ->
  vote_up (observe_all loads s) <= vote_threshold_up (par s) /\
  vote_down (observe_all loads s) <= vote_threshold_down (par s).
Proof.
  revert s. induction loads as [|load rest IH]; intros s Htu Htd Hu Hd;
    cbn [observe_all]; [auto |].
  destruct (cluster_plug_vote_bounded load s Htu Htd) as [Hu' Hd'].
  rewrite <- (cluster_plug_vote_par load s) in *. now apply IH.
Qed.

(** C6: along every sequence of decision steps that starts with counters
    that fit an [unsigned int], the counters never go negative and never
    leave that range; in the step that follows, the counter voted for
    goes up by one and the other goes down by one but stops at 0 (it does
    not wrap below zero); the step calls [online_one_cpu] exactly when the
    updated [vote_up] exceeds [vote_threshold_up], calls [offline_one_cpu]
    exactly when it does not and the updated [vote_down] exceeds
    [vote_threshold_down], and leaves both counters at 0 whenever it called
    one of the two.  Because a decrement stops at 0, a sequence that starts
    with neither counter above its threshold adds a core only on a load
    above [load_threshold_up] and removes one only on a load below
    [load_threshold_down]. *)
Theorem vote_counters_invariant (loads : list Z) (load : Z) (s : state) :
  0 <= vote_up s < 2 ^ 32 -> 0 <= vote_down s < 2 ^ 32 ->
  let t := observe_all loads s in
  let u := vote_update load t in
  let r := cluster_plug_vote load t in
  (0 <= vote_up t < 2 ^ 32 /\ 0 <= vote_down t < 2 ^ 32) /\
  (0 <= vote_up u < 2 ^ 32 /\ 0 <= vote_down u < 2 ^ 32) /\
  (0 <= vote_up (snd r) < 2 ^ 32 /\ 0 <= vote_down (snd r) < 2 ^ 32) /\
  (load > load_threshold_up (par t) ->
   vote_up u = u32 (vote_up t + 1) /\
   vote_down u = Z.max 0 (vote_down t - 1)) /\
  (load <= load_threshold_up (par t) -> load < load_threshold_down (par t) ->
   vote_down u = u32 (vote_down t + 1) /\
   vote_up u = Z.max 0 (vote_up t - 1)) /\
  (fst r = AddCore <-> vote_up u > vote_threshold_up (par t)) /\
  (fst r = RemoveCore <->
     ~ vote_up u > vote_threshold_up (par t) /\
     vote_down u > vote_threshold_down (par t)) /\
  (fst r <> NoAction -> vote_up (snd r) = 0 /\ vote_down (snd r) = 0) /\
  (fst r = AddCore ->
     snd r = set_vote_up 0 (set_vote_down 0 (online_one_cpu u))) /\
  (fst r = RemoveCore ->
     snd r = set_vote_up 0 (set_vote_down 0 (offline_one_cpu u))) /\
  (fst r = NoAction -> snd r = u) /\
  (0 <= vote_threshold_up (par s) -> 0 <= vote_threshold_down (par s) ->
   vote_up s <= vote_threshold_up (par s) ->
   vote_down s <= vote_threshold_down (par s) ->
   (fst r = AddCore -> load > load_threshold_up (par t)) /\
   (fst r = RemoveCore ->
    load <= load_threshold_up (par t) /\ load < load_threshold_down (par t))).
Proof.
  intros Hu Hd t u r.
  destruct (observe_all_range loads s Hu Hd) as [Htu Htd]. fold t in Htu, Htd.
  destruct (vote_update_counters load t Htu Htd)
    as (Hup & Hdown & Hmu & Hmd & Hru & Hrd).
  fold u in Hup, Hdown, Hmu, Hmd, Hru, Hrd.
  split; [auto |]. split; [auto |].
  split; [now apply cluster_plug_vote_range |].
  split; [exact Hup |]. split; [exact Hdown |].
  assert (Hact :
    (fst r = AddCore <-> vote_up u > vote_threshold_up (par t)) /\
    (fst r = RemoveCore <->
       ~ vote_up u > vote_threshold_up (par t) /\
       vote_down u > vote_threshold_down (par t)) /\
    (fst r <> NoAction -> vote_up (snd r) = 0 /\ vote_down (snd r) = 0) /\
    (fst r = AddCore ->
       snd r = set_vote_up 0 (set_vote_down 0 (online_one_cpu u))) /\
    (fst r = RemoveCore ->
       snd r = set_vote_up 0 (set_vote_down 0 (offline_one_cpu u))) /\
    (fst r = NoAction -> snd r = u)).
  { subst r. unfold cluster_plug_vote. fold u.
    rewrite <- (vote_update_par load t). fold u.
    unfold vote_decide.
    destruct (Z.gtb_spec (vote_up u) (vote_threshold_up (par u))) as [Hgu|Hgu];
      [| destruct (Z.gtb_spec (vote_down u) (vote_threshold_down (par u)))
           as [Hgd|Hgd]]; cbn [fst snd];
      repeat split; try easy; try lia. }
  destruct Hact as (Hadd & Hrem & Hreset & Hon & Hoff & Hnone).
  repeat (split; [assumption |]).
  intros Htu0 Htd0 Hbu Hbd.
  destruct (observe_all_bounded loads s Htu0 Htd0 Hbu Hbd) as [Hbu' Hbd'].
  fold t in Hbu', Hbd'. rewrite <- (observe_all_par loads s) in Hbu', Hbd'.
  fold t in Hbu', Hbd'.
  split.
  - intros Ha. apply Hadd in Ha.
    destruct (Z_le_gt_dec load (load_threshold_up (par t))) as [Hle|Hgt];
      [| exact Hgt].
    specialize (Hmu Hle). lia.
  - intros Hr. apply Hrem in Hr. destruct Hr as [_ Hr].
    destruct (Z_le_gt_dec load (load_threshold_up (par t))) as [Hle|Hgt];
      [destruct (Z_lt_ge_dec load (load_threshold_down (par t))) as [Hlt|Hge];
         [split; assumption |] |].
    + assert (Hn : ~ (load <= load_threshold_up (par t)
                      /\ load < load_threshold_down (par t))) by lia.
      specialize (Hmd Hn). lia.
    + assert (Hn : ~ (load <= load_threshold_up (par t)
                      /\ load < load_threshold_down (par t))) by lia.
      specialize (Hmd Hn). lia.
Qed.

(** From the initial state: the third full-load sample in a row switches a
    core on and clears the counters, and a first idle sample leaves
    [vote_up] at 0. *)
Lemma vote_counters_invariant_witness :
  let t := observe_all [85; 85] init_state in
  vote_up (vote_update 85 t) = 3 /\
  fst (cluster_plug_vote 85 t) = AddCore /\
  vote_up (snd (cluster_plug_vote 85 t)) = 0 /\
  vote_up (vote_update 5 init_state) = Z.max 0 (vote_up init_state - 1).
Proof.
  pose proof (vote_counters_invariant [85; 85] 85 init_state) as H.
  pose proof (vote_counters_invariant [] 5 init_state) as H0.
  cbv zeta in H, H0.
  destruct H as (_ & _ & _ & _ & _ & Hadd & _ & Hreset & _);
    [vm_compute; split; [discriminate | reflexivity]
    | vm_compute; split; [discriminate | reflexivity] |].
  destruct H0 as (_ & _ & _ & _ & Hlow & _);
    [vm_compute; split; [discriminate | reflexivity]
    | vm_compute; split; [discriminate | reflexivity] |].
  cbv zeta. split; [reflexivity |]. split; [| split].
  - apply Hadd. vm_compute. reflexivity.
  - apply Hreset. intros E.
    assert (Ha : fst (cluster_plug_vote 85 (observe_all [85; 85] init_state))
                 = AddCore) by (apply Hadd; vm_compute; reflexivity).
    rewrite Ha in E. discriminate E.
  - apply Hlow; vm_compute; [discriminate | reflexivity].
Defined.

(** C7, as the specification words it, fails in a state the driver
    reaches: two ticks at full load leave [vote_up] at 2, a write then
    lowers [vote_threshold_up] to 1, and the next decision step, at load 50
    between the thresholds 20 and 80, switches a core on and clears the
    counters. *)
Lemma dead_band_step_resets_counters :
  let full : time_source := fun _ => (0, 0) in
  let evs :=
    [EvActive full (Num 1); EvTimer; EvTick full;
     EvTimer; EvTick full; EvTimer; EvTick full;
     EvParam P_vote_threshold_up (Num 1)] in
  match run evs init_state with
  | Ret s =>
      load_threshold_down (par s) <= 50 <= load_threshold_up (par s) /\
      vote_up s = 2 /\
      fst (cluster_plug_vote 50 s) = AddCore /\
      vote_up (snd (cluster_plug_vote 50 s)) = 0
  | _ => False
  end.
Proof. vm_compute. repeat split; discriminate. Qed.

(** C7, amended: a load between the two thresholds, bounds included, never
    changes a counter in the vote update; the whole decision step returns
    the state unchanged, with no core switched, when on entry neither
    counter is above its vote threshold. *)
Theorem dead_band_no_vote_change (load : Z) (s : state) :
  load_threshold_down (par s) <= load <= load_threshold_up (par s) ->
  vote_update load s = s /\
  (vote_up s <= vote_threshold_up (par s) ->
   vote_down s <= vote_threshold_down (par s) ->
   cluster_plug_vote load s = (NoAction, s)).
Proof.
  intros [Hlo Hhi].
  assert (Hupd : vote_update load s = s).
  { unfold vote_update.
    destruct (Z.gtb_spec load (load_threshold_up (par s))); [lia |].
    destruct (Z.ltb_spec load (load_threshold_down (par s))); [lia |].
    reflexivity. }
  split; [exact Hupd |].
  intros Hu Hd. unfold cluster_plug_vote. rewrite Hupd. unfold vote_decide.
  destruct (Z.gtb_spec (vote_up s) (vote_threshold_up (par s))); [lia |].
  destruct (Z.gtb_spec (vote_down s) (vote_threshold_down (par s))); [lia |].
  reflexivity.
Qed.

(** A load equal to the upper threshold, in the initial state. *)
Lemma dead_band_no_vote_change_witness :
  vote_update 80 init_state = init_state /\
  cluster_plug_vote 80 init_state = (NoAction, init_state).
Proof.
  destruct (dead_band_no_vote_change 80 init_state) as [H1 H2];
    [vm_compute; split; discriminate |].
  split; [exact H1 | apply H2; vm_compute; discriminate].
Defined.

(** ** Writes to the [uint] parameters *)

(** C3, as the specification words it, fails: with [load_threshold_up] at
    80 a write of 90 to [load_threshold_down] is invalid in the
    specification's sense, and so are a write of 0 to [vote_threshold_up]
    and a write of 9 to [max_cores_screenoff]; each returns 0 and stores
    the number. *)
Lemma invalid_uint_writes_are_stored :
  let w1 := param_set_uint P_load_threshold_down (Num 90) init_state in
  let w2 := param_set_uint P_vote_threshold_up (Num 0) init_state in
  let w3 := param_set_uint P_max_cores_screenoff (Num 9) init_state in
  (Spec.valid_write P_load_threshold_down 90 (par init_state) = false /\
   fst w1 = 0 /\ load_threshold_down (par (snd w1)) = 90 /\
   load_threshold_up (par (snd w1)) = 80 /\ snd w1 <> init_state) /\
  (Spec.valid_write P_vote_threshold_up 0 (par init_state) = false /\
   fst w2 = 0 /\ vote_threshold_up (par (snd w2)) = 0 /\
   snd w2 <> init_state) /\
  (Spec.valid_write P_max_cores_screenoff 9 (par init_state) = false /\
   fst w3 = 0 /\ max_cores_screenoff (par (snd w3)) = 9 /\
   snd w3 <> init_state).
Proof.
  cbv zeta. repeat split; try reflexivity;
    intros H; apply (f_equal par) in H; vm_compute in H; discriminate H.
Qed.

(** C3, amended: a write of any number that fits an [unsigned int] to one
    of the six [uint] parameters returns 0 and stores the number in that
    parameter, whatever the other parameters hold, and changes nothing
    else; a write is rejected only when it returns a non-zero code (text
    that is no number, or a number outside [unsigned int]), and then the
    state is the one before. *)
Theorem param_set_uint_stores_any_uint (p : uint_param) (v : Z) (s : state) :
  0 <= v < 2 ^ 32 ->
  param_set_uint p (Num v) s = (0, set_par (param_put p v (par s)) s) /\
  param_get p (par (snd (param_set_uint p (Num v) s))) = v /\
  (forall q, q <> p ->
     param_get q (par (snd (param_set_uint p (Num v) s))) = param_get q (par s)) /\
  (forall buf, fst (param_set_uint p buf s) <> 0 ->
     snd (param_set_uint p buf s) = s).
Proof.
  intros [Hlo Hhi].
  assert (E : param_set_uint p (Num v) s
              = (0, set_par (param_put p v (par s)) s)).
  { unfold param_set_uint, kstrtouint.
    destruct (Z.leb_spec 0 v); [| lia].
    destruct (Z.ltb_spec v (2 ^ 32)); [| lia].
    reflexivity. }
  split; [exact E |]. rewrite E. cbn [snd].
  split; [now destruct p |].
  split.
  - intros q Hq. destruct p, q; try reflexivity; now elim Hq.
  - intros buf. unfold param_set_uint.
    destruct (Z.eqb_spec (fst (kstrtouint buf)) 0) as [Hz|Hz]; cbn [fst snd];
      [intros Hne; now elim Hne | reflexivity].
Qed.

(** Writing 90 to [load_threshold_down] in the initial state. *)
Lemma param_set_uint_stores_any_uint_witness :
  param_set_uint P_load_threshold_down (Num 90) init_state
  = (0, set_par (param_put P_load_threshold_down 90 (par init_state)) init_state).
Proof.
  apply (param_set_uint_stores_any_uint P_load_threshold_down 90 init_state).
  vm_compute. split; [discriminate | reflexivity].
Defined.

(** ** The cluster policies *)

Lemma enable_little_cluster_body_required acc c :
  fst (enable_little_cluster_body acc c) =
  if is_little_cpu c && (0 <? fst acc) then u32 (fst acc - 1) else fst acc.
Proof.
  unfold enable_little_cluster_body.
  destruct (is_little_cpu c); cbn [andb]; [| reflexivity].
  now destruct (0 <? fst acc).
Qed.

Lemma enable_little_cluster_body_online acc c c' :
  cpu_online (snd (enable_little_cluster_body acc c)) c' =
  if is_little_cpu c && (c =? c')%nat then 0 <? fst acc
  else cpu_online (snd acc) c'.
Proof.
  unfold enable_little_cluster_body.
  destruct (is_little_cpu c); cbn [andb]; [| now destruct (c =? c')%nat].
  destruct (0 <? fst acc); cbn [snd];
    destruct (cpu_online (snd acc) c) eqn:Hc; cbn [negb];
    rewrite ?cpu_online_switch_cpu;
    destruct (Nat.eqb_spec c c') as [<-|Hne]; cbn [negb]; auto.
Qed.

Lemma hw_only_enable_little_cluster_body acc c :
  hw_only (snd acc) (snd (enable_little_cluster_body acc c)).
Proof.
  unfold enable_little_cluster_body.
  repeat match goal with
         | |- context [if ?b then _ else _] => destruct b
         end; cbn [snd]; auto with hw.
Qed.

Lemma hw_only_enable_little_cluster_loop l acc :
  hw_only (snd acc) (snd (fold_left enable_little_cluster_body l acc)).
Proof.
  revert acc. induction l as [|c l IH]; intros acc; cbn [fold_left];
    [auto with hw |].
  eapply hw_only_trans; [apply hw_only_enable_little_cluster_body | apply IH].
Qed.

Lemma disable_big_cluster_body_online s c c' :
  cpu_online (disable_big_cluster_body s c) c' =
  if is_big_cpu c && (c =? c')%nat then false else cpu_online s c'.
Proof.
  unfold disable_big_cluster_body.
  destruct (is_big_cpu c); cbn [andb]; [| reflexivity].
  destruct (cpu_online s c) eqn:Hc; rewrite ?cpu_online_switch_cpu;
    destruct (Nat.eqb_spec c c') as [<-|Hne]; cbn [negb]; auto.
Qed.

Lemma hw_only_disable_big_cluster_body s c :
  hw_only s (disable_big_cluster_body s c).
Proof.
  unfold disable_big_cluster_body.
  destruct (is_big_cpu c && cpu_online s c); auto with hw.
Qed.

Lemma hw_only_disable_big_cluster_loop l s :
  hw_only s (fold_left disable_big_cluster_body l s).
Proof.
  revert s. induction l as [|c l IH]; intros s; cbn [fold_left];
    [auto with hw |].
  eapply hw_only_trans; [apply hw_only_disable_big_cluster_body | apply IH].
Qed.

(** The cores [enable_little_cluster] leaves online: the first
    [required_cpus] little cores and no other little core; big cores are as
    they were. *)
Lemma enable_little_cluster_online s c :
  let max := max_cores_screenoff (par s) in
  let required_cpus :=
    if negb (screen_on s) && negb (screen_off_power_mode s) then
      (if (0 <? max) && (max <=? 4) then max else 4)
    else 4 in
  cpu_online (enable_little_cluster s) c =
  if is_little_cpu c then Z.of_nat c <? required_cpus else cpu_online s c.
Proof.
  cbv zeta. unfold enable_little_cluster.
  set (req := if negb (screen_on s) && negb (screen_off_power_mode s)
              then _ else 4).
  assert (Hreq : req = 1 \/ req = 2 \/ req = 3 \/ req = 4).
  { subst req.
    destruct (negb (screen_on s) && negb (screen_off_power_mode s)); [| lia].
    destruct (Z.ltb_spec 0 (max_cores_screenoff (par s))); cbn [andb]; [| lia].
    destruct (Z.leb_spec (max_cores_screenoff (par s)) 4); lia. }
  change (cpu_online (set_little_cluster_enabled true ?x) c)
    with (cpu_online x c).
  unfold present_cpus. cbn [N_LITTLE_CPUS N_BIG_CPUS Nat.add seq fold_left].
  rewrite !enable_little_cluster_body_online.
  rewrite !enable_little_cluster_body_required.
  cbn [fst snd].
  do 8 (destruct c as [|c]; [destruct Hreq as [->|[->|[->| ->]]]; reflexivity |]).
  reflexivity.
Qed.

Lemma hw_only_little_flag s s' :
  hw_only s s' -> hw_only (set_little_cluster_enabled true s)
                          (set_little_cluster_enabled true s').
Proof. unfold hw_only. intros H. rewrite H at 1. reflexivity. Qed.

Lemma enable_little_cluster_frame s :
  hw_only (set_little_cluster_enabled true s) (enable_little_cluster s).
Proof.
  unfold enable_little_cluster. apply hw_only_little_flag.
  apply (hw_only_enable_little_cluster_loop present_cpus (_, s)).
Qed.

(** [disable_big_cluster] acts only when the flag says the big cluster is
    enabled; it then leaves no big core online and no little core
    changed. *)
Lemma disable_big_cluster_online s c :
  cpu_online (disable_big_cluster s) c =
  if big_cluster_enabled s && is_big_cpu c && (c <? 8)%nat then false
  else cpu_online s c.
Proof.
  unfold disable_big_cluster.
  destruct (big_cluster_enabled s); cbn [negb andb]; [| reflexivity].
  change (cpu_online (set_big_cluster_enabled false ?x) c)
    with (cpu_online x c).
  unfold present_cpus. cbn [N_LITTLE_CPUS N_BIG_CPUS Nat.add seq fold_left].
  rewrite !disable_big_cluster_body_online.
  do 8 (destruct c as [|c]; [reflexivity |]).
  reflexivity.
Qed.

Lemma disable_big_cluster_frame s :
  hw_only (if big_cluster_enabled s then set_big_cluster_enabled false s else s)
          (disable_big_cluster s).
Proof.
  unfold disable_big_cluster.
  destruct (big_cluster_enabled s); cbn [negb]; [| auto with hw].
  pose proof (hw_only_disable_big_cluster_loop present_cpus s) as H.
  unfold hw_only in *. rewrite H at 1. reflexivity.
Qed.

Lemma enable_little_cluster_fields s :
  par (enable_little_cluster s) = par s /\
  active (enable_little_cluster s) = active s /\
  workqueue_suspended (enable_little_cluster s) = workqueue_suspended s /\
  screen_on (enable_little_cluster s) = screen_on s /\
  big_cluster_enabled (enable_little_cluster s) = big_cluster_enabled s /\
  little_cluster_enabled (enable_little_cluster s) = true /\
  low_power_mode (enable_little_cluster s) = low_power_mode s /\
  screen_off_power_mode (enable_little_cluster s) = screen_off_power_mode s /\
  online_all (enable_little_cluster s) = online_all s /\
  vote_up (enable_little_cluster s) = vote_up s /\
  vote_down (enable_little_cluster s) = vote_down s /\
  cp_info (enable_little_cluster s) = cp_info s /\
  work (enable_little_cluster s) = work s.
Proof. exact (hw_only_fields _ _ (enable_little_cluster_frame s)). Qed.

Lemma disable_big_cluster_fields s :
  par (disable_big_cluster s) = par s /\
  active (disable_big_cluster s) = active s /\
  workqueue_suspended (disable_big_cluster s) = workqueue_suspended s /\
  screen_on (disable_big_cluster s) = screen_on s /\
  big_cluster_enabled (disable_big_cluster s) = false /\
  little_cluster_enabled (disable_big_cluster s) = little_cluster_enabled s /\
  low_power_mode (disable_big_cluster s) = low_power_mode s /\
  screen_off_power_mode (disable_big_cluster s) = screen_off_power_mode s /\
  online_all (disable_big_cluster s) = online_all s /\
  vote_up (disable_big_cluster s) = vote_up s /\
  vote_down (disable_big_cluster s) = vote_down s /\
  cp_info (disable_big_cluster s) = cp_info s /\
  work (disable_big_cluster s) = work s.
Proof.
  pose proof (hw_only_fields _ _ (disable_big_cluster_frame s)) as H.
  destruct (big_cluster_enabled s) eqn:Hb; cbn in H; [exact H |].
  rewrite Hb in H. exact H.
Qed.

(** C1, as the specification words it, fails in a state the driver
    reaches: controller enabled, [screen_off_power_mode] written to 1,
    [max_cores_screenoff] written to 2, then the screen goes off.  The
    tick that follows takes the sampling branch: all eight cores stay
    online, [workqueue_suspended] stays false and the work is queued again
    for [sampling_time] milliseconds. *)
Lemma screen_off_power_mode_keeps_sampling :
  let half : time_source := fun _ => (50, 100) in
  let evs :=
    [EvActive half (Num 1); EvTimer; EvTick half;
     EvScreenOffPowerMode half (Num 1);
     EvParam P_max_cores_screenoff (Num 2);
     EvLcd LCD_EVENT_OFF_END; EvTimer] in
  match run evs init_state with
  | Ret s =>
      (active s = true /\ screen_on s = false /\
       screen_off_power_mode s = true /\ low_power_mode s = false /\
       max_cores_screenoff (par s) = 2 /\ work s = WorkQueued) /\
      match tick half s with
      | Ret s' =>
          cpu_online s' 4 = true /\ cpu_online s' 5 = true /\
          cpu_online s' 6 = true /\ cpu_online s' 7 = true /\
          cpu_online s' 2 = true /\ cpu_online s' 3 = true /\
          workqueue_suspended s' = false /\
          work s' = WorkTimer 50
      | _ => False
      end
  | _ => False
  end.
Proof. vm_compute. repeat split. Qed.

(** C1, amended: when the controller is active, no force-online-all is
    pending, the screen is off, [screen_off_power_mode] is false (whatever
    [low_power_mode] is), [max_cores_screenoff] is 2 and the big cluster is
    flagged enabled, the queued tick returns with every big core offline,
    cpu0 and cpu1 the only little cores online, [workqueue_suspended] set
    and the work not queued again. *)
Theorem screen_off_tick_suspends (tm : time_source) (s : state) :
  active s = true ->
  online_all s = false ->
  screen_on s = false ->
  screen_off_power_mode s = false ->
  max_cores_screenoff (par s) = 2 ->
  big_cluster_enabled s = true ->
  work s = WorkQueued ->
  exists s',
    tick tm s = Ret s' /\
    (forall c, is_big_cpu c = true -> (c < 8)%nat -> cpu_online s' c = false) /\
    (forall c, is_little_cpu c = true -> cpu_online s' c = (c <? 2)%nat) /\
    workqueue_suspended s' = true /\
    work s' = WorkIdle /\
    big_cluster_enabled s' = false /\
    little_cluster_enabled s' = true.
Proof.
  intros Hact Hall Hscr Hsopm Hmax Hbig Hwork.
  unfold tick, run_work. rewrite Hwork.
  unfold cluster_plug_work_fn.
  change (online_all (set_work WorkIdle s)) with (online_all s).
  rewrite Hall.
  change (active (set_work WorkIdle s)) with (active s).
  change (screen_on (set_work WorkIdle s)) with (screen_on s).
  change (screen_off_power_mode (set_work WorkIdle s))
    with (screen_off_power_mode s).
  cbn iota.
  change (online_all (set_work WorkIdle s)) with (online_all s).
  change (active (set_work WorkIdle s)) with (active s).
  rewrite Hact, ?Hall, Hscr, Hsopm. cbn [negb orb andb].
  set (s0 := set_work WorkIdle s).
  set (s1 := enable_little_cluster s0).
  eexists. split; [reflexivity |].
  destruct (enable_little_cluster_fields s0)
    as (_ & _ & _ & _ & Hb1 & Hl1 & _ & _ & _ & _ & _ & _ & Hw1).
  fold s1 in Hb1, Hl1, Hw1.
  destruct (disable_big_cluster_fields s1)
    as (_ & _ & _ & _ & Hb2 & Hl2 & _ & _ & _ & _ & _ & _ & Hw2).
  assert (Hon : forall c,
    cpu_online (disable_big_cluster s1) c =
    if is_big_cpu c && (c <? 8)%nat then false
    else if is_little_cpu c then Z.of_nat c <? 2 else cpu_online s c).
  { intros c. rewrite disable_big_cluster_online, Hb1.
    change (big_cluster_enabled s0) with (big_cluster_enabled s).
    rewrite Hbig. cbn [andb].
    destruct (is_big_cpu c && (c <? 8)%nat); [reflexivity |].
    subst s1. rewrite enable_little_cluster_online.
    change (screen_on s0) with (screen_on s).
    change (screen_off_power_mode s0) with (screen_off_power_mode s).
    change (par s0) with (par s).
    rewrite Hscr, Hsopm, Hmax. reflexivity. }
  change (cpu_online (set_workqueue_suspended true ?x)) with (cpu_online x).
  repeat split.
  - intros c Hc Hlt. rewrite Hon, Hc.
    destruct (Nat.ltb_spec c 8); [reflexivity | lia].
  - intros c Hc. rewrite Hon, Hc.
    assert (Hnb : is_big_cpu c = false).
    { unfold is_big_cpu, is_little_cpu in *.
      destruct (Nat.ltb_spec c N_LITTLE_CPUS); [| discriminate].
      destruct (Nat.leb_spec N_LITTLE_CPUS c); [lia | reflexivity]. }
    rewrite Hnb. cbn [andb].
    destruct (Nat.ltb_spec c 2), (Z.ltb_spec (Z.of_nat c) 2); auto; lia.
  - change (work (disable_big_cluster s1) = WorkIdle).
    now rewrite Hw2, Hw1.
  - exact Hb2.
  - change (little_cluster_enabled (disable_big_cluster s1) = true).
    now rewrite Hl2.
Qed.

(** The initial state with the controller active, the screen off, a cap of
    2 and the work queued. *)
Lemma screen_off_tick_suspends_witness :
  exists s',
    tick (fun _ => (50, 100))
      (set_work WorkQueued
         (set_par (param_put P_max_cores_screenoff 2 default_params)
            (set_screen_on false (set_active true init_state)))) = Ret s' /\
    cpu_online s' 7 = false /\ cpu_online s' 1 = true /\
    cpu_online s' 2 = false /\ work s' = WorkIdle.
Proof.
  destruct (screen_off_tick_suspends (fun _ => (50, 100))
    (set_work WorkQueued
       (set_par (param_put P_max_cores_screenoff 2 default_params)
          (set_screen_on false (set_active true init_state)))))
    as (s' & Ht & Hbig & Hlittle & _ & Hw & _); try reflexivity.
  exists s'. split; [exact Ht |].
  split; [apply Hbig; [reflexivity | lia] |].
  split; [apply (Hlittle 1%nat); reflexivity |].
  split; [apply (Hlittle 2%nat); reflexivity | exact Hw].
Defined.

(** ** What a step keeps *)

Lemma inv_kept_refl s : inv_kept s s.
Proof. unfold inv_kept; auto. Qed.

Lemma inv_kept_trans s1 s2 s3 : inv_kept s1 s2 -> inv_kept s2 s3 -> inv_kept s1 s3.
Proof.
  unfold inv_kept. intros (H0 & Hl & Hs) (H0' & Hl' & Hs').
  repeat split; [auto | congruence | congruence].
Qed.

Lemma inv_kept_hw_only s s' :
  hw_only s s' -> (cpu_online s 0 = true -> cpu_online s' 0 = true) ->
  inv_kept s s'.
Proof.
  intros H H0. destruct (hw_only_fields _ _ H) as (_&_&_&_&_&_&Hl&Hs&_).
  unfold inv_kept; auto.
Qed.

Lemma inv_kept_vote_update load s : inv_kept s (vote_update load s).
Proof.
  unfold vote_update.
  repeat match goal with
         | |- context [if ?b then _ else _] => destruct b
         end; unfold inv_kept; cbn; auto.
Qed.

Lemma inv_kept_online_one_cpu s : inv_kept s (online_one_cpu s).
Proof.
  apply inv_kept_hw_only; [apply hw_only_online_one_cpu |].
  unfold online_one_cpu.
  destruct (online_one_cpu_from_outside (7 - 1) s 0) as [-> _]; auto.
Qed.

Lemma inv_kept_offline_one_cpu s : inv_kept s (offline_one_cpu s).
Proof.
  apply inv_kept_hw_only; [apply hw_only_offline_one_cpu |].
  unfold offline_one_cpu.
  destruct (offline_one_cpu_from_outside (7 - 1) s 0) as [-> _]; auto.
Qed.

Lemma inv_kept_reset_votes s s' :
  inv_kept s s' -> inv_kept s (set_vote_up 0 (set_vote_down 0 s')).
Proof. intros H. exact H. Qed.

Lemma inv_kept_vote_decide s : inv_kept s (snd (vote_decide s)).
Proof.
  unfold vote_decide.
  destruct (vote_up s >? vote_threshold_up (par s)); cbn [snd].
  - apply inv_kept_reset_votes, inv_kept_online_one_cpu.
  - destruct (vote_down s >? vote_threshold_down (par s)); cbn [snd].
    + apply inv_kept_reset_votes, inv_kept_offline_one_cpu.
    + apply inv_kept_refl.
Qed.

Lemma inv_kept_cluster_plug_vote load s :
  inv_kept s (snd (cluster_plug_vote load s)).
Proof.
  unfold cluster_plug_vote.
  eapply inv_kept_trans; [apply inv_kept_vote_update | apply inv_kept_vote_decide].
Qed.

(** Sampling writes [cp_info] and nothing else. *)
Lemma get_delta_cpu_load_and_update_state tm cpu s :
  exists info, snd (get_delta_cpu_load_and_update tm cpu s) = set_cp_info info s.
Proof.
  unfold get_delta_cpu_load_and_update.
  match goal with
  | |- context [if ?b then _ else _] => destruct b
  end; cbn [snd]; eexists; reflexivity.
Qed.

Lemma calculateLoad_body_state tm acc cpu :
  exists info,
    snd (calculateLoad_body tm acc cpu) = set_cp_info info (snd acc).
Proof.
  unfold calculateLoad_body.
  destruct (get_delta_cpu_load_and_update_state tm cpu (snd acc)) as [info E].
  exists info.
  repeat match goal with
         | |- context [if ?b then _ else _] => destruct b
         end; cbn [snd]; exact E.
Qed.

Lemma calculateLoad_fold_state tm l acc :
  exists info,
    snd (fold_left (calculateLoad_body tm) l acc) = set_cp_info info (snd acc).
Proof.
  revert acc. induction l as [|c l IH]; intros acc; cbn [fold_left].
  - exists (cp_info (snd acc)). now destruct (snd acc).
  - destruct (IH (calculateLoad_body tm acc c)) as [info E].
    destruct (calculateLoad_body_state tm acc c) as [info' E'].
    exists info. rewrite E, E'. reflexivity.
Qed.

Lemma fold_left_cons {A B : Type} (f : A -> B -> A) (x : B) (l : list B) (a : A) :
  fold_left f (x :: l) a = fold_left f l (f a x).
Proof. reflexivity. Qed.

(** The divisor of [calculateLoad] counts the online cpus: one more for
    each online cpu walked, and never more than the cpus walked. *)
Lemma calculateLoad_fold_cpus tm l acc n :
  1 <= cpus (fst acc) <= n -> n + Z.of_nat (length l) < 2 ^ 32 ->
  1 <= cpus (fst (fold_left (calculateLoad_body tm) l acc))
    <= n + Z.of_nat (length l).
Proof.
  revert acc n. induction l as [|c l IH]; intros acc n Hn Hlen;
    cbn [fold_left length] in *; [lia |].
  assert (Hb : 1 <= cpus (fst (calculateLoad_body tm acc c)) <= n + 1).
  { unfold calculateLoad_body.
    assert (Hu : u32 (cpus (fst acc) + 1) = cpus (fst acc) + 1)
      by (unfold u32; apply Z.mod_small; lia).
    repeat match goal with
           | |- context [if ?b then _ else _] => destruct b
           end; cbn [fst cpus]; rewrite ?Hu; lia. }
  specialize (IH _ (n + 1) Hb). lia.
Qed.

Lemma calculateLoad_loop_cpus tm s :
  cpu_online s 0 = true -> 1 <= cpus (fst (calculateLoad_loop tm s)) <= 8.
Proof.
  intros H0. unfold calculateLoad_loop.
  assert (Hp : possible_cpus = 0%nat :: seq 1 7) by reflexivity.
  rewrite Hp, fold_left_cons.
  assert (H1 : cpus (fst (calculateLoad_body tm
                 ({| cpus := 0; cpu_load_little := 0; cpu_load_big := 0 |}, s)
                 0)) = 1).
  { unfold calculateLoad_body. cbn [fst snd].
    destruct (get_delta_cpu_load_and_update_state tm 0 s) as [info ->].
    change (cpu_online (set_cp_info info s) 0) with (cpu_online s 0).
    rewrite H0. reflexivity. }
  assert (H1' : 1 <= cpus (fst (calculateLoad_body tm
                 ({| cpus := 0; cpu_load_little := 0; cpu_load_big := 0 |}, s)
                 0)) <= 1) by (rewrite H1; lia).
  pose proof (calculateLoad_fold_cpus tm (seq 1 7) _ 1 H1') as Hf.
  rewrite length_seq in Hf. apply Hf. now vm_compute.
Qed.

Lemma calculateLoad_loop_state tm s :
  exists info, snd (calculateLoad_loop tm s) = set_cp_info info s.
Proof.
  exact (calculateLoad_fold_state tm possible_cpus
           ({| cpus := 0; cpu_load_little := 0; cpu_load_big := 0 |}, s)).
Qed.

Lemma calculateLoad_returns tm s :
  cpu_online s 0 = true ->
  exists load info, calculateLoad tm s = Ret (load, set_cp_info info s).
Proof.
  intros H0. unfold calculateLoad.
  pose proof (calculateLoad_loop_cpus tm s H0) as Hc.
  destruct (Z.eqb_spec (cpus (fst (calculateLoad_loop tm s))) 0); [lia |].
  destruct (calculateLoad_loop_state tm s) as [info E].
  eexists. exists info. rewrite E. reflexivity.
Qed.

Lemma inv_kept_set_cp_info info s : inv_kept s (set_cp_info info s).
Proof. unfold inv_kept; auto. Qed.

Lemma cluster_plug_perform_kept tm s s' :
  cluster_plug_perform tm s = Ret s' -> inv_kept s s'.
Proof.
  unfold cluster_plug_perform, calculateLoad.
  destruct (calculateLoad_loop_state tm s) as [info E].
  generalize dependent (calculateLoad_loop tm s). intros [a s2] E.
  cbn [fst snd] in *. subst s2.
  destruct (cpus a =? 0); [discriminate |].
  cbn [bind fst snd]. intros [= <-].
  eapply inv_kept_trans;
    [apply inv_kept_set_cp_info | apply inv_kept_cluster_plug_vote].
Qed.

Lemma cluster_plug_perform_returns tm s :
  cpu_online s 0 = true -> exists s', cluster_plug_perform tm s = Ret s'.
Proof.
  intros H0. unfold cluster_plug_perform.
  destruct (calculateLoad_returns tm s H0) as (load & info & ->).
  cbn [bind]. eexists. reflexivity.
Qed.

(** [optimized_online_all] *)

Lemma hw_only_optimized_online_all_from n s :
  hw_only s (optimized_online_all_from n s).
Proof.
  revert s. induction n as [|n IH]; intros s; cbn [optimized_online_all_from].
  - destruct (cpu_is_offline s 0); [| auto with hw].
    apply (hw_only_trans _ (cpu_up 0 s)); auto with hw.
  - eapply hw_only_trans; [| apply IH].
    destruct (cpu_is_offline s (S n)); [| auto with hw].
    apply (hw_only_trans _ (cpu_up (S n) s)); auto with hw.
Qed.

Lemma optimized_online_all_step_online n s c :
  cpu_online (if cpu_is_offline s n
              then dev_set_offline n false (cpu_up n s) else s) c
  = (n =? c)%nat || cpu_online s c.
Proof.
  unfold cpu_is_offline. destruct (cpu_online s n) eqn:Hn; cbn [negb].
  - destruct (Nat.eqb_spec n c) as [<-|]; cbn [orb]; auto.
  - now rewrite cpu_online_dev_set_offline, cpu_online_cpu_up.
Qed.

(** After the loop that starts at [n], every cpu up to [n] is online and
    every cpu that was online still is. *)
Lemma optimized_online_all_from_online n s c :
  cpu_online (optimized_online_all_from n s) c =
  (c <=? n)%nat || cpu_online s c.
Proof.
  revert s. induction n as [|n IH]; intros s; cbn [optimized_online_all_from].
  - rewrite optimized_online_all_step_online.
    destruct c; reflexivity.
  - rewrite IH, optimized_online_all_step_online.
    destruct (Nat.leb_spec c n), (Nat.eqb_spec (S n) c),
      (Nat.leb_spec c (S n)); cbn [orb]; auto; lia.
Qed.

Lemma inv_kept_optimized_online_all s : inv_kept s (optimized_online_all s).
Proof.
  apply inv_kept_hw_only; [apply hw_only_optimized_online_all_from |].
  unfold optimized_online_all. rewrite optimized_online_all_from_online.
  reflexivity.
Qed.

Lemma inv_kept_enable_little_cluster s : inv_kept s (enable_little_cluster s).
Proof.
  destruct (enable_little_cluster_fields s) as (_&_&_&_&_&_&Hl&Hs&_).
  repeat split; [| exact Hl | exact Hs].
  intros _. rewrite enable_little_cluster_online. cbn [is_little_cpu Nat.ltb
    Nat.leb N_LITTLE_CPUS Z.of_nat].
  destruct (negb (screen_on s) && negb (screen_off_power_mode s));
    [| reflexivity].
  destruct (Z.ltb_spec 0 (max_cores_screenoff (par s))); cbn [andb];
    [| reflexivity].
  destruct (max_cores_screenoff (par s) <=? 4); [| reflexivity].
  now apply Z.ltb_lt.
Qed.

Lemma inv_kept_disable_big_cluster s : inv_kept s (disable_big_cluster s).
Proof.
  destruct (disable_big_cluster_fields s) as (_&_&_&_&_&_&Hl&Hs&_).
  repeat split; [| exact Hl | exact Hs].
  rewrite disable_big_cluster_online.
  cbn [is_big_cpu Nat.leb N_LITTLE_CPUS]. now rewrite andb_false_r.
Qed.

Lemma inv_kept_queue_delayed_work ms s : inv_kept s (queue_delayed_work ms s).
Proof.
  unfold queue_delayed_work. destruct (work s); unfold inv_kept; auto.
Qed.

Lemma inv_kept_set_online_all v s s' :
  inv_kept s s' -> inv_kept s (set_online_all v s').
Proof. intros H. exact H. Qed.

Lemma inv_kept_set_workqueue_suspended v s s' :
  inv_kept s s' -> inv_kept s (set_workqueue_suspended v s').
Proof. intros H. exact H. Qed.

Lemma inv_kept_set_cluster_flags s s' :
  inv_kept s s' ->
  inv_kept s (set_little_cluster_enabled true (set_big_cluster_enabled true s')).
Proof. intros H. exact H. Qed.

(** The work function keeps the invariant of every state it returns
    from. *)
Lemma cluster_plug_work_fn_kept tm held s s' :
  cluster_plug_work_fn tm held s = Ret s' -> inv_kept s s'.
Proof.
  unfold cluster_plug_work_fn.
  set (s1 := if online_all s then _ else s).
  assert (H1 : inv_kept s s1).
  { subst s1. destruct (online_all s); [| apply inv_kept_refl].
    apply inv_kept_set_cluster_flags, inv_kept_optimized_online_all. }
  clearbody s1.
  destruct (active s1).
  - destruct (negb (online_all s1)).
    + destruct ((screen_on s1 || screen_off_power_mode s1)
                && negb (low_power_mode s1)).
      * destruct (cluster_plug_perform tm s1) as [s2| |] eqn:Hp;
          cbn [bind]; try discriminate.
        intros [= <-]. apply cluster_plug_perform_kept in Hp.
        apply (inv_kept_trans _ s1); [exact H1 |].
        apply (inv_kept_trans _ s2); [exact Hp |].
        apply inv_kept_set_online_all, inv_kept_queue_delayed_work.
      * destruct held; [discriminate |]. intros [= <-].
        apply (inv_kept_trans _ s1); [exact H1 |].
        apply (inv_kept_trans _ (enable_little_cluster s1));
          [apply inv_kept_enable_little_cluster |].
        apply inv_kept_set_workqueue_suspended, inv_kept_disable_big_cluster.
    + intros [= <-]. apply (inv_kept_trans _ s1); [exact H1 |].
      apply inv_kept_set_online_all, inv_kept_queue_delayed_work.
  - intros [= <-]. apply inv_kept_set_online_all. exact H1.
Qed.

Lemma cluster_plug_work_fn_no_div tm held s :
  cpu_online s 0 = true -> cluster_plug_work_fn tm held s <> DivByZero.
Proof.
  intros H0. unfold cluster_plug_work_fn.
  set (s1 := if online_all s then _ else s).
  assert (H1 : cpu_online s1 0 = true).
  { subst s1. destruct (online_all s); [| exact H0].
    apply (inv_kept_set_cluster_flags s), H0.
    apply inv_kept_optimized_online_all. }
  clearbody s1.
  destruct (active s1); [| discriminate].
  destruct (negb (online_all s1)); [| discriminate].
  destruct ((screen_on s1 || screen_off_power_mode s1)
            && negb (low_power_mode s1)).
  - destruct (cluster_plug_perform_returns tm s1 H1) as [s2 ->].
    discriminate.
  - destruct held; discriminate.
Qed.

(** ** Steps and reachable states *)

Lemma run_work_kept tm held s s' :
  run_work tm held s = Ret s' -> inv_kept s s'.
Proof.
  unfold run_work. destruct (work s); try (intros [= <-]; apply inv_kept_refl).
  intros H. apply cluster_plug_work_fn_kept in H. exact H.
Qed.

Lemma run_work_no_div tm held s :
  cpu_online s 0 = true -> run_work tm held s <> DivByZero.
Proof.
  intros H0. unfold run_work. destruct (work s); try discriminate.
  now apply cluster_plug_work_fn_no_div.
Qed.

Lemma lcd_notifier_callback_kept ev s : inv_kept s (lcd_notifier_callback ev s).
Proof.
  unfold lcd_notifier_callback, cluster_plug_hotplug_suspend,
    cluster_plug_hotplug_resume, queue_clusterplug_work, queue_delayed_work,
    queue_work.
  destruct (active s); cbn [negb]; [| apply inv_kept_refl].
  destruct ev; try apply inv_kept_refl; cbn;
    destruct (workqueue_suspended s); cbn; destruct (work s);
    unfold inv_kept; auto.
Qed.

Lemma timer_fire_kept s : inv_kept s (timer_fire s).
Proof. unfold timer_fire. destruct (work s); unfold inv_kept; auto. Qed.

Lemma param_set_uint_kept p buf s : inv_kept s (snd (param_set_uint p buf s)).
Proof.
  unfold param_set_uint. destruct (fst (kstrtouint buf) =? 0);
    unfold inv_kept; auto.
Qed.

(** What a store that returns has done: nothing, or the flush, the cancel,
    the assignments and the queueing, in this order. *)
Lemma active_store_inv tm buf s ret s' :
  active_store tm buf s = Ret (ret, s') ->
  s' = s \/
  (ret = 0 /\
   exists s1,
     flush_workqueue tm s = Ret s1 /\
     s' = queue_clusterplug_work 1
            (set_workqueue_suspended false
               (set_online_all true
                  (set_active (negb (snd (kstrtoint buf) =? 0))
                     (cancel_delayed_work s1))))).
Proof.
  unfold active_store.
  destruct (Z.eqb_spec (fst (kstrtoint buf)) 0) as [Hz|Hz];
    [| intros [= _ <-]; now left].
  destruct (Bool.eqb _ _); [intros [= _ <-]; now left |].
  destruct (flush_workqueue tm s) as [s1| |]; cbn [bind]; try discriminate.
  intros [= <- <-]. right. split; [exact Hz |]. exists s1. auto.
Qed.

Lemma low_power_mode_store_inv tm buf s ret s' :
  low_power_mode_store tm buf s = Ret (ret, s') ->
  s' = s \/
  (ret = 0 /\
   exists s1,
     flush_workqueue tm s = Ret s1 /\
     let s3 := set_low_power_mode (negb (snd (kstrtoint buf) =? 0))
                 (cancel_delayed_work s1) in
     s' = queue_clusterplug_work 1
            (set_workqueue_suspended false
               (if low_power_mode s3
                then set_screen_off_power_mode false s3 else s3))).
Proof.
  unfold low_power_mode_store.
  destruct (Z.eqb_spec (fst (kstrtoint buf)) 0) as [Hz|Hz];
    [| intros [= _ <-]; now left].
  destruct (Bool.eqb _ _); [intros [= _ <-]; now left |].
  destruct (flush_workqueue tm s) as [s1| |]; cbn [bind]; try discriminate.
  intros [= <- <-]. right. split; [exact Hz |]. exists s1. auto.
Qed.

Lemma screen_off_power_mode_store_inv tm buf s ret s' :
  screen_off_power_mode_store tm buf s = Ret (ret, s') ->
  s' = s \/
  (ret = 0 /\
   exists s1,
     flush_workqueue tm s = Ret s1 /\
     let s3 := set_screen_off_power_mode (negb (snd (kstrtoint buf) =? 0))
                 (cancel_delayed_work s1) in
     s' = queue_clusterplug_work 1
            (set_workqueue_suspended false
               (if screen_off_power_mode s3
                then set_low_power_mode false s3 else s3))).
Proof.
  unfold screen_off_power_mode_store.
  destruct (Z.eqb_spec (fst (kstrtoint buf)) 0) as [Hz|Hz];
    [| intros [= _ <-]; now left].
  destruct (Bool.eqb _ _); [intros [= _ <-]; now left |].
  destruct (flush_workqueue tm s) as [s1| |]; cbn [bind]; try discriminate.
  intros [= <- <-]. right. split; [exact Hz |]. exists s1. auto.
Qed.

Lemma queue_clusterplug_work_fields ms s :
  cpu_online_mask (queue_clusterplug_work ms s) = cpu_online_mask s /\
  low_power_mode (queue_clusterplug_work ms s) = low_power_mode s /\
  screen_off_power_mode (queue_clusterplug_work ms s) = screen_off_power_mode s /\
  active (queue_clusterplug_work ms s) = active s /\
  online_all (queue_clusterplug_work ms s) = online_all s /\
  vote_up (queue_clusterplug_work ms s) = vote_up s /\
  vote_down (queue_clusterplug_work ms s) = vote_down s.
Proof.
  unfold queue_clusterplug_work, queue_delayed_work.
  destruct (work s); repeat split.
Qed.

Lemma active_store_kept tm buf s ret s' :
  active_store tm buf s = Ret (ret, s') -> inv_kept s s'.
Proof.
  intros H. apply active_store_inv in H.
  destruct H as [->|(_ & s1 & Hf & ->)]; [apply inv_kept_refl |].
  unfold flush_workqueue in Hf.
  apply run_work_kept in Hf. destruct Hf as (H0 & Hl & Hs).
  destruct (queue_clusterplug_work_fields 1
    (set_workqueue_suspended false
       (set_online_all true
          (set_active (negb (snd (kstrtoint buf) =? 0))
             (cancel_delayed_work s1))))) as (Hm & Hl' & Hs' & _).
  unfold inv_kept, cpu_online. rewrite Hm, Hl', Hs'. cbn. auto.
Qed.

(** Each mode store leaves the two modes not both set, provided they were
    not both set before. *)
Lemma low_power_mode_store_modes tm buf s ret s' :
  low_power_mode_store tm buf s = Ret (ret, s') ->
  (cpu_online s 0 = true -> cpu_online s' 0 = true) /\
  (low_power_mode s && screen_off_power_mode s = false ->
   low_power_mode s' && screen_off_power_mode s' = false).
Proof.
  intros H. apply low_power_mode_store_inv in H.
  destruct H as [->|(_ & s1 & Hf & ->)]; [auto |].
  unfold flush_workqueue in Hf.
  apply run_work_kept in Hf. destruct Hf as (H0 & Hl & Hs).
  cbv zeta.
  match goal with
  | |- context [queue_clusterplug_work 1 ?x] =>
      destruct (queue_clusterplug_work_fields 1 x) as (Hm & Hl' & Hs' & _)
  end.
  unfold cpu_online. rewrite Hm, Hl', Hs'.
  destruct (negb (snd (kstrtoint buf) =? 0)); cbn;
    (split; [auto |]); intros; rewrite ?andb_false_r; auto.
Qed.

Lemma screen_off_power_mode_store_modes tm buf s ret s' :
  screen_off_power_mode_store tm buf s = Ret (ret, s') ->
  (cpu_online s 0 = true -> cpu_online s' 0 = true) /\
  (low_power_mode s && screen_off_power_mode s = false ->
   low_power_mode s' && screen_off_power_mode s' = false).
Proof.
  intros H. apply screen_off_power_mode_store_inv in H.
  destruct H as [->|(_ & s1 & Hf & ->)]; [auto |].
  unfold flush_workqueue in Hf.
  apply run_work_kept in Hf. destruct Hf as (H0 & Hl & Hs).
  cbv zeta.
  match goal with
  | |- context [queue_clusterplug_work 1 ?x] =>
      destruct (queue_clusterplug_work_fields 1 x) as (Hm & Hl' & Hs' & _)
  end.
  unfold cpu_online. rewrite Hm, Hl', Hs'.
  destruct (negb (snd (kstrtoint buf) =? 0)); cbn;
    (split; [auto |]); intros; rewrite ?andb_false_r; auto.
Qed.

Lemma inv_kept_driver_inv s s' : inv_kept s s' -> driver_inv s -> driver_inv s'.
Proof.
  intros (H0 & Hl & Hs) [Hc Hm]. split; [auto |]. now rewrite Hl, Hs.
Qed.

Lemma step_inv e s s' : driver_inv s -> step e s = Ret s' -> driver_inv s'.
Proof.
  intros Hinv. destruct e as [|tm|ev|tm buf|tm buf|tm buf|p buf]; cbn [step].
  - intros [= <-]. eapply inv_kept_driver_inv; [apply timer_fire_kept | easy].
  - unfold tick. intros H. apply run_work_kept in H.
    eapply inv_kept_driver_inv; eassumption.
  - intros [= <-].
    eapply inv_kept_driver_inv; [apply lcd_notifier_callback_kept | easy].
  - destruct (active_store tm buf s) as [[ret s1]| |] eqn:E; cbn [bind snd];
      try discriminate.
    intros [= <-]. apply active_store_kept in E.
    eapply inv_kept_driver_inv; eassumption.
  - destruct (low_power_mode_store tm buf s) as [[ret s1]| |] eqn:E;
      cbn [bind snd]; try discriminate.
    intros [= <-]. apply low_power_mode_store_modes in E.
    destruct Hinv, E. split; auto.
  - destruct (screen_off_power_mode_store tm buf s) as [[ret s1]| |] eqn:E;
      cbn [bind snd]; try discriminate.
    intros [= <-]. apply screen_off_power_mode_store_modes in E.
    destruct Hinv, E. split; auto.
  - intros [= <-].
    eapply inv_kept_driver_inv; [apply param_set_uint_kept | easy].
Qed.

Lemma store_no_div (A B : Type) (m : outcome A) (k : A -> outcome B) :
  m <> DivByZero -> (forall x, k x <> DivByZero) -> bind m k <> DivByZero.
Proof. destruct m; cbn [bind]; auto; discriminate. Qed.

Lemma step_no_div e s : cpu_online s 0 = true -> step e s <> DivByZero.
Proof.
  intros H0. destruct e as [|tm|ev|tm buf|tm buf|tm buf|p buf]; cbn [step];
    try discriminate.
  - now apply run_work_no_div.
  - apply store_no_div; [| discriminate]. unfold active_store.
    destruct (fst (kstrtoint buf) =? 0); [| discriminate].
    destruct (Bool.eqb _ _); [discriminate |].
    apply store_no_div; [now apply run_work_no_div | discriminate].
  - apply store_no_div; [| discriminate]. unfold low_power_mode_store.
    destruct (fst (kstrtoint buf) =? 0); [| discriminate].
    destruct (Bool.eqb _ _); [discriminate |].
    apply store_no_div; [now apply run_work_no_div | discriminate].
  - apply store_no_div; [| discriminate]. unfold screen_off_power_mode_store.
    destruct (fst (kstrtoint buf) =? 0); [| discriminate].
    destruct (Bool.eqb _ _); [discriminate |].
    apply store_no_div; [now apply run_work_no_div | discriminate].
Qed.

Lemma reachable_inv s : reachable s -> driver_inv s.
Proof.
  induction 1 as [|e s s' _ IH Hstep].
  - split; reflexivity.
  - exact (step_inv e s s' IH Hstep).
Qed.

(** C8: in every state the driver reaches cpu0 is online, so the loop of
    [calculateLoad] counts at least one online cpu, the division has a
    non-zero divisor and returns, and no step from that state divides by
    zero. *)
Theorem reachable_load_divisor_nonzero (tm : time_source) (s : state) :
  reachable s ->
  cpu_online s 0 = true /\
  1 <= cpus (fst (calculateLoad_loop tm s)) <= 8 /\
  (exists load info, calculateLoad tm s = Ret (load, set_cp_info info s)) /\
  (forall e, step e s <> DivByZero).
Proof.
  intros Hr. destruct (reachable_inv s Hr) as [H0 _].
  split; [exact H0 |].
  split; [now apply calculateLoad_loop_cpus |].
  split; [now apply calculateLoad_returns |].
  intros e. now apply step_no_div.
Qed.

(** The initial state. *)
Lemma reachable_load_divisor_nonzero_witness :
  cpu_online init_state 0 = true /\
  1 <= cpus (fst (calculateLoad_loop (fun _ => (50, 100)) init_state)) <= 8.
Proof.
  destruct (reachable_load_divisor_nonzero (fun _ => (50, 100)) init_state
              reachable_init) as (H0 & Hc & _).
  split; [exact H0 | exact Hc].
Defined.

(** C9: from a state the driver reaches, a write to [low_power_mode] or to
    [screen_off_power_mode] that returns leaves the two flags not both
    set; an accepted write of a non-zero value leaves the written flag set
    and the other flag clear. *)
Theorem power_modes_exclusive
    (tm : time_source) (buf : written) (s : state) (ret : Z) (s' : state) :
  reachable s ->
  (low_power_mode_store tm buf s = Ret (ret, s') ->
     low_power_mode s' && screen_off_power_mode s' = false /\
     (ret = 0 -> snd (kstrtoint buf) <> 0 ->
      low_power_mode s' = true /\ screen_off_power_mode s' = false)) /\
  (screen_off_power_mode_store tm buf s = Ret (ret, s') ->
     low_power_mode s' && screen_off_power_mode s' = false /\
     (ret = 0 -> snd (kstrtoint buf) <> 0 ->
      screen_off_power_mode s' = true /\ low_power_mode s' = false)).
Proof.
  intros Hr. destruct (reachable_inv s Hr) as [_ Hm]. split; intros E.
  - split; [apply (low_power_mode_store_modes _ _ _ _ _ E), Hm |].
    intros -> Hv. revert E. unfold low_power_mode_store.
    destruct (Z.eqb_spec (fst (kstrtoint buf)) 0);
      [| intros [= E _]; congruence].
    destruct (Z.eqb_spec (snd (kstrtoint buf)) 0) as [|_]; [easy |].
    cbn [negb]. destruct (low_power_mode s) eqn:Hl; cbn [Bool.eqb].
    + intros [= _ <-]. split; [exact Hl | exact Hm].
    + destruct (flush_workqueue tm s) as [s1| |]; cbn [bind];
        try discriminate.
      intros [= _ <-].
      match goal with
      | |- context [queue_clusterplug_work 1 ?x] =>
          destruct (queue_clusterplug_work_fields 1 x) as (_ & -> & -> & _)
      end.
      split; reflexivity.
  - split; [apply (screen_off_power_mode_store_modes _ _ _ _ _ E), Hm |].
    intros -> Hv. revert E. unfold screen_off_power_mode_store.
    destruct (Z.eqb_spec (fst (kstrtoint buf)) 0);
      [| intros [= E _]; congruence].
    destruct (Z.eqb_spec (snd (kstrtoint buf)) 0) as [|_]; [easy |].
    cbn [negb]. destruct (screen_off_power_mode s) eqn:Hl; cbn [Bool.eqb].
    + intros [= _ <-]. rewrite andb_true_r in Hm. split; [exact Hl | exact Hm].
    + destruct (flush_workqueue tm s) as [s1| |]; cbn [bind];
        try discriminate.
      intros [= _ <-].
      match goal with
      | |- context [queue_clusterplug_work 1 ?x] =>
          destruct (queue_clusterplug_work_fields 1 x) as (_ & -> & -> & _)
      end.
      split; reflexivity.
Qed.

(** Writing 1 to [low_power_mode] in the initial state. *)
Lemma power_modes_exclusive_witness :
  match low_power_mode_store (fun _ => (50, 100)) (Num 1) init_state with
  | Ret (_, s') =>
      low_power_mode s' = true /\ screen_off_power_mode s' = false
  | _ => False
  end.
Proof.
  destruct (low_power_mode_store (fun _ => (50, 100)) (Num 1) init_state)
    as [[ret s']| |] eqn:E; try (vm_compute in E; discriminate E).
  destruct (power_modes_exclusive (fun _ => (50, 100)) (Num 1) init_state
              ret s' reachable_init) as [H _].
  destruct (H E) as [_ H2]. apply H2.
  - vm_compute in E. now injection E as <- _.
  - vm_compute. discriminate.
Defined.

(** ** Enabling and disabling the controller *)

Lemma optimized_online_all_fields s :
  par (optimized_online_all s) = par s /\
  active (optimized_online_all s) = active s /\
  workqueue_suspended (optimized_online_all s) = workqueue_suspended s /\
  screen_on (optimized_online_all s) = screen_on s /\
  big_cluster_enabled (optimized_online_all s) = big_cluster_enabled s /\
  little_cluster_enabled (optimized_online_all s) = little_cluster_enabled s /\
  low_power_mode (optimized_online_all s) = low_power_mode s /\
  screen_off_power_mode (optimized_online_all s) = screen_off_power_mode s /\
  online_all (optimized_online_all s) = online_all s /\
  vote_up (optimized_online_all s) = vote_up s /\
  vote_down (optimized_online_all s) = vote_down s /\
  cp_info (optimized_online_all s) = cp_info s /\
  work (optimized_online_all s) = work s.
Proof. exact (hw_only_fields _ _ (hw_only_optimized_online_all_from 7 s)). Qed.

Lemma optimized_online_all_online s c :
  (c < 8)%nat -> cpu_online (optimized_online_all s) c = true.
Proof.
  intros Hc. unfold optimized_online_all.
  rewrite optimized_online_all_from_online.
  destruct (Nat.leb_spec c 7); [reflexivity | lia].
Qed.

(** The work function when [online_all] is set: every core is brought
    online, both cluster flags are set, the flag is cleared, and the work
    is queued again only if the controller is active. *)
Lemma cluster_plug_work_fn_online_all tm held s :
  online_all s = true ->
  exists s',
    cluster_plug_work_fn tm held s = Ret s' /\
    (forall c, (c < 8)%nat -> cpu_online s' c = true) /\
    big_cluster_enabled s' = true /\
    little_cluster_enabled s' = true /\
    online_all s' = false /\
    active s' = active s /\
    vote_up s' = vote_up s /\ vote_down s' = vote_down s /\
    work s' =
      (if active s then
         work (queue_clusterplug_work (sampling_time (par s)) s)
       else work s).
Proof.
  intros Hall. unfold cluster_plug_work_fn. rewrite Hall.
  destruct (optimized_online_all_fields s)
    as (Hpar & Hact & _ & _ & _ & _ & _ & _ & Hoa & Hvu & Hvd & _ & Hw).
  pose proof (optimized_online_all_online s) as Hon.
  generalize dependent (optimized_online_all s). intros t.
  intros Hpar Hact Hoa Hvu Hvd Hw Hon.
  cbn [active online_all set_little_cluster_enabled set_big_cluster_enabled].
  rewrite Hact, Hoa, Hall. cbn [negb].
  destruct (active s); eexists; (split; [reflexivity |]).
  - unfold queue_clusterplug_work, queue_delayed_work. cbn [par work
      set_little_cluster_enabled set_big_cluster_enabled].
    rewrite Hw, Hpar.
    destruct (work s) eqn:Ews; cbn; rewrite ?Ews;
      repeat split; try exact Hon; congruence.
  - cbn. repeat split; try exact Hon; congruence.
Qed.

(** What a write to [active] that changes the flag has done once it has
    returned: [online_all] is set and the work item is pending with a delay
    of 1 ms; the tick this produces leaves all eight cores online and both
    cluster flags set, and keeps the new value of [active].  Whether the
    write returns is another matter, settled further down. *)
Lemma active_store_toggle_returned
    (tm tm' : time_source) (buf : written) (s : state) :
  fst (kstrtoint buf) = 0 ->
  negb (snd (kstrtoint buf) =? 0) <> active s ->
  (work s <> WorkQueued -> exists r, active_store tm buf s = Ret r) /\
  (forall ret s',
     active_store tm buf s = Ret (ret, s') ->
     ret = 0 /\
     active s' = negb (active s) /\
     online_all s' = true /\
     workqueue_suspended s' = false /\
     work s' = WorkTimer 1 /\
     exists s'',
       tick tm' (timer_fire s') = Ret s'' /\
       (forall c, (c < 8)%nat -> cpu_online s'' c = true) /\
       big_cluster_enabled s'' = true /\
       little_cluster_enabled s'' = true /\
       online_all s'' = false /\
       active s'' = active s').
Proof.
  intros Hret Htog.
  assert (Heq : Bool.eqb (negb (snd (kstrtoint buf) =? 0)) (active s) = false).
  { destruct (negb (snd (kstrtoint buf) =? 0)), (active s); auto;
      now elim Htog. }
  unfold active_store. rewrite Hret, Heq. cbn [Z.eqb]. split.
  - intros Hw. unfold flush_workqueue, run_work.
    destruct (work s); try (now elim Hw); cbn [bind]; eexists; reflexivity.
  - intros ret s'.
    destruct (flush_workqueue tm s) as [s1| |]; cbn [bind]; try discriminate.
    intros [= <- <-]. split; [reflexivity |].
    set (v := negb (snd (kstrtoint buf) =? 0)) in *.
    assert (Hv : v = negb (active s))
      by (destruct v, (active s); auto; now elim Htog).
    unfold queue_clusterplug_work, queue_delayed_work, cancel_delayed_work.
    cbn [work set_workqueue_suspended set_online_all set_active set_work
         Z.eqb].
    split; [exact Hv |]. split; [reflexivity |]. split; [reflexivity |].
    split; [reflexivity |].
    unfold tick, timer_fire, run_work.
    cbn [work set_workqueue_suspended set_online_all set_active set_work].
    match goal with
    | |- context [cluster_plug_work_fn tm' false ?x] =>
        destruct (cluster_plug_work_fn_online_all tm' false x eq_refl)
          as (s'' & -> & Hon & Hb & Hl & Hoa & Hact & _)
    end.
    exists s''. cbn in Hact. auto 10.
Qed.

(** C10 does not hold of the code: a write to [active] that changes the
    flag need not return.  The controller is enabled and has run its first
    tick; the screen goes off and the timer of the next tick fires, so the
    tick that will suspend sits on the queue.  A write of 0 now takes
    [cluster_plug_mutex] and flushes the queue; the flushed tick reaches
    its own [mutex_lock] and waits for the writer, which waits for the
    tick: the write sets no [online_all] and queues nothing.  Left alone,
    the same tick returns, and the same write then returns as well. *)
Lemma active_store_blocks_behind_suspend_tick :
  let tm : time_source := fun _ => (50, 100) in
  let evs :=
    [EvActive tm (Num 1); EvTimer; EvTick tm;
     EvLcd LCD_EVENT_OFF_END; EvTimer] in
  match run evs init_state with
  | Ret s =>
      active s = true /\ online_all s = false /\ work s = WorkQueued /\
      kstrtoint (Num 0) = (0, 0) /\
      active_store tm (Num 0) s = Blocked /\
      match tick tm s with
      | Ret s1 =>
          workqueue_suspended s1 = true /\
          match active_store tm (Num 0) s1 with
          | Ret (ret, s2) =>
              ret = 0 /\ active s2 = false /\ online_all s2 = true
          | _ => False
          end
      | _ => False
      end
  | _ => False
  end.
Proof. vm_compute. repeat split. Qed.

(** The work function when the controller is inactive: no sampling, no
    vote, no queueing; all it can do is the pending force-online-all. *)
Lemma cluster_plug_work_fn_inactive tm held s :
  active s = false ->
  exists s',
    cluster_plug_work_fn tm held s = Ret s' /\
    active s' = false /\ online_all s' = false /\
    vote_up s' = vote_up s /\ vote_down s' = vote_down s /\
    cp_info s' = cp_info s /\ work s' = work s /\
    (online_all s = true -> forall c, (c < 8)%nat -> cpu_online s' c = true) /\
    (online_all s = false -> hw_only s (set_online_all (online_all s) s')).
Proof.
  intros Hact. unfold cluster_plug_work_fn.
  destruct (online_all s) eqn:Hall.
  - destruct (optimized_online_all_fields s)
      as (_ & Ha & _ & _ & _ & _ & _ & _ & _ & Hvu & Hvd & Hcp & Hw).
    pose proof (optimized_online_all_online s) as Hon.
    generalize dependent (optimized_online_all s). intros t Ha Hvu Hvd Hcp Hw Hon.
    cbn [active set_little_cluster_enabled set_big_cluster_enabled].
    rewrite Ha, Hact. eexists. split; [reflexivity |].
    cbn. repeat split; try (intros _; exact Hon); congruence.
  - rewrite Hact. eexists. split; [reflexivity |].
    cbn. repeat split; try congruence.
    intros _. destruct s; cbn in *. subst. reflexivity.
Qed.

(** C4, as the specification words it, fails in a state the driver
    reaches: the controller runs, six idle samples take cpu6 offline, then
    0 is written to [active].  When the write has returned the work item
    is pending on a 1 ms timer, and the tick it produces runs and brings
    cpu6 online again. *)
Lemma disable_leaves_a_tick_pending :
  let at_ (k : Z) : time_source := fun _ => (100 * k, 100 * k) in
  let evs :=
    [EvActive (at_ 0) (Num 1); EvTimer; EvTick (at_ 0);
     EvTimer; EvTick (at_ 1); EvTimer; EvTick (at_ 2);
     EvTimer; EvTick (at_ 3); EvTimer; EvTick (at_ 4);
     EvTimer; EvTick (at_ 5); EvTimer; EvTick (at_ 6)] in
  match run evs init_state with
  | Ret s =>
      active s = true /\
      match active_store (at_ 7) (Num 0) s with
      | Ret (ret, s') =>
          ret = 0 /\ active s' = false /\
          work s' = WorkTimer 1 /\ cpu_online s' 6 = false /\
          match tick (at_ 8) (timer_fire s') with
          | Ret s'' => cpu_online s'' 6 = true /\ work s'' = WorkIdle
          | _ => False
          end
      | _ => False
      end
  | _ => False
  end.
Proof. vm_compute. repeat split. Qed.

(** C4, amended: when a write of 0 to [active] returns from an active
    controller, the controller is inactive and the work item is pending
    once more, on a 1 ms timer; the tick this produces samples no load,
    casts no vote and leaves the work item not pending; and in general a
    tick that runs while the controller is inactive never queues the work
    again. *)
Theorem disable_then_one_last_tick
    (tm tm' : time_source) (s : state) (ret : Z) (s' : state) :
  active s = true ->
  active_store tm (Num 0) s = Ret (ret, s') ->
  ret = 0 /\ active s' = false /\ online_all s' = true /\
  work s' = WorkTimer 1 /\
  (exists s'',
     tick tm' (timer_fire s') = Ret s'' /\
     work s'' = WorkIdle /\ active s'' = false /\ online_all s'' = false /\
     vote_up s'' = vote_up s' /\ vote_down s'' = vote_down s' /\
     cp_info s'' = cp_info s' /\
     (forall c, (c < 8)%nat -> cpu_online s'' c = true)) /\
  (forall tm'' t,
     active t = false -> work t = WorkQueued ->
     exists t',
       tick tm'' t = Ret t' /\ work t' = WorkIdle /\ active t' = false /\
       vote_up t' = vote_up t /\ vote_down t' = vote_down t /\
       cp_info t' = cp_info t).
Proof.
  intros Hact E.
  assert (Hgen : forall tm'' t,
     active t = false -> work t = WorkQueued ->
     exists t',
       tick tm'' t = Ret t' /\ work t' = WorkIdle /\ active t' = false /\
       online_all t' = false /\
       vote_up t' = vote_up t /\ vote_down t' = vote_down t /\
       cp_info t' = cp_info t /\
       (online_all t = true -> forall c, (c < 8)%nat -> cpu_online t' c = true)).
  { intros tm'' t Ht Hw. unfold tick, run_work. rewrite Hw.
    destruct (cluster_plug_work_fn_inactive tm'' false (set_work WorkIdle t) Ht)
      as (t' & -> & Ha & Hoa & Hvu & Hvd & Hcp & Hwk & Hon & _).
    exists t'. repeat split; auto. }
  revert E. unfold active_store. cbn [kstrtoint fst snd Z.eqb negb].
  change ((- 2 ^ 31 <=? 0) && (0 <? 2 ^ 31)) with true. cbn iota.
  cbn [fst snd Z.eqb negb]. rewrite Hact. cbn [Bool.eqb].
  destruct (flush_workqueue tm s) as [s1| |]; cbn [bind]; try discriminate.
  intros [= <- <-].
  unfold queue_clusterplug_work, queue_delayed_work, cancel_delayed_work.
  cbn [work set_workqueue_suspended set_online_all set_active set_work Z.eqb].
  split; [reflexivity |]. split; [reflexivity |]. split; [reflexivity |].
  split; [reflexivity |]. split.
  - match goal with
    | |- context [timer_fire ?x] =>
        destruct (Hgen tm' (timer_fire x) eq_refl eq_refl)
          as (t' & Ht & Hw & Ha & Hoa & Hvu & Hvd & Hcp & Hon)
    end.
    exists t'. repeat split; auto.
  - intros tm'' t Ht Hw.
    destruct (Hgen tm'' t Ht Hw) as (t' & H1 & H2 & H3 & _ & H4 & H5 & H6 & _).
    exists t'. auto 10.
Qed.

(** Writing 0 to [active] in the initial state made active. *)
Lemma disable_then_one_last_tick_witness :
  match active_store (fun _ => (50, 100)) (Num 0) (set_active true init_state) with
  | Ret (_, s') => active s' = false /\ work s' = WorkTimer 1
  | _ => False
  end.
Proof.
  destruct (active_store (fun _ => (50, 100)) (Num 0)
              (set_active true init_state)) as [[ret s']| |] eqn:E;
    try (vm_compute in E; discriminate E).
  destruct (disable_then_one_last_tick (fun _ => (50, 100)) (fun _ => (50, 100))
              (set_active true init_state) ret s' eq_refl E)
    as (_ & Ha & _ & Hw & _).
  split; [exact Ha | exact Hw].
Defined.

(** * Further properties of the driver *)

(** ** Sampling *)

(** The last branch of [get_delta_cpu_load_and_update]: the product may
    wrap, the quotient is a percentage all the same. *)
Lemma load_quotient_range w i :
  0 <= i <= w -> 0 < w < 2 ^ 32 ->
  0 <= u32 (100 * u32 (w - i)) / w <= 100.
Proof.
  intros Hi Hw. rewrite (u32_small (w - i)) by lia.
  pose proof (u32_range (100 * (w - i))) as Hr.
  assert (Hle : u32 (100 * (w - i)) <= 100 * (w - i)).
  { unfold u32. apply Z.mod_le; lia. }
  split.
  - apply Z.div_pos; lia.
  - apply Z.div_le_upper_bound; lia.
Qed.

Lemma get_delta_cpu_load_and_update_load tm cpu s :
  0 <= fst (get_delta_cpu_load_and_update tm cpu s) <= 100.
Proof.
  unfold get_delta_cpu_load_and_update.
  set (w := u32 (u64 (snd (tm cpu) - prev_cpu_wall (per_cpu (cp_info s) cpu)))).
  set (i := u32 (u64 (fst (tm cpu) - prev_cpu_idle (per_cpu (cp_info s) cpu)))).
  pose proof (u32_range (u64 (snd (tm cpu)
                - prev_cpu_wall (per_cpu (cp_info s) cpu)))) as Hw.
  pose proof (u32_range (u64 (fst (tm cpu)
                - prev_cpu_idle (per_cpu (cp_info s) cpu)))) as Hi.
  fold w in Hw. fold i in Hi. clearbody w i.
  destruct (Z.eqb_spec w 0) as [|Hw0]; cbn [orb fst]; [lia |].
  destruct (Z.ltb_spec w i); cbn [fst]; [lia |].
  apply load_quotient_range; lia.
Qed.

(** X1: whatever the time readings and the stored records are, the load
    [get_delta_cpu_load_and_update] returns is a percentage between 0 and
    100, also when the multiplication by 100 wraps around, and the call
    changes nothing but the per-cpu sampling records. *)
Theorem get_delta_cpu_load_and_update_percentage
    (tm : time_source) (cpu : nat) (s : state) :
  0 <= fst (get_delta_cpu_load_and_update tm cpu s) <= 100 /\
  snd (get_delta_cpu_load_and_update tm cpu s)
  = set_cp_info (cp_info (snd (get_delta_cpu_load_and_update tm cpu s))) s.
Proof.
  split; [apply get_delta_cpu_load_and_update_load |].
  destruct (get_delta_cpu_load_and_update_state tm cpu s) as [info ->].
  reflexivity.
Qed.

Lemma get_delta_cpu_load_and_update_cp_info tm cpu s :
  cp_info (snd (get_delta_cpu_load_and_update tm cpu s))
  = <[cpu := {| prev_cpu_wall := snd (tm cpu);
                prev_cpu_idle := fst (tm cpu) |}]> (cp_info s).
Proof.
  unfold get_delta_cpu_load_and_update.
  match goal with
  | |- context [if ?b then _ else _] => destruct b
  end; reflexivity.
Qed.

(** X2: for a cpu that has a sampling record, the call stores the readings
    it was given, whatever load it returns; sampling again before the
    clock has moved therefore sees a zero wall-time delta and reports the
    cpu as fully busy, 100. *)
Theorem get_delta_cpu_load_and_update_resample
    (tm : time_source) (cpu : nat) (s : state) :
  (cpu < length (cp_info s))%nat ->
  let s' := snd (get_delta_cpu_load_and_update tm cpu s) in
  per_cpu (cp_info s') cpu
  = {| prev_cpu_wall := snd (tm cpu); prev_cpu_idle := fst (tm cpu) |} /\
  fst (get_delta_cpu_load_and_update tm cpu s') = 100.
Proof.
  intros Hlen. cbv zeta.
  assert (Hrec :
    per_cpu (cp_info (snd (get_delta_cpu_load_and_update tm cpu s))) cpu
    = {| prev_cpu_wall := snd (tm cpu); prev_cpu_idle := fst (tm cpu) |}).
  { rewrite get_delta_cpu_load_and_update_cp_info. unfold per_cpu.
    rewrite list_lookup_insert_eq by exact Hlen. reflexivity. }
  split; [exact Hrec |].
  generalize dependent (snd (get_delta_cpu_load_and_update tm cpu s)).
  intros s' Hrec. unfold get_delta_cpu_load_and_update.
  rewrite Hrec. cbn [prev_cpu_wall prev_cpu_idle].
  rewrite Z.sub_diag. reflexivity.
Qed.

(** The second sample of cpu3 in the initial state. *)
Lemma get_delta_cpu_load_and_update_resample_witness :
  fst (get_delta_cpu_load_and_update (fun _ => (50, 100)) 3
         (snd (get_delta_cpu_load_and_update (fun _ => (50, 100)) 3
                 init_state))) = 100.
Proof.
  apply (get_delta_cpu_load_and_update_resample (fun _ => (50, 100)) 3
           init_state).
  vm_compute. lia.
Defined.





(** The divisor of [calculateLoad] is the number of online cpus. *)
Lemma calculateLoad_fold_count tm l acc n :
  0 <= cpus (fst acc) <= n -> n + Z.of_nat (length l) < 2 ^ 32 ->
  cpus (fst (fold_left (calculateLoad_body tm) l acc))
  = cpus (fst acc)
    + Z.of_nat (length (List.filter (cpu_online (snd acc)) l)).
Proof.
  revert acc n. induction l as [|c l IH]; intros acc n Hc Hn;
    cbn [fold_left length List.filter] in *; [cbn; lia |].
  destruct (calculateLoad_body_state tm acc c) as [info Hst].
  assert (Hb : cpus (fst (calculateLoad_body tm acc c))
               = cpus (fst acc) + (if cpu_online (snd acc) c then 1 else 0)).
  { unfold calculateLoad_body.
    destruct (get_delta_cpu_load_and_update_state tm c (snd acc)) as [i ->].
    change (cpu_online (set_cp_info i (snd acc)) c)
      with (cpu_online (snd acc) c).
    destruct (cpu_online (snd acc) c); [| cbn [fst]; lia].
    destruct (is_big_cpu c); cbn [fst cpus]; apply u32_small; lia. }
  rewrite (IH _ (n + 1)); [| destruct (cpu_online (snd acc) c); lia | lia].
  rewrite Hb, Hst.
  change (cpu_online (set_cp_info info (snd acc))) with (cpu_online (snd acc)).
  destruct (cpu_online (snd acc) c); cbn [length]; lia.
Qed.

Lemma calculateLoad_loop_count tm s :
  cpus (fst (calculateLoad_loop tm s))
  = Z.of_nat (length (List.filter (cpu_online s) possible_cpus)).
Proof.
  unfold calculateLoad_loop.
  rewrite (calculateLoad_fold_count tm possible_cpus _ 0);
    cbn [fst snd cpus]; [lia | lia |].
  change (Z.of_nat (length possible_cpus)) with 8. lia.
Qed.

Lemma no_cpu_online_iff s :
  List.filter (cpu_online s) possible_cpus = [] <->
  (forall c, (c < 8)%nat -> cpu_online s c = false).
Proof.
  split.
  - intros Hf c Hc.
    destruct (cpu_online s c) eqn:E; [| reflexivity].
    assert (Hin : In c (List.filter (cpu_online s) possible_cpus)).
    { apply filter_In. split; [| exact E].
      unfold possible_cpus, present_cpus. apply in_seq.
      unfold N_LITTLE_CPUS, N_BIG_CPUS. lia. }
    rewrite Hf in Hin. destruct Hin.
  - intros Hall.
    destruct (List.filter (cpu_online s) possible_cpus) as [|c l] eqn:E;
      [reflexivity |].
    assert (Hin : In c (List.filter (cpu_online s) possible_cpus))
      by (rewrite E; now left).
    apply filter_In in Hin. destruct Hin as [Hin Hon].
    unfold possible_cpus, present_cpus in Hin. apply in_seq in Hin.
    unfold N_LITTLE_CPUS, N_BIG_CPUS in Hin.
    rewrite Hall in Hon by lia. discriminate Hon.
Qed.


(** ** Switching cores, again *)

Lemma N_setbit_twice a n : N.setbit (N.setbit a n) n = N.setbit a n.
Proof.
  apply N.bits_inj. intros m. rewrite !N.setbit_eqb.
  now destruct (n =? m)%N.
Qed.

Lemma N_clearbit_twice a n : N.clearbit (N.clearbit a n) n = N.clearbit a n.
Proof.
  apply N.bits_inj. intros m. rewrite !N.clearbit_eqb.
  now destruct (N.testbit a m), (n =? m)%N.
Qed.

Lemma dev_is_offline_switch_cpu s c off c' :
  dev_is_offline (switch_cpu c off s) c' =
  if (c =? c')%nat then off else dev_is_offline s c'.
Proof.
  unfold switch_cpu. rewrite dev_is_offline_dev_set_offline.
  destruct (c =? c')%nat; [reflexivity |].
  destruct off; [destruct (cpu_online s c) | destruct (cpu_is_offline s c)];
    reflexivity.
Qed.

Lemma switch_cpu_twice c off s :
  switch_cpu c off (switch_cpu c off s) = switch_cpu c off s.
Proof.
  pose proof (cpu_online_switch_cpu s c off c) as Hon.
  rewrite Nat.eqb_refl in Hon.
  unfold switch_cpu at 1. unfold cpu_is_offline. rewrite Hon.
  destruct off; cbn [negb]; unfold switch_cpu, dev_set_offline;
    cbn [dev_offline set_dev_offline];
    rewrite ?N_setbit_twice, ?N_clearbit_twice;
    [destruct (cpu_online s c) | destruct (cpu_is_offline s c)];
    reflexivity.
Qed.

(** X4: [switch_cpu cpu offline] leaves [cpu] online exactly when
    [offline] is false, whatever [cpu] was before, and marks its device
    accordingly; it touches no other cpu and no driver variable, and a
    second identical call changes nothing. *)
Theorem switch_cpu_sets_target (c : nat) (off : bool) (s : state) :
  (forall c', cpu_online (switch_cpu c off s) c' =
              if (c =? c')%nat then negb off else cpu_online s c') /\
  (forall c', dev_is_offline (switch_cpu c off s) c' =
              if (c =? c')%nat then off else dev_is_offline s c') /\
  hw_only s (switch_cpu c off s) /\
  switch_cpu c off (switch_cpu c off s) = switch_cpu c off s.
Proof.
  split; [intros c'; apply cpu_online_switch_cpu |].
  split; [intros c'; apply dev_is_offline_switch_cpu |].
  split; [apply hw_only_switch_cpu | apply switch_cpu_twice].
Qed.

Lemma optimized_online_all_from_noop n s :
  (forall c, (c <= n)%nat -> cpu_online s c = true) ->
  optimized_online_all_from n s = s.
Proof.
  induction n as [|n IH]; intros Hall; cbn [optimized_online_all_from];
    unfold cpu_is_offline.
  - now rewrite Hall.
  - rewrite Hall by lia. cbn [negb]. apply IH. intros c Hc. apply Hall. lia.
Qed.

Lemma optimized_online_all_from_dev n s c :
  dev_is_offline (optimized_online_all_from n s) c =
  dev_is_offline s c && (negb (c <=? n)%nat || cpu_online s c).
Proof.
  revert s. induction n as [|n IH]; intros s; cbn [optimized_online_all_from].
  - unfold cpu_is_offline. destruct (cpu_online s 0) eqn:H0; cbn [negb].
    + destruct c; cbn; rewrite ?H0, ?orb_true_r, ?andb_true_r; reflexivity.
    + rewrite dev_is_offline_dev_set_offline, dev_is_offline_cpu_up.
      destruct c; cbn; rewrite ?H0, ?andb_false_r, ?andb_true_r; reflexivity.
  - rewrite IH. unfold cpu_is_offline.
    destruct (cpu_online s (S n)) eqn:Hn; cbn [negb].
    + destruct (Nat.leb_spec c n), (Nat.leb_spec c (S n)); try lia;
        cbn [negb orb]; try reflexivity.
      assert (c = S n) by lia. subst c. rewrite Hn. reflexivity.
    + rewrite dev_is_offline_dev_set_offline, dev_is_offline_cpu_up,
        cpu_online_dev_set_offline, cpu_online_cpu_up.
      destruct (Nat.eqb_spec (S n) c) as [<-|Hne].
      * rewrite Hn, Nat.leb_refl. cbn [andb negb orb].
        now rewrite andb_false_r.
      * cbn [orb].
        destruct (Nat.leb_spec c n), (Nat.leb_spec c (S n)); try lia;
          reflexivity.
Qed.

(** X5: [optimized_online_all] leaves cpu0..cpu7 online and touches no
    other cpu and no driver variable; it clears the offline mark only of
    the cpus it brought up, so a cpu that was online keeps its mark; when
    all eight are online it returns the state unchanged, and so does a
    second call. *)
Theorem optimized_online_all_effect (s : state) :
  (forall c, cpu_online (optimized_online_all s) c =
             (c <=? 7)%nat || cpu_online s c) /\
  (forall c, dev_is_offline (optimized_online_all s) c =
             dev_is_offline s c && (negb (c <=? 7)%nat || cpu_online s c)) /\
  hw_only s (optimized_online_all s) /\
  ((forall c, (c < 8)%nat -> cpu_online s c = true) ->
   optimized_online_all s = s) /\
  optimized_online_all (optimized_online_all s) = optimized_online_all s.
Proof.
  split; [intros c; apply optimized_online_all_from_online |].
  split; [intros c; apply optimized_online_all_from_dev |].
  split; [apply hw_only_optimized_online_all_from |].
  split.
  - intros Hall. apply optimized_online_all_from_noop.
    intros c Hc. apply Hall. lia.
  - apply (optimized_online_all_from_noop 7 (optimized_online_all s)).
    intros c Hc. apply optimized_online_all_online. lia.
Qed.

(** ** The two cluster operations, in general *)

Lemma required_little_cpus_range s : 1 <= required_little_cpus s <= 4.
Proof.
  unfold required_little_cpus.
  destruct (negb (screen_on s) && negb (screen_off_power_mode s)); [| lia].
  destruct (Z.ltb_spec 0 (max_cores_screenoff (par s))); cbn [andb]; [| lia].
  destruct (Z.leb_spec (max_cores_screenoff (par s)) 4); lia.
Qed.

(** X6: [enable_little_cluster] leaves online exactly the first [k] little
    cores, where [k] is [max_cores_screenoff] when the screen is off,
    [screen_off_power_mode] is clear and the value lies in 1..4, and 4 in
    every other case (a stored 0 or a stored value above 4 counts as 4);
    big cores and every other driver variable are untouched, and the
    little-cluster flag is set. *)
Theorem enable_little_cluster_cap (s : state) :
  1 <= required_little_cpus s <= 4 /\
  (screen_on s = false -> screen_off_power_mode s = false ->
   1 <= max_cores_screenoff (par s) <= 4 ->
   required_little_cpus s = max_cores_screenoff (par s)) /\
  (max_cores_screenoff (par s) <= 0 \/ 4 < max_cores_screenoff (par s) ->
   required_little_cpus s = 4) /\
  (forall c, cpu_online (enable_little_cluster s) c =
             if is_little_cpu c then Z.of_nat c <? required_little_cpus s
             else cpu_online s c) /\
  hw_only (set_little_cluster_enabled true s) (enable_little_cluster s).
Proof.
  split; [apply required_little_cpus_range |].
  split.
  { intros Hscr Hs Hmax. unfold required_little_cpus.
    rewrite Hscr, Hs. cbn [negb andb].
    destruct (Z.ltb_spec 0 (max_cores_screenoff (par s))); [| lia].
    destruct (Z.leb_spec (max_cores_screenoff (par s)) 4); [| lia].
    reflexivity. }
  split.
  { intros Hmax. unfold required_little_cpus.
    destruct (negb (screen_on s) && negb (screen_off_power_mode s));
      [| reflexivity].
    destruct (Z.ltb_spec 0 (max_cores_screenoff (par s))); cbn [andb];
      [| reflexivity].
    destruct (Z.leb_spec (max_cores_screenoff (par s)) 4); [lia | reflexivity]. }
  split; [intros c; apply enable_little_cluster_online |].
  apply enable_little_cluster_frame.
Qed.

Lemma enable_little_cluster_cap_witness :
  required_little_cpus
    (set_par (param_put P_max_cores_screenoff 3 default_params)
       (set_screen_on false init_state)) = 3.
Proof.
  apply (enable_little_cluster_cap
           (set_par (param_put P_max_cores_screenoff 3 default_params)
              (set_screen_on false init_state)));
    try reflexivity.
  vm_compute. split; discriminate.
Defined.

(** X7: [disable_big_cluster] trusts its flag.  With [big_cluster_enabled]
    clear it returns the state as it is, big cores online or not; with the
    flag set it leaves no big core online, clears the flag and changes no
    little core and no other variable.  A second call is therefore always
    a no-op. *)
Theorem disable_big_cluster_effect (s : state) :
  (big_cluster_enabled s = false -> disable_big_cluster s = s) /\
  (big_cluster_enabled s = true ->
   forall c, is_big_cpu c = true -> (c < 8)%nat ->
             cpu_online (disable_big_cluster s) c = false) /\
  (forall c, is_big_cpu c = false ->
             cpu_online (disable_big_cluster s) c = cpu_online s c) /\
  big_cluster_enabled (disable_big_cluster s) = false /\
  hw_only (set_big_cluster_enabled false s) (disable_big_cluster s) /\
  disable_big_cluster (disable_big_cluster s) = disable_big_cluster s.
Proof.
  assert (Hflag : big_cluster_enabled (disable_big_cluster s) = false)
    by apply disable_big_cluster_fields.
  assert (Hnoop : forall t, big_cluster_enabled t = false ->
                            disable_big_cluster t = t).
  { intros t Ht. unfold disable_big_cluster. now rewrite Ht. }
  split; [apply Hnoop |].
  split.
  { intros Hb c Hc Hlt. rewrite disable_big_cluster_online, Hb, Hc.
    destruct (Nat.ltb_spec c 8); [reflexivity | lia]. }
  split.
  { intros c Hc. rewrite disable_big_cluster_online, Hc.
    now rewrite andb_false_r. }
  split; [exact Hflag |].
  split.
  { pose proof (disable_big_cluster_frame s) as H.
    destruct (big_cluster_enabled s) eqn:Hb; [exact H |].
    unfold hw_only in *. rewrite H at 1. destruct s; cbn in *. now subst. }
  apply Hnoop, Hflag.
Qed.

Lemma disable_big_cluster_effect_witness :
  disable_big_cluster (set_big_cluster_enabled false init_state)
  = set_big_cluster_enabled false init_state.
Proof.
  destruct (disable_big_cluster_effect
              (set_big_cluster_enabled false init_state)) as [H _].
  apply H. reflexivity.
Defined.

(** ** Repeated and single switches *)

Lemma online_one_cpu_from_mono n s c :
  cpu_online s c = true -> cpu_online (online_one_cpu_from n s) c = true.
Proof.
  intros Hc. induction n as [|n IH]; cbn [online_one_cpu_from]; [exact Hc |].
  destruct (cpu_is_offline s (S n)); [| exact IH].
  rewrite cpu_online_dev_set_offline, cpu_online_cpu_up, Hc.
  apply orb_true_r.
Qed.

Lemma offline_one_cpu_from_mono n s c :
  cpu_online s c = false -> cpu_online (offline_one_cpu_from n s) c = false.
Proof.
  intros Hc. induction n as [|n IH]; cbn [offline_one_cpu_from]; [exact Hc |].
  destruct (cpu_online s (S n)); [| exact IH].
  rewrite cpu_online_dev_set_offline, cpu_online_cpu_down, Hc. reflexivity.
Qed.

(** If every candidate above [k] is already online, the scan reaches [k]
    or stops at it. *)
Lemma online_one_cpu_from_fills n s k :
  (1 <= k <= n)%nat ->
  (forall c, (k < c <= n)%nat -> cpu_online s c = true) ->
  cpu_online (online_one_cpu_from n s) k = true.
Proof.
  induction n as [|n IH]; intros Hk Habove; [lia |].
  cbn [online_one_cpu_from]. unfold cpu_is_offline.
  destruct (cpu_online s (S n)) eqn:Hn; cbn [negb].
  - destruct (Nat.eq_dec k (S n)) as [->|Hne].
    + now apply online_one_cpu_from_mono.
    + apply IH; [lia |]. intros c Hc. apply Habove. lia.
  - destruct (Nat.eq_dec k (S n)) as [->|Hne].
    + rewrite cpu_online_dev_set_offline, cpu_online_cpu_up, Nat.eqb_refl.
      reflexivity.
    + rewrite Habove in Hn by lia. discriminate Hn.
Qed.

Lemma offline_one_cpu_from_empties n s k :
  (1 <= k <= n)%nat ->
  (forall c, (k < c <= n)%nat -> cpu_online s c = false) ->
  cpu_online (offline_one_cpu_from n s) k = false.
Proof.
  induction n as [|n IH]; intros Hk Habove; [lia |].
  cbn [offline_one_cpu_from].
  destruct (cpu_online s (S n)) eqn:Hn.
  - destruct (Nat.eq_dec k (S n)) as [->|Hne].
    + rewrite cpu_online_dev_set_offline, cpu_online_cpu_down, Nat.eqb_refl.
      apply andb_false_r.
    + rewrite Habove in Hn by lia. discriminate Hn.
  - destruct (Nat.eq_dec k (S n)) as [->|Hne].
    + now apply offline_one_cpu_from_mono.
    + apply IH; [lia |]. intros c Hc. apply Habove. lia.
Qed.

Lemma online_one_cpu_from_noop n s :
  (forall c, (1 <= c <= n)%nat -> cpu_online s c = true) ->
  online_one_cpu_from n s = s.
Proof.
  induction n as [|n IH]; intros Hall; cbn [online_one_cpu_from];
    [reflexivity |].
  unfold cpu_is_offline. rewrite Hall by lia. cbn [negb].
  apply IH. intros c Hc. apply Hall. lia.
Qed.

Lemma offline_one_cpu_from_noop n s :
  (forall c, (1 <= c <= n)%nat -> cpu_online s c = false) ->
  offline_one_cpu_from n s = s.
Proof.
  induction n as [|n IH]; intros Hall; cbn [offline_one_cpu_from];
    [reflexivity |].
  rewrite Hall by lia. apply IH. intros c Hc. apply Hall. lia.
Qed.

Lemma online_one_cpu_step k s :
  (1 <= k <= 6)%nat ->
  (forall c, (k < c <= 6)%nat -> cpu_online s c = true) ->
  forall c, (k - 1 < c <= 6)%nat -> cpu_online (online_one_cpu s) c = true.
Proof.
  intros Hk Habove c Hc. unfold online_one_cpu.
  change (7 - 1)%nat with 6%nat.
  destruct (Nat.eq_dec c k) as [->|Hne].
  - now apply online_one_cpu_from_fills.
  - apply online_one_cpu_from_mono, Habove. lia.
Qed.

Lemma offline_one_cpu_step k s :
  (1 <= k <= 6)%nat ->
  (forall c, (k < c <= 6)%nat -> cpu_online s c = false) ->
  forall c, (k - 1 < c <= 6)%nat -> cpu_online (offline_one_cpu s) c = false.
Proof.
  intros Hk Habove c Hc. unfold offline_one_cpu.
  change (7 - 1)%nat with 6%nat.
  destruct (Nat.eq_dec c k) as [->|Hne].
  - now apply offline_one_cpu_from_empties.
  - apply offline_one_cpu_from_mono, Habove. lia.
Qed.

(** X8: six calls of [online_one_cpu] bring every candidate core, cpu1 to
    cpu6, online from any state, and a further call returns the state
    unchanged; six calls of [offline_one_cpu] take all of them offline, and
    a further call returns the state unchanged. *)
Theorem six_switches_saturate (s : state) (c : nat) :
  (1 <= c <= 6)%nat ->
  cpu_online (Nat.iter 6 online_one_cpu s) c = true /\
  online_one_cpu (Nat.iter 6 online_one_cpu s) = Nat.iter 6 online_one_cpu s /\
  cpu_online (Nat.iter 6 offline_one_cpu s) c = false /\
  offline_one_cpu (Nat.iter 6 offline_one_cpu s) = Nat.iter 6 offline_one_cpu s.
Proof.
  intros Hc.
  assert (Hon : forall c, (0 < c <= 6)%nat ->
                cpu_online (Nat.iter 6 online_one_cpu s) c = true).
  { cbn [Nat.iter].
    apply (online_one_cpu_step 1); [lia |].
    apply (online_one_cpu_step 2); [lia |].
    apply (online_one_cpu_step 3); [lia |].
    apply (online_one_cpu_step 4); [lia |].
    apply (online_one_cpu_step 5); [lia |].
    apply (online_one_cpu_step 6); [lia |].
    intros c' Hc'. lia. }
  assert (Hoff : forall c, (0 < c <= 6)%nat ->
                 cpu_online (Nat.iter 6 offline_one_cpu s) c = false).
  { cbn [Nat.iter].
    apply (offline_one_cpu_step 1); [lia |].
    apply (offline_one_cpu_step 2); [lia |].
    apply (offline_one_cpu_step 3); [lia |].
    apply (offline_one_cpu_step 4); [lia |].
    apply (offline_one_cpu_step 5); [lia |].
    apply (offline_one_cpu_step 6); [lia |].
    intros c' Hc'. lia. }
  split; [apply Hon; lia |].
  split; [apply online_one_cpu_from_noop; intros c' Hc'; apply Hon; cbn in Hc'; lia |].
  split; [apply Hoff; lia |].
  apply offline_one_cpu_from_noop; intros c' Hc'; apply Hoff; cbn in Hc'; lia.
Qed.

Lemma six_switches_saturate_witness :
  cpu_online (Nat.iter 6 online_one_cpu (set_cpu_online_mask 129 init_state)) 3
  = true.
Proof.
  apply (six_switches_saturate (set_cpu_online_mask 129 init_state) 3).
  lia.
Defined.

Lemma online_one_cpu_from_one n s :
  (1 <= n)%nat ->
  exists c, (1 <= c <= n)%nat /\
    forall c', c' <> c ->
      cpu_online (online_one_cpu_from n s) c' = cpu_online s c'.
Proof.
  induction n as [|n IH]; intros Hn; [lia |].
  cbn [online_one_cpu_from]. destruct (cpu_is_offline s (S n)).
  - exists (S n). split; [lia |]. intros c' Hc'.
    rewrite cpu_online_dev_set_offline, cpu_online_cpu_up.
    destruct (Nat.eqb_spec (S n) c'); [congruence | reflexivity].
  - destruct n as [|n]; [exists 1%nat; split; [lia | reflexivity] |].
    destruct IH as (c & Hc & Hsame); [lia |].
    exists c. split; [lia | exact Hsame].
Qed.

Lemma offline_one_cpu_from_one n s :
  (1 <= n)%nat ->
  exists c, (1 <= c <= n)%nat /\
    forall c', c' <> c ->
      cpu_online (offline_one_cpu_from n s) c' = cpu_online s c'.
Proof.
  induction n as [|n IH]; intros Hn; [lia |].
  cbn [offline_one_cpu_from]. destruct (cpu_online s (S n)).
  - exists (S n). split; [lia |]. intros c' Hc'.
    rewrite cpu_online_dev_set_offline, cpu_online_cpu_down.
    destruct (Nat.eqb_spec (S n) c'); [congruence | apply andb_true_r].
  - destruct n as [|n]; [exists 1%nat; split; [lia | reflexivity] |].
    destruct IH as (c & Hc & Hsame); [lia |].
    exists c. split; [lia | exact Hsame].
Qed.

Lemma vote_update_hw load s c :
  cpu_online (vote_update load s) c = cpu_online s c.
Proof.
  unfold vote_update.
  repeat match goal with
         | |- context [if ?b then _ else _] => destruct b
         end; reflexivity.
Qed.

(** X9: one decision step switches at most one core, a candidate among
    cpu1..cpu6; a step that adds takes no core offline and a step that
    removes brings none online; and, the vote thresholds being
    non-negative, the step ends with neither counter above its
    threshold. *)
Theorem decision_step_switches_one_core (load : Z) (s : state) :
  0 <= vote_threshold_up (par s) ->
  0 <= vote_threshold_down (par s) ->
  let r := cluster_plug_vote load s in
  (exists c, (1 <= c <= 6)%nat /\
     forall c', c' <> c -> cpu_online (snd r) c' = cpu_online s c') /\
  (fst r = AddCore ->
   forall c, cpu_online s c = true -> cpu_online (snd r) c = true) /\
  (fst r = RemoveCore ->
   forall c, cpu_online s c = false -> cpu_online (snd r) c = false) /\
  (fst r = NoAction -> forall c, cpu_online (snd r) c = cpu_online s c) /\
  vote_up (snd r) <= vote_threshold_up (par (snd r)) /\
  vote_down (snd r) <= vote_threshold_down (par (snd r)).
Proof.
  intros Htu Htd. cbv zeta. unfold cluster_plug_vote.
  pose proof (vote_update_hw load s) as Hhw.
  pose proof (vote_update_par load s) as Hpar.
  generalize dependent (vote_update load s). intros u Hhw Hpar.
  rewrite <- Hpar in Htu, Htd. clear Hpar.
  unfold vote_decide.
  destruct (Z.gtb_spec (vote_up u) (vote_threshold_up (par u))) as [Hgu|Hgu];
    [| destruct (Z.gtb_spec (vote_down u) (vote_threshold_down (par u)))
         as [Hgd|Hgd]]; cbn [fst snd].
  - destruct (hw_only_fields _ _ (hw_only_online_one_cpu u)) as (Hp & _).
    change (cpu_online (set_vote_up 0 (set_vote_down 0 (online_one_cpu u))))
      with (cpu_online (online_one_cpu u)).
    change (par (set_vote_up 0 (set_vote_down 0 (online_one_cpu u))))
      with (par (online_one_cpu u)).
    rewrite Hp. cbn [vote_up vote_down set_vote_up set_vote_down].
    repeat split; try discriminate; try lia.
    + destruct (online_one_cpu_from_one 6 u) as (c & Hc & Hsame); [lia |].
      exists c. split; [exact Hc |]. intros c' Hc'.
      rewrite <- Hhw. now apply Hsame.
    + intros _ c Hc. apply online_one_cpu_from_mono. now rewrite Hhw.
  - destruct (hw_only_fields _ _ (hw_only_offline_one_cpu u)) as (Hp & _).
    change (cpu_online (set_vote_up 0 (set_vote_down 0 (offline_one_cpu u))))
      with (cpu_online (offline_one_cpu u)).
    change (par (set_vote_up 0 (set_vote_down 0 (offline_one_cpu u))))
      with (par (offline_one_cpu u)).
    rewrite Hp. cbn [vote_up vote_down set_vote_up set_vote_down].
    repeat split; try discriminate; try lia.
    + destruct (offline_one_cpu_from_one 6 u) as (c & Hc & Hsame); [lia |].
      exists c. split; [exact Hc |]. intros c' Hc'.
      rewrite <- Hhw. now apply Hsame.
    + intros _ c Hc. apply offline_one_cpu_from_mono. now rewrite Hhw.
  - repeat split; try discriminate; try lia; try (intros; now rewrite Hhw).
    exists 1%nat. split; [lia |]. intros c' _. apply Hhw.
Qed.

Lemma decision_step_switches_one_core_witness :
  vote_up (snd (cluster_plug_vote 85 init_state))
  <= vote_threshold_up (par (snd (cluster_plug_vote 85 init_state))).
Proof.
  apply (decision_step_switches_one_core 85 init_state);
    vm_compute; discriminate.
Defined.

(** ** What a decision cycle can change *)

Lemma sample_frame_refl s : sample_frame s s.
Proof. now destruct s. Qed.

Lemma sample_frame_trans s1 s2 s3 :
  sample_frame s1 s2 -> sample_frame s2 s3 -> sample_frame s1 s3.
Proof.
  unfold sample_frame. intros H12 H23. rewrite H23 at 1. rewrite H12 at 1.
  reflexivity.
Qed.

Lemma sample_frame_hw_only s s' : hw_only s s' -> sample_frame s s'.
Proof.
  unfold hw_only, sample_frame. intros H. rewrite H at 1.
  destruct (hw_only_fields _ _ H) as (_&_&_&_&_&_&_&_&_& -> & -> & -> & _).
  now destruct s.
Qed.

Lemma sample_frame_fields s s' :
  sample_frame s s' ->
  par s' = par s /\ active s' = active s /\
  workqueue_suspended s' = workqueue_suspended s /\
  screen_on s' = screen_on s /\
  big_cluster_enabled s' = big_cluster_enabled s /\
  little_cluster_enabled s' = little_cluster_enabled s /\
  low_power_mode s' = low_power_mode s /\
  screen_off_power_mode s' = screen_off_power_mode s /\
  online_all s' = online_all s /\ work s' = work s.
Proof. intros ->. cbn. repeat split. Qed.

Lemma sample_frame_set_cp_info info s : sample_frame s (set_cp_info info s).
Proof. now destruct s. Qed.

Lemma sample_frame_reset_votes s s' :
  sample_frame s s' -> sample_frame s (set_vote_up 0 (set_vote_down 0 s')).
Proof. unfold sample_frame. intros H. rewrite H at 1. reflexivity. Qed.

Lemma sample_frame_vote_update load s : sample_frame s (vote_update load s).
Proof.
  unfold vote_update.
  repeat match goal with
         | |- context [if ?b then _ else _] => destruct b
         end; now destruct s.
Qed.

Lemma sample_frame_vote_decide s : sample_frame s (snd (vote_decide s)).
Proof.
  unfold vote_decide.
  destruct (vote_up s >? vote_threshold_up (par s)); cbn [snd].
  - apply sample_frame_reset_votes, sample_frame_hw_only,
      hw_only_online_one_cpu.
  - destruct (vote_down s >? vote_threshold_down (par s)); cbn [snd].
    + apply sample_frame_reset_votes, sample_frame_hw_only,
        hw_only_offline_one_cpu.
    + apply sample_frame_refl.
Qed.

Lemma sample_frame_cluster_plug_vote load s :
  sample_frame s (snd (cluster_plug_vote load s)).
Proof.
  unfold cluster_plug_vote.
  eapply sample_frame_trans;
    [apply sample_frame_vote_update | apply sample_frame_vote_decide].
Qed.

Lemma cluster_plug_perform_frame tm s s' :
  cluster_plug_perform tm s = Ret s' -> sample_frame s s'.
Proof.
  unfold cluster_plug_perform, calculateLoad.
  destruct (calculateLoad_loop_state tm s) as [info E].
  generalize dependent (calculateLoad_loop tm s). intros [a s2] E.
  cbn [fst snd] in *. subst s2.
  destruct (cpus a =? 0); [discriminate |].
  cbn [bind fst snd]. intros [= <-].
  eapply sample_frame_trans;
    [apply sample_frame_set_cp_info | apply sample_frame_cluster_plug_vote].
Qed.

(** ** The three branches of the work function *)

Lemma cluster_plug_work_fn_force tm held s :
  online_all s = true ->
  cluster_plug_work_fn tm held s =
  Ret (set_online_all false
         (if active s
          then queue_clusterplug_work (sampling_time (par s))
                 (set_little_cluster_enabled true
                    (set_big_cluster_enabled true (optimized_online_all s)))
          else set_little_cluster_enabled true
                 (set_big_cluster_enabled true (optimized_online_all s)))).
Proof.
  intros Hall. unfold cluster_plug_work_fn. rewrite Hall.
  destruct (optimized_online_all_fields s)
    as (Hpar & Hact & _ & _ & _ & _ & _ & _ & Hoa & _).
  generalize dependent (optimized_online_all s). intros t Hpar Hact Hoa.
  cbn [active online_all par set_little_cluster_enabled
       set_big_cluster_enabled].
  rewrite Hact, Hoa, Hall, Hpar. cbn [negb].
  now destruct (active s).
Qed.

Lemma cluster_plug_work_fn_suspend tm s :
  active s = true -> online_all s = false -> sampling_wanted s = false ->
  cluster_plug_work_fn tm false s =
  Ret (set_workqueue_suspended true
         (disable_big_cluster (enable_little_cluster s))).
Proof.
  unfold sampling_wanted. intros Hact Hall Hw.
  unfold cluster_plug_work_fn. rewrite Hall, Hact, Hall, Hw. reflexivity.
Qed.

Lemma cluster_plug_work_fn_sampling tm held s :
  active s = true -> online_all s = false -> sampling_wanted s = true ->
  cluster_plug_work_fn tm held s =
  (do s2 <- cluster_plug_perform tm s;
   Ret (set_online_all false
          (queue_clusterplug_work (sampling_time (par s2)) s2))).
Proof.
  unfold sampling_wanted. intros Hact Hall Hw.
  unfold cluster_plug_work_fn. rewrite Hall, Hact, Hall, Hw. reflexivity.
Qed.

Lemma cluster_plug_perform_some_online tm s c :
  (c < 8)%nat -> cpu_online s c = true ->
  exists s', cluster_plug_perform tm s = Ret s'.
Proof.
  intros Hc Hon. unfold cluster_plug_perform, calculateLoad.
  assert (Hnz : cpus (fst (calculateLoad_loop tm s)) <> 0).
  { rewrite calculateLoad_loop_count. intros Hz.
    assert (Hnil : List.filter (cpu_online s) possible_cpus = [])
      by (destruct (List.filter (cpu_online s) possible_cpus);
          [reflexivity | discriminate Hz]).
    rewrite (proj1 (no_cpu_online_iff s) Hnil c Hc) in Hon.
    discriminate Hon. }
  generalize dependent (calculateLoad_loop tm s). intros [a s1] Hnz.
  cbn [fst snd] in *.
  destruct (Z.eqb_spec (cpus a) 0); [contradiction |].
  cbn [bind]. eexists. reflexivity.
Qed.

(** ** Ticks *)

(** What the suspend branch leaves behind. *)
Lemma suspend_result s :
  let s' := set_workqueue_suspended true
              (disable_big_cluster (enable_little_cluster s)) in
  workqueue_suspended s' = true /\ work s' = work s /\
  active s' = active s /\ online_all s' = online_all s /\
  par s' = par s /\ screen_on s' = screen_on s /\
  low_power_mode s' = low_power_mode s /\
  screen_off_power_mode s' = screen_off_power_mode s /\
  vote_up s' = vote_up s /\ vote_down s' = vote_down s /\
  little_cluster_enabled s' = true /\ big_cluster_enabled s' = false /\
  (forall c, is_little_cpu c = true ->
     cpu_online s' c = (Z.of_nat c <? required_little_cpus s)) /\
  (forall c, is_big_cpu c = true -> (c < 8)%nat ->
     cpu_online s' c = negb (big_cluster_enabled s) && cpu_online s c).
Proof.
  cbv zeta.
  destruct (enable_little_cluster_fields s)
    as (Hp1 & Ha1 & _ & Hs1 & Hb1 & Hl1 & Hlp1 & Hso1 & Hoa1 & Hvu1 & Hvd1
        & _ & Hw1).
  pose proof (enable_little_cluster_online s) as Hon1. cbv zeta in Hon1.
  fold (required_little_cpus s) in Hon1.
  generalize dependent (enable_little_cluster s).
  intros s1 Hp1 Ha1 Hs1 Hb1 Hl1 Hlp1 Hso1 Hoa1 Hvu1 Hvd1 Hw1 Hon1.
  destruct (disable_big_cluster_fields s1)
    as (Hp2 & Ha2 & _ & Hs2 & Hb2 & Hl2 & Hlp2 & Hso2 & Hoa2 & Hvu2 & Hvd2
        & _ & Hw2).
  pose proof (disable_big_cluster_online s1) as Hon2.
  generalize dependent (disable_big_cluster s1).
  intros s2 Hp2 Ha2 Hs2 Hb2 Hl2 Hlp2 Hso2 Hoa2 Hvu2 Hvd2 Hw2 Hon2.
  cbn [workqueue_suspended work active online_all par screen_on
       low_power_mode screen_off_power_mode vote_up vote_down
       little_cluster_enabled big_cluster_enabled set_workqueue_suspended].
  change (cpu_online (set_workqueue_suspended true s2)) with (cpu_online s2).
  repeat split; try congruence.
  - intros c Hc. rewrite Hon2, Hon1, Hc.
    assert (Hnb : is_big_cpu c = false).
    { unfold is_big_cpu, is_little_cpu in *.
      destruct (Nat.ltb_spec c N_LITTLE_CPUS); [| discriminate].
      destruct (Nat.leb_spec N_LITTLE_CPUS c); [lia | reflexivity]. }
    rewrite Hnb, andb_false_r. reflexivity.
  - intros c Hc Hlt. rewrite Hon2, Hon1, Hc, Hb1.
    assert (Hnl : is_little_cpu c = false).
    { unfold is_big_cpu, is_little_cpu in *.
      destruct (Nat.leb_spec N_LITTLE_CPUS c); [| discriminate].
      destruct (Nat.ltb_spec c N_LITTLE_CPUS); [lia | reflexivity]. }
    rewrite Hnl. destruct (Nat.ltb_spec c 8); [| lia].
    now destruct (big_cluster_enabled s).
Qed.

(** X10: when the controller is active, no force-online-all is pending and
    the mode does not call for sampling (low-power mode, or screen off
    without screen-off power mode), the queued tick returns suspended: the
    flag is set and the work is not queued again, the little cluster holds
    exactly its required number of cores (all four while the screen is
    on), the big cores are offline if the big-cluster flag was set and
    untouched otherwise, and the vote counters, the parameters and the
    modes are as before. *)
Theorem suspend_tick (tm : time_source) (s : state) :
  active s = true -> online_all s = false -> sampling_wanted s = false ->
  work s = WorkQueued ->
  exists s',
    tick tm s = Ret s' /\
    workqueue_suspended s' = true /\ work s' = WorkIdle /\
    little_cluster_enabled s' = true /\ big_cluster_enabled s' = false /\
    (forall c, is_little_cpu c = true ->
       cpu_online s' c = (Z.of_nat c <? required_little_cpus s)) /\
    (screen_on s = true ->
     forall c, is_little_cpu c = true -> cpu_online s' c = true) /\
    (forall c, is_big_cpu c = true -> (c < 8)%nat ->
       cpu_online s' c = negb (big_cluster_enabled s) && cpu_online s c) /\
    vote_up s' = vote_up s /\ vote_down s' = vote_down s /\
    par s' = par s /\ low_power_mode s' = low_power_mode s /\
    screen_off_power_mode s' = screen_off_power_mode s /\
    screen_on s' = screen_on s.
Proof.
  intros Hact Hall Hsw Hwork. unfold tick, run_work. rewrite Hwork.
  rewrite (cluster_plug_work_fn_suspend tm (set_work WorkIdle s) Hact Hall Hsw).
  eexists. split; [reflexivity |].
  destruct (suspend_result (set_work WorkIdle s))
    as (Hws & Hw & _ & _ & Hp & Hs & Hlp & Hso & Hvu & Hvd & Hl & Hb
        & Hlit & Hbig).
  repeat split; try assumption.
  intros Hscr c Hc. rewrite (Hlit c Hc).
  change (required_little_cpus (set_work WorkIdle s))
    with (required_little_cpus s).
  unfold required_little_cpus. rewrite Hscr. cbn [negb andb].
  unfold is_little_cpu, N_LITTLE_CPUS in Hc.
  apply Nat.ltb_lt in Hc. apply Z.ltb_lt. lia.
Qed.

(** Low-power mode with the screen on. *)
Lemma suspend_tick_witness :
  exists s',
    tick (fun _ => (50, 100))
      (set_work WorkQueued
         (set_low_power_mode true (set_active true init_state))) = Ret s' /\
    workqueue_suspended s' = true /\ work s' = WorkIdle.
Proof.
  destruct (suspend_tick (fun _ => (50, 100))
    (set_work WorkQueued
       (set_low_power_mode true (set_active true init_state))))
    as (s' & Ht & Hws & Hw & _); try reflexivity.
  exists s'. auto.
Defined.

(** X11: when the controller is active, no force-online-all is pending,
    the mode calls for sampling and some cpu is online, the queued tick
    returns and queues the work again after [sampling_time] (at once if
    that is 0); it switches at most one core, a candidate among
    cpu1..cpu6, and changes neither the suspension flag nor the modes, the
    parameters or the cluster flags. *)
Theorem sampling_tick (tm : time_source) (s : state) (c0 : nat) :
  active s = true -> online_all s = false -> sampling_wanted s = true ->
  work s = WorkQueued -> (c0 < 8)%nat -> cpu_online s c0 = true ->
  exists s',
    tick tm s = Ret s' /\
    work s' = (if sampling_time (par s) =? 0 then WorkQueued
               else WorkTimer (sampling_time (par s))) /\
    (exists c, (1 <= c <= 6)%nat /\
       forall c', c' <> c -> cpu_online s' c' = cpu_online s c') /\
    workqueue_suspended s' = workqueue_suspended s /\
    active s' = true /\ online_all s' = false /\
    par s' = par s /\ screen_on s' = screen_on s /\
    low_power_mode s' = low_power_mode s /\
    screen_off_power_mode s' = screen_off_power_mode s /\
    big_cluster_enabled s' = big_cluster_enabled s /\
    little_cluster_enabled s' = little_cluster_enabled s.
Proof.
  intros Hact Hall Hsw Hwork Hc0 Hon. unfold tick, run_work. rewrite Hwork.
  rewrite (cluster_plug_work_fn_sampling tm false (set_work WorkIdle s)
             Hact Hall Hsw).
  unfold cluster_plug_perform, calculateLoad.
  assert (Hnz : cpus (fst (calculateLoad_loop tm (set_work WorkIdle s))) <> 0).
  { rewrite calculateLoad_loop_count. intros Hz.
    assert (Hnil : List.filter (cpu_online (set_work WorkIdle s))
                     possible_cpus = [])
      by (destruct (List.filter (cpu_online (set_work WorkIdle s))
                      possible_cpus); [reflexivity | discriminate Hz]).
    pose proof (proj1 (no_cpu_online_iff _) Hnil c0 Hc0) as Hoff.
    change (cpu_online (set_work WorkIdle s) c0) with (cpu_online s c0) in Hoff.
    rewrite Hoff in Hon. discriminate Hon. }
  destruct (calculateLoad_loop_state tm (set_work WorkIdle s)) as [info E].
  generalize dependent (calculateLoad_loop tm (set_work WorkIdle s)).
  intros [a s1] Hnz E. cbn [fst snd] in *. subst s1.
  destruct (Z.eqb_spec (cpus a) 0); [contradiction |].
  cbn [bind fst snd].
  set (load := u32 (int_of_u32 _)). clearbody load.
  set (s1 := set_cp_info info (set_work WorkIdle s)).
  pose proof (sample_frame_cluster_plug_vote load s1) as Hfr.
  assert (Hone : exists c, (1 <= c <= 6)%nat /\
            forall c', c' <> c ->
              cpu_online (snd (cluster_plug_vote load s1)) c'
              = cpu_online s c').
  { unfold cluster_plug_vote, vote_decide.
    pose proof (vote_update_hw load s1) as Hhw.
    generalize dependent (vote_update load s1). intros u Hhw.
    destruct (vote_up u >? vote_threshold_up (par u)); cbn [snd];
      [| destruct (vote_down u >? vote_threshold_down (par u)); cbn [snd]].
    - destruct (online_one_cpu_from_one 6 u) as (c & Hc & Hsame); [lia |].
      exists c. split; [exact Hc |]. intros c' Hc'.
      change (cpu_online (set_vote_up 0 (set_vote_down 0 (online_one_cpu u))) c')
        with (cpu_online (online_one_cpu_from 6 u) c').
      rewrite Hsame by exact Hc'. apply Hhw.
    - destruct (offline_one_cpu_from_one 6 u) as (c & Hc & Hsame); [lia |].
      exists c. split; [exact Hc |]. intros c' Hc'.
      change (cpu_online (set_vote_up 0 (set_vote_down 0 (offline_one_cpu u))) c')
        with (cpu_online (offline_one_cpu_from 6 u) c').
      rewrite Hsame by exact Hc'. apply Hhw.
    - exists 1%nat. split; [lia |]. intros c' _. apply Hhw. }
  destruct (sample_frame_fields _ _ Hfr)
    as (Hp & Ha & Hws & Hs & Hb & Hl & Hlp & Hso & Hoa & Hw).
  generalize dependent (snd (cluster_plug_vote load s1)).
  intros s2 _ Hone Hp Ha Hws Hs Hb Hl Hlp Hso Hoa Hw.
  subst s1. cbn in Hp, Ha, Hws, Hs, Hb, Hl, Hlp, Hso, Hoa, Hw.
  eexists. split; [reflexivity |].
  unfold queue_clusterplug_work, queue_delayed_work. rewrite Hw, Hp.
  cbn. rewrite Hact in Ha.
  destruct (sampling_time (par s) =? 0); repeat split; auto.
Qed.

Lemma sampling_tick_witness :
  exists s',
    tick (fun _ => (50, 100))
      (set_work WorkQueued (set_active true init_state)) = Ret s' /\
    work s' = WorkTimer 50.
Proof.
  destruct (sampling_tick (fun _ => (50, 100))
    (set_work WorkQueued (set_active true init_state)) 0)
    as (s' & Ht & Hw & _); try reflexivity; [lia |].
  exists s'. split; [exact Ht | exact Hw].
Defined.

(** ** Display transitions *)

(** X12: a display-on notification that finds the controller active and
    suspended sets the screen on, clears both vote counters, asks for
    force-online-all and puts the work on the queue at once; the tick that
    follows leaves all eight cores online, both cluster flags set, the
    counters at 0 and the flag cleared, and queues the work for the next
    regular period. *)
Theorem resume_from_suspended (tm : time_source) (s : state) :
  active s = true -> workqueue_suspended s = true -> work s = WorkIdle ->
  let s1 := lcd_notifier_callback LCD_EVENT_ON_START s in
  screen_on s1 = true /\ online_all s1 = true /\
  workqueue_suspended s1 = false /\ work s1 = WorkQueued /\
  vote_up s1 = 0 /\ vote_down s1 = 0 /\
  exists s2,
    tick tm s1 = Ret s2 /\
    (forall c, (c < 8)%nat -> cpu_online s2 c = true) /\
    big_cluster_enabled s2 = true /\ little_cluster_enabled s2 = true /\
    online_all s2 = false /\ vote_up s2 = 0 /\ vote_down s2 = 0 /\
    screen_on s2 = true /\ workqueue_suspended s2 = false /\
    work s2 = (if sampling_time (par s) =? 0 then WorkQueued
               else WorkTimer (sampling_time (par s))).
Proof.
  intros Hact Hws Hwork. cbv zeta.
  unfold lcd_notifier_callback, cluster_plug_hotplug_resume, queue_work.
  rewrite Hact. cbn [negb workqueue_suspended set_screen_on].
  rewrite Hws.
  cbn [work set_workqueue_suspended set_vote_up set_vote_down set_online_all
       set_screen_on].
  rewrite Hwork.
  cbn [screen_on online_all workqueue_suspended work vote_up vote_down
       set_work set_workqueue_suspended set_vote_up set_vote_down
       set_online_all set_screen_on].
  repeat (split; [reflexivity |]).
  unfold tick, run_work. cbn [work set_work].
  match goal with
  | |- context [cluster_plug_work_fn tm false ?x] =>
      rewrite (cluster_plug_work_fn_force tm false x eq_refl);
      destruct (optimized_online_all_fields x)
        as (Hp & _ & Hsus & Hscr & _ & _ & _ & _ & _ & Hvu & Hvd & _ & Hw);
      pose proof (optimized_online_all_online x) as Hon;
      generalize dependent (optimized_online_all x)
  end.
  intros t Hp Hsus Hscr Hvu Hvd Hw Hon.
  cbn in Hp, Hsus, Hscr, Hvu, Hvd, Hw.
  cbn [active par set_work set_workqueue_suspended set_vote_up set_vote_down
       set_online_all set_screen_on].
  rewrite Hact. eexists. split; [reflexivity |].
  unfold queue_clusterplug_work, queue_delayed_work.
  cbn [work set_little_cluster_enabled set_big_cluster_enabled].
  rewrite Hw.
  destruct (sampling_time (par s) =? 0); cbn; repeat split; auto.
Qed.

Lemma resume_from_suspended_witness :
  work (lcd_notifier_callback LCD_EVENT_ON_START
          (set_active true init_state)) = WorkQueued.
Proof.
  apply (resume_from_suspended (fun _ => (50, 100))
           (set_active true init_state)); reflexivity.
Defined.



(** X14: the notifier never switches a core and never touches a parameter,
    a mode or the controller switch; when the controller is inactive, and
    for every event other than display-off-complete and display-on-begin,
    it returns the state unchanged. *)
Theorem lcd_notifier_callback_scope (ev : lcd_event) (s : state) :
  cpu_online_mask (lcd_notifier_callback ev s) = cpu_online_mask s /\
  dev_offline (lcd_notifier_callback ev s) = dev_offline s /\
  par (lcd_notifier_callback ev s) = par s /\
  active (lcd_notifier_callback ev s) = active s /\
  low_power_mode (lcd_notifier_callback ev s) = low_power_mode s /\
  screen_off_power_mode (lcd_notifier_callback ev s) = screen_off_power_mode s /\
  (active s = false -> lcd_notifier_callback ev s = s) /\
  (ev <> LCD_EVENT_OFF_END -> ev <> LCD_EVENT_ON_START ->
   lcd_notifier_callback ev s = s).
Proof.
  unfold lcd_notifier_callback, cluster_plug_hotplug_suspend,
    cluster_plug_hotplug_resume, queue_clusterplug_work, queue_delayed_work,
    queue_work.
  destruct (active s) eqn:Hact; cbn [negb];
    [| repeat split; auto].
  destruct ev; cbn [workqueue_suspended set_screen_on];
    try (repeat split; auto; try discriminate; intros; congruence);
    destruct (workqueue_suspended s);
    cbn [work set_workqueue_suspended set_screen_on set_online_all
         set_vote_up set_vote_down];
    destruct (work s); cbn;
    repeat split; auto; try discriminate; intros; congruence.
Qed.

(** ** Scheduling invariants *)

Lemma queue_delayed_work_pending ms s :
  work (queue_delayed_work ms s) <> WorkIdle.
Proof.
  unfold queue_delayed_work. destruct (work s) eqn:E; cbn; rewrite ?E;
    try discriminate.
  destruct (ms =? 0); discriminate.
Qed.

Lemma queue_delayed_work_sched ms s :
  workqueue_suspended (queue_delayed_work ms s) = workqueue_suspended s /\
  active (queue_delayed_work ms s) = active s /\
  online_all (queue_delayed_work ms s) = online_all s.
Proof. unfold queue_delayed_work. destruct (work s); repeat split. Qed.

(** A state that is not suspended and has the work pending satisfies the
    invariant. *)
Lemma sched_inv_pending s :
  workqueue_suspended s = false -> work s <> WorkIdle -> sched_inv s.
Proof.
  intros Hws Hw. repeat split; auto. intros H. congruence.
Qed.

Lemma cluster_plug_work_fn_online_all_cleared tm held s s' :
  cluster_plug_work_fn tm held s = Ret s' -> online_all s' = false.
Proof.
  destruct (online_all s) eqn:Hall.
  - rewrite (cluster_plug_work_fn_force tm held s Hall). intros [= <-].
    reflexivity.
  - unfold cluster_plug_work_fn. rewrite Hall.
    destruct (active s); [| intros [= <-]; reflexivity].
    rewrite Hall. cbn [negb].
    destruct ((screen_on s || screen_off_power_mode s)
              && negb (low_power_mode s)).
    + destruct (cluster_plug_perform tm s); cbn [bind]; try discriminate.
      intros [= <-]. reflexivity.
    + destruct held; [discriminate |]. intros [= <-].
      destruct (suspend_result s) as (_ & _ & _ & Hoa & _).
      now rewrite Hoa.
Qed.

Lemma cluster_plug_work_fn_sched tm held s s' :
  workqueue_suspended s = false -> work s = WorkIdle ->
  cluster_plug_work_fn tm held s = Ret s' -> sched_inv s'.
Proof.
  intros Hws Hw Hret.
  pose proof (cluster_plug_work_fn_online_all_cleared tm held s s' Hret) as Hoa'.
  revert Hret. destruct (online_all s) eqn:Hall.
  - rewrite (cluster_plug_work_fn_force tm held s Hall).
    destruct (optimized_online_all_fields s)
      as (_ & Ha & Hs & _ & _ & _ & _ & _ & _ & _ & _ & _ & Hwk).
    generalize dependent (optimized_online_all s). intros t Ha Hs Hwk.
    destruct (active s) eqn:Hact; intros [= <-].
    + apply sched_inv_pending.
      * unfold queue_clusterplug_work.
        match goal with
        | |- context [queue_delayed_work ?ms ?x] =>
            destruct (queue_delayed_work_sched ms x) as (Hq & _)
        end.
        cbn [workqueue_suspended set_online_all]. rewrite Hq. cbn. congruence.
      * apply queue_delayed_work_pending.
    + repeat split; cbn; try congruence.
  - unfold cluster_plug_work_fn. rewrite Hall.
    destruct (active s) eqn:Hact;
      [| intros [= <-]; repeat split; cbn; congruence].
    rewrite Hall. cbn [negb].
    destruct ((screen_on s || screen_off_power_mode s)
              && negb (low_power_mode s)).
    + destruct (cluster_plug_perform tm s) as [s2| |] eqn:Hp; cbn [bind];
        try discriminate.
      intros [= <-]. apply cluster_plug_perform_frame in Hp.
      destruct (sample_frame_fields _ _ Hp)
        as (_ & _ & Hs2 & _ & _ & _ & _ & _ & _ & _).
      apply sched_inv_pending.
      * unfold queue_clusterplug_work.
        destruct (queue_delayed_work_sched (sampling_time (par s2)) s2)
          as (Hq & _).
        cbn [workqueue_suspended set_online_all]. congruence.
      * apply queue_delayed_work_pending.
    + destruct held; [discriminate |]. intros [= <-].
      destruct (suspend_result s) as (Hs' & Hw' & _).
      repeat split; try congruence.
Qed.

Lemma run_work_sched tm held s s' :
  sched_inv s -> run_work tm held s = Ret s' -> sched_inv s'.
Proof.
  intros Hinv. unfold run_work.
  destruct (work s) eqn:Hw; try (intros [= <-]; exact Hinv).
  apply cluster_plug_work_fn_sched; [| reflexivity].
  destruct Hinv as (Ha & _). cbn.
  destruct (workqueue_suspended s); [| reflexivity].
  specialize (Ha eq_refl). congruence.
Qed.

Lemma store_result_sched v s :
  sched_inv (queue_clusterplug_work v
               (set_workqueue_suspended false s)).
Proof.
  apply sched_inv_pending.
  - unfold queue_clusterplug_work.
    destruct (queue_delayed_work_sched v (set_workqueue_suspended false s))
      as (-> & _). reflexivity.
  - apply queue_delayed_work_pending.
Qed.

Lemma lcd_notifier_callback_sched ev s :
  sched_inv s -> sched_inv (lcd_notifier_callback ev s).
Proof.
  intros Hinv. unfold lcd_notifier_callback.
  destruct (active s) eqn:Hact; cbn [negb]; [| exact Hinv].
  destruct ev; try exact Hinv.
  - unfold cluster_plug_hotplug_suspend. rewrite Hact.
    cbn [workqueue_suspended set_screen_on].
    destruct (workqueue_suspended s) eqn:Hws.
    + apply store_result_sched.
    + destruct Hinv as (Ha & Hb & Hc). repeat split; cbn; auto.
  - unfold cluster_plug_hotplug_resume. rewrite Hact.
    cbn [workqueue_suspended set_screen_on].
    destruct (workqueue_suspended s) eqn:Hws.
    + destruct Hinv as (Ha & _). specialize (Ha Hws).
      unfold queue_work.
      cbn [work set_workqueue_suspended set_vote_up set_vote_down
           set_online_all set_screen_on].
      rewrite Ha. apply sched_inv_pending; [reflexivity | discriminate].
    + destruct Hinv as (Ha & Hb & Hc). repeat split; cbn; auto.
Qed.

Lemma step_sched e s s' : sched_inv s -> step e s = Ret s' -> sched_inv s'.
Proof.
  intros Hinv. destruct e as [|tm|ev|tm buf|tm buf|tm buf|p buf]; cbn [step].
  - intros [= <-]. destruct Hinv as (Ha & Hb & Hc). unfold timer_fire.
    destruct (work s) eqn:Hw; repeat split; cbn; rewrite ?Hw; auto;
      try discriminate.
    intros Hs. specialize (Ha Hs). discriminate Ha.
  - unfold tick. apply run_work_sched, Hinv.
  - intros [= <-]. now apply lcd_notifier_callback_sched.
  - destruct (active_store tm buf s) as [[ret s1]| |] eqn:E; cbn [bind snd];
      try discriminate.
    intros [= <-]. apply active_store_inv in E.
    destruct E as [->|(_ & s2 & _ & ->)]; [exact Hinv |].
    apply store_result_sched.
  - destruct (low_power_mode_store tm buf s) as [[ret s1]| |] eqn:E;
      cbn [bind snd]; try discriminate.
    intros [= <-]. apply low_power_mode_store_inv in E.
    destruct E as [->|(_ & s2 & _ & ->)]; [exact Hinv |].
    apply store_result_sched.
  - destruct (screen_off_power_mode_store tm buf s) as [[ret s1]| |] eqn:E;
      cbn [bind snd]; try discriminate.
    intros [= <-]. apply screen_off_power_mode_store_inv in E.
    destruct E as [->|(_ & s2 & _ & ->)]; [exact Hinv |].
    apply store_result_sched.
  - intros [= <-]. unfold param_set_uint.
    destruct (fst (kstrtouint buf) =? 0); exact Hinv.
Qed.

Lemma reachable_sched s : reachable s -> sched_inv s.
Proof.
  induction 1 as [|e s s' _ IH Hstep].
  - repeat split; cbn; auto; discriminate.
  - exact (step_sched e s s' IH Hstep).
Qed.

(** X15: in every state the driver reaches, a set suspension flag means
    that no tick is pending: the work item is neither on its timer nor on
    the queue. *)
Theorem suspended_means_no_tick_pending (s : state) :
  reachable s -> workqueue_suspended s = true -> work s = WorkIdle.
Proof. intros Hr. apply (reachable_sched s Hr). Qed.

Lemma suspended_means_no_tick_pending_witness : work init_state = WorkIdle.
Proof.
  apply (suspended_means_no_tick_pending init_state reachable_init).
  reflexivity.
Defined.

(** The worker's own run of the work function never waits for the mutex,
    and it keeps the controller switch. *)
Lemma cluster_plug_work_fn_not_blocked tm s :
  cluster_plug_work_fn tm false s <> Blocked.
Proof.
  unfold cluster_plug_work_fn.
  match goal with
  | |- context [active ?x] => generalize x
  end.
  intros s1. destruct (active s1); [| discriminate].
  destruct (negb (online_all s1)); [| discriminate].
  destruct ((screen_on s1 || screen_off_power_mode s1)
            && negb (low_power_mode s1)); [| discriminate].
  unfold cluster_plug_perform, calculateLoad.
  destruct (cpus (fst (calculateLoad_loop tm s1)) =? 0); discriminate.
Qed.

Lemma cluster_plug_work_fn_active tm held s s' :
  cluster_plug_work_fn tm held s = Ret s' -> active s' = active s.
Proof.
  destruct (online_all s) eqn:Hall.
  - rewrite (cluster_plug_work_fn_force tm held s Hall). intros [= <-].
    destruct (optimized_online_all_fields s) as (_ & Ha & _).
    generalize dependent (optimized_online_all s). intros t Ha.
    unfold queue_clusterplug_work.
    destruct (active s) eqn:Hact; cbn [active set_online_all].
    + match goal with
      | |- context [queue_delayed_work ?ms ?x] =>
          destruct (queue_delayed_work_sched ms x) as (_ & -> & _)
      end.
      cbn. congruence.
    + cbn. congruence.
  - unfold cluster_plug_work_fn. rewrite Hall.
    destruct (active s) eqn:Hact; [| intros [= <-]; exact Hact].
    rewrite Hall. cbn [negb].
    destruct ((screen_on s || screen_off_power_mode s)
              && negb (low_power_mode s)).
    + destruct (cluster_plug_perform tm s) as [s2| |] eqn:Hp; cbn [bind];
        try discriminate.
      intros [= <-]. apply cluster_plug_perform_frame in Hp.
      destruct (sample_frame_fields _ _ Hp) as (_ & Ha & _).
      unfold queue_clusterplug_work.
      destruct (queue_delayed_work_sched (sampling_time (par s2)) s2)
        as (_ & Hq & _).
      cbn [active set_online_all]. congruence.
    + destruct held; [discriminate |]. intros [= <-].
      destruct (suspend_result s) as (_ & _ & Ha & _). congruence.
Qed.

(** X16: in every state the driver reaches by steps that returned, an
    active controller that is not suspended has the work item pending;
    and once the timer has fired, the worker's own run of that tick
    returns, with the controller still active and either suspended with
    nothing pending or with the next tick pending.  (A parameter write
    that flushes the same tick while it holds the mutex is another
    matter: it can wait forever.) *)
Theorem active_controller_has_tick_pending (tm : time_source) (s : state) :
  reachable s -> active s = true -> workqueue_suspended s = false ->
  work s <> WorkIdle /\
  work (timer_fire s) = WorkQueued /\
  exists s',
    tick tm (timer_fire s) = Ret s' /\
    active s' = true /\
    (workqueue_suspended s' = true /\ work s' = WorkIdle \/
     workqueue_suspended s' = false /\ work s' <> WorkIdle).
Proof.
  intros Hr Hact Hws.
  destruct (reachable_sched s Hr) as (_ & Hpend & _).
  specialize (Hpend Hact Hws).
  destruct (reachable_inv s Hr) as [H0 _].
  split; [exact Hpend |].
  assert (Hq : work (timer_fire s) = WorkQueued).
  { unfold timer_fire. destruct (work s) eqn:Hw; cbn; congruence. }
  split; [exact Hq |].
  unfold tick, run_work. rewrite Hq.
  assert (Hfire : set_work WorkIdle (timer_fire s) = set_work WorkIdle s).
  { unfold timer_fire. now destruct (work s). }
  rewrite Hfire.
  destruct (cluster_plug_work_fn tm false (set_work WorkIdle s))
    as [s'| |] eqn:E.
  - exists s'. split; [reflexivity |].
    pose proof (cluster_plug_work_fn_active _ _ _ _ E) as Ha.
    pose proof (cluster_plug_work_fn_sched tm false (set_work WorkIdle s) s'
                  Hws eq_refl E) as (Hs1 & Hs2 & _).
    cbn in Ha. rewrite Hact in Ha. split; [exact Ha |].
    destruct (workqueue_suspended s') eqn:Hws'; [left | right]; auto.
  - now apply cluster_plug_work_fn_no_div in E.
  - now apply cluster_plug_work_fn_not_blocked in E.
Qed.

Lemma active_controller_has_tick_pending_witness :
  match step (EvActive (fun _ => (50, 100)) (Num 1)) init_state with
  | Ret s =>
      work s <> WorkIdle /\
      exists s', tick (fun _ => (50, 100)) (timer_fire s) = Ret s'
  | _ => False
  end.
Proof.
  destruct (step (EvActive (fun _ => (50, 100)) (Num 1)) init_state)
    as [s| |] eqn:E; try (vm_compute in E; discriminate E).
  destruct (active_controller_has_tick_pending (fun _ => (50, 100)) s)
    as (Hp & _ & s' & Ht & _).
  - exact (reachable_step _ _ _ reachable_init E).
  - vm_compute in E. now injection E as <-.
  - vm_compute in E. now injection E as <-.
  - split; [exact Hp |]. exists s'. exact Ht.
Defined.

(** X17: every run of the work function that returns leaves
    [online_all] clear, and in every state the driver reaches a set
    [online_all] has a tick pending to serve it: a force-online-all
    request is never dropped. *)
Theorem online_all_is_served (s : state) :
  reachable s ->
  (online_all s = true -> work s <> WorkIdle) /\
  (forall tm held s',
     cluster_plug_work_fn tm held s = Ret s' -> online_all s' = false).
Proof.
  intros Hr. split; [apply (reachable_sched s Hr) |].
  intros tm held s'. apply cluster_plug_work_fn_online_all_cleared.
Qed.

Lemma online_all_is_served_witness :
  match cluster_plug_work_fn (fun _ => (50, 100)) false init_state with
  | Ret s' => online_all s' = false
  | _ => False
  end.
Proof.
  destruct (cluster_plug_work_fn (fun _ => (50, 100)) false init_state)
    as [s'| |] eqn:E; try (vm_compute in E; discriminate E).
  destruct (online_all_is_served init_state reachable_init) as [_ H].
  exact (H _ _ _ E).
Defined.

(** ** Mode writes *)

Lemma kstrtoint_num v :
  - 2 ^ 31 <= v < 2 ^ 31 -> kstrtoint (Num v) = (0, v).
Proof.
  intros [Hlo Hhi]. unfold kstrtoint.
  destruct (Z.leb_spec (- 2 ^ 31) v); [| lia].
  destruct (Z.ltb_spec v (2 ^ 31)); [| lia]. reflexivity.
Qed.

Lemma flush_workqueue_idle tm s :
  work s <> WorkQueued -> flush_workqueue tm s = Ret s.
Proof.
  intros Hw. unfold flush_workqueue, run_work.
  destruct (work s); try reflexivity. now elim Hw.
Qed.

(** X18: a write to [low_power_mode] that changes the flag while no work
    sits on the queue returns 0, stores the flag (and clears
    [screen_off_power_mode] when the flag is set), clears the suspension
    flag and leaves the work pending with a delay of 1 ms; unlike a write
    to [active] it asks for no force-online-all and touches no core, no
    cluster flag and no vote counter. *)
Theorem low_power_mode_store_effect
    (tm : time_source) (v : Z) (s : state) :
  - 2 ^ 31 <= v < 2 ^ 31 ->
  negb (v =? 0) <> low_power_mode s ->
  work s <> WorkQueued ->
  exists s',
    low_power_mode_store tm (Num v) s = Ret (0, s') /\
    low_power_mode s' = negb (v =? 0) /\
    screen_off_power_mode s' =
      (if v =? 0 then screen_off_power_mode s else false) /\
    workqueue_suspended s' = false /\ work s' = WorkTimer 1 /\
    online_all s' = online_all s /\
    cpu_online_mask s' = cpu_online_mask s /\
    dev_offline s' = dev_offline s /\
    big_cluster_enabled s' = big_cluster_enabled s /\
    little_cluster_enabled s' = little_cluster_enabled s /\
    vote_up s' = vote_up s /\ vote_down s' = vote_down s /\
    active s' = active s /\ screen_on s' = screen_on s /\ par s' = par s.
Proof.
  intros Hv Htog Hw. unfold low_power_mode_store.
  rewrite (kstrtoint_num v Hv). cbn [fst snd Z.eqb].
  assert (Heq : Bool.eqb (negb (v =? 0)) (low_power_mode s) = false).
  { destruct (negb (v =? 0)), (low_power_mode s); auto; now elim Htog. }
  rewrite Heq, (flush_workqueue_idle tm s Hw). cbn [bind].
  eexists. split; [reflexivity |].
  unfold queue_clusterplug_work, queue_delayed_work, cancel_delayed_work.
  destruct (v =? 0); cbn; repeat split.
Qed.

Lemma low_power_mode_store_effect_witness :
  exists s',
    low_power_mode_store (fun _ => (50, 100)) (Num 1) init_state
    = Ret (0, s') /\ low_power_mode s' = true.
Proof.
  destruct (low_power_mode_store_effect (fun _ => (50, 100)) 1 init_state)
    as (s' & Hs & Hl & _).
  - vm_compute. split; [discriminate | reflexivity].
  - vm_compute. discriminate.
  - vm_compute. discriminate.
  - exists s'. split; [exact Hs | exact Hl].
Defined.

(** X19: entering low-power mode through the parameter.  From an active
    controller with the flag clear, no force-online-all pending and no
    work on the queue, writing a non-zero value and letting the 1 ms tick
    run ends suspended, with the work not pending, the required number of
    little cores online (all four while the screen is on) and the big
    flag cleared. *)
Theorem low_power_mode_entry (tm tm' : time_source) (v : Z) (s : state) :
  - 2 ^ 31 <= v < 2 ^ 31 -> v <> 0 ->
  active s = true -> online_all s = false -> low_power_mode s = false ->
  work s <> WorkQueued ->
  exists s1 s2,
    low_power_mode_store tm (Num v) s = Ret (0, s1) /\
    tick tm' (timer_fire s1) = Ret s2 /\
    low_power_mode s2 = true /\ screen_off_power_mode s2 = false /\
    workqueue_suspended s2 = true /\ work s2 = WorkIdle /\
    big_cluster_enabled s2 = false /\
    (forall c, is_little_cpu c = true ->
       cpu_online s2 c = (Z.of_nat c <? required_little_cpus s1)) /\
    (screen_on s = true ->
     forall c, is_little_cpu c = true -> cpu_online s2 c = true).
Proof.
  intros Hv Hnz Hact Hall Hlpm Hw. unfold low_power_mode_store.
  rewrite (kstrtoint_num v Hv). cbn [fst snd Z.eqb].
  destruct (Z.eqb_spec v 0) as [|_]; [contradiction |]. cbn [negb].
  rewrite Hlpm. cbn [Bool.eqb].
  rewrite (flush_workqueue_idle tm s Hw). cbn [bind].
  unfold queue_clusterplug_work, queue_delayed_work, cancel_delayed_work.
  cbn [low_power_mode set_low_power_mode work set_work
       set_workqueue_suspended set_screen_off_power_mode Z.eqb].
  eexists. eexists. split; [reflexivity |].
  unfold timer_fire. cbn [work set_work]. unfold tick, run_work.
  cbn [work set_work].
  match goal with
  | |- context [cluster_plug_work_fn tm' false ?x] =>
      rewrite (cluster_plug_work_fn_suspend tm' x Hact Hall);
      [destruct (suspend_result x)
         as (Hs & Hwk & _ & _ & _ & _ & Hlp & Hso & _ & _ & _ & Hb & Hlit & _)
      | unfold sampling_wanted; cbn; apply andb_false_r]
  end.
  split; [reflexivity |].
  split; [exact Hlp |]. split; [exact Hso |].
  split; [exact Hs |]. split; [exact Hwk |]. split; [exact Hb |].
  split; [exact Hlit |].
  intros Hscr c Hc. rewrite (Hlit c Hc).
  unfold required_little_cpus. cbn [screen_on set_work set_workqueue_suspended
    set_screen_off_power_mode set_low_power_mode].
  rewrite Hscr. cbn [negb andb].
  unfold is_little_cpu, N_LITTLE_CPUS in Hc.
  apply Nat.ltb_lt in Hc. apply Z.ltb_lt. lia.
Qed.

Lemma low_power_mode_entry_witness :
  exists s1 s2,
    low_power_mode_store (fun _ => (50, 100)) (Num 1)
      (set_active true init_state) = Ret (0, s1) /\
    tick (fun _ => (50, 100)) (timer_fire s1) = Ret s2 /\
    workqueue_suspended s2 = true.
Proof.
  destruct (low_power_mode_entry (fun _ => (50, 100)) (fun _ => (50, 100)) 1
              (set_active true init_state))
    as (s1 & s2 & H1 & H2 & _ & _ & H3 & _); try reflexivity.
  - vm_compute. split; [discriminate | reflexivity].
  - discriminate.
  - vm_compute. discriminate.
  - exists s1, s2. auto.
Defined.

(** ** When a store returns *)

Lemma flush_workqueue_blocks tm s :
  work s = WorkQueued -> active s = true -> online_all s = false ->
  sampling_wanted s = false ->
  flush_workqueue tm s = Blocked.
Proof.
  unfold sampling_wanted. intros Hw Hact Hall Hsw.
  unfold flush_workqueue, run_work. rewrite Hw.
  unfold cluster_plug_work_fn.
  cbn [online_all set_work]. rewrite Hall.
  cbn [online_all active screen_on screen_off_power_mode low_power_mode
       set_work].
  rewrite Hall, Hact, Hsw. reflexivity.
Qed.

Lemma flush_workqueue_returns tm s :
  work s <> WorkQueued \/ online_all s = true \/ active s = false \/
  (sampling_wanted s = true /\ cpu_online s 0 = true) ->
  exists s1, flush_workqueue tm s = Ret s1.
Proof.
  intros H. unfold flush_workqueue, run_work.
  destruct (work s) eqn:Hw; try (eexists; reflexivity).
  destruct H as [H|[H|[H|[Hsw H0]]]]; [now elim H | | |].
  - rewrite (cluster_plug_work_fn_force tm true (set_work WorkIdle s) H).
    eexists. reflexivity.
  - destruct (cluster_plug_work_fn_inactive tm true (set_work WorkIdle s) H)
      as (s1 & -> & _).
    eexists. reflexivity.
  - destruct (online_all s) eqn:Hall.
    + rewrite (cluster_plug_work_fn_force tm true (set_work WorkIdle s) Hall).
      eexists. reflexivity.
    + destruct (active s) eqn:Hact.
      * rewrite (cluster_plug_work_fn_sampling tm true (set_work WorkIdle s)
                   Hact Hall Hsw).
        destruct (cluster_plug_perform_returns tm (set_work WorkIdle s) H0)
          as (s2 & ->).
        cbn [bind]. eexists. reflexivity.
      * destruct (cluster_plug_work_fn_inactive tm true (set_work WorkIdle s)
                    Hact) as (s1 & -> & _).
        eexists. reflexivity.
Qed.

(** X20: a write to [active] that changes the flag returns 0 whenever the
    flush cannot get stuck, that is when no work sits on the queue, or
    [online_all] is set, or the controller is inactive (so enabling always
    returns), or the queued tick will sample and cpu0 is online.  It then
    has set [online_all], cleared the suspension flag and left the work
    pending with a delay of 1 ms, and the tick this produces leaves all
    eight cores online and both cluster flags set, clears [online_all] and
    keeps the new value of [active]. *)
Theorem active_store_toggle_effect
    (tm tm' : time_source) (v : Z) (s : state) :
  - 2 ^ 31 <= v < 2 ^ 31 ->
  negb (v =? 0) <> active s ->
  work s <> WorkQueued \/ online_all s = true \/ active s = false \/
  (sampling_wanted s = true /\ cpu_online s 0 = true) ->
  exists s' s'',
    active_store tm (Num v) s = Ret (0, s') /\
    active s' = negb (active s) /\
    online_all s' = true /\
    workqueue_suspended s' = false /\
    work s' = WorkTimer 1 /\
    tick tm' (timer_fire s') = Ret s'' /\
    (forall c, (c < 8)%nat -> cpu_online s'' c = true) /\
    big_cluster_enabled s'' = true /\
    little_cluster_enabled s'' = true /\
    online_all s'' = false /\
    active s'' = active s'.
Proof.
  intros Hv Htog Hfl.
  destruct (flush_workqueue_returns tm s Hfl) as [s1 Hs1].
  assert (Hk : kstrtoint (Num v) = (0, v)) by exact (kstrtoint_num v Hv).
  assert (Hret : exists s', active_store tm (Num v) s = Ret (0, s')).
  { unfold active_store. rewrite Hk. cbn [fst snd Z.eqb].
    assert (Heq : Bool.eqb (negb (v =? 0)) (active s) = false)
      by (destruct (negb (v =? 0)), (active s); auto; now elim Htog).
    rewrite Heq, Hs1. cbn [bind]. eexists. reflexivity. }
  destruct Hret as [s' Hs'].
  destruct (active_store_toggle_returned tm tm' (Num v) s) as [_ Heff].
  - now rewrite Hk.
  - now rewrite Hk.
  - destruct (Heff 0 s' Hs')
      as (_ & Ha & Hoa & Hws & Hw & s'' & Ht & Hon & Hb & Hl & Hoa' & Ha').
    exists s', s''. auto 12.
Qed.

(** Enabling the controller in its initial state. *)
Lemma active_store_toggle_effect_witness :
  exists s' s'',
    active_store (fun _ => (50, 100)) (Num 1) init_state = Ret (0, s') /\
    online_all s' = true /\
    tick (fun _ => (50, 100)) (timer_fire s') = Ret s''.
Proof.
  destruct (active_store_toggle_effect (fun _ => (50, 100))
              (fun _ => (50, 100)) 1 init_state)
    as (s' & s'' & H1 & _ & H2 & _ & _ & H3 & _).
  - vm_compute. split; [discriminate | reflexivity].
  - vm_compute. discriminate.
  - left. vm_compute. discriminate.
  - exists s', s''. auto.
Defined.

(** X21: while a tick sits on the queue that will take the suspend branch
    (controller active, no force-online-all pending, mode not calling for
    sampling), a write that changes [active], [low_power_mode] or
    [screen_off_power_mode] never returns: it flushes the queue with
    [cluster_plug_mutex] held, and the flushed tick waits for that mutex.
    A write that does not change the flag returns at once with the state
    untouched. *)
Theorem stores_block_behind_suspend_tick
    (tm : time_source) (v : Z) (s : state) :
  - 2 ^ 31 <= v < 2 ^ 31 ->
  work s = WorkQueued -> active s = true -> online_all s = false ->
  sampling_wanted s = false ->
  (v = 0 -> active_store tm (Num v) s = Blocked) /\
  (v <> 0 -> active_store tm (Num v) s = Ret (0, s)) /\
  (negb (v =? 0) <> low_power_mode s ->
   low_power_mode_store tm (Num v) s = Blocked) /\
  (negb (v =? 0) = low_power_mode s ->
   low_power_mode_store tm (Num v) s = Ret (0, s)) /\
  (negb (v =? 0) <> screen_off_power_mode s ->
   screen_off_power_mode_store tm (Num v) s = Blocked) /\
  (negb (v =? 0) = screen_off_power_mode s ->
   screen_off_power_mode_store tm (Num v) s = Ret (0, s)).
Proof.
  intros Hv Hw Hact Hall Hsw.
  pose proof (flush_workqueue_blocks tm s Hw Hact Hall Hsw) as Hfl.
  pose proof (kstrtoint_num v Hv) as Hk.
  unfold active_store, low_power_mode_store, screen_off_power_mode_store.
  rewrite Hk, Hfl, Hact. cbn [fst snd Z.eqb bind].
  repeat split.
  - intros ->. reflexivity.
  - intros Hnz. destruct (Z.eqb_spec v 0); [contradiction | reflexivity].
  - intros Hne.
    destruct (negb (v =? 0)), (low_power_mode s); try reflexivity;
      now elim Hne.
  - intros <-. now destruct (negb (v =? 0)).
  - intros Hne.
    destruct (negb (v =? 0)), (screen_off_power_mode s); try reflexivity;
      now elim Hne.
  - intros <-. now destruct (negb (v =? 0)).
Qed.

(** The queued suspend tick after the screen has gone off. *)
Lemma stores_block_behind_suspend_tick_witness :
  low_power_mode_store (fun _ => (50, 100)) (Num 1)
    (set_work WorkQueued (set_screen_on false (set_active true init_state)))
  = Blocked.
Proof.
  apply (stores_block_behind_suspend_tick (fun _ => (50, 100)) 1
           (set_work WorkQueued
              (set_screen_on false (set_active true init_state))));
    try reflexivity.
  - vm_compute. split; [discriminate | reflexivity].
  - vm_compute. discriminate.
Defined.
